(** * terraform-provider-superset: reconciliation core

    A shallow embedding of the provider's model functions
    (internal/provider/model_*.go), of the paginated list operations
    and the reads by id of the client wrapper
    (internal/client/client_wrapper.go), of the Delete handlers of three
    resources, of the Read and Update handlers of the user resource and
    of the permission validator of the role-permissions resource, with
    the properties the specification states about them and further
    properties of the code. *)

From stdpp Require Import gmap strings list pretty.
From Stdlib Require Import ZArith Lia Ascii.

Local Open Scope string_scope.
Local Open Scope list_scope.

(** ** Go values shared by every part *)

(** A Go [error].  [NotFoundError] is the client's own error type;
    [wrapError] is an error built with [fmt.Errorf("...: %w", err)]. *)
Inductive error : Type :=
| NotFoundError (Resource : string) (ID : option Z)
| errorString (msg : string)
| wrapError (msg : string) (inner : error).

(** A Go function returning [(T, error)]. *)
Inductive Result (A : Type) : Type :=
| Ok (a : A)
| Err (e : error).
Arguments Ok {A} a.
Arguments Err {A} e.

(** A Go computation that either returns or panics. *)
Inductive go (A : Type) : Type :=
| Done (a : A)
| Panic (reason : string).
Arguments Done {A} a.
Arguments Panic {A} reason.

Global Instance go_ret : MRet go := fun A a => Done a.
Global Instance go_bind : MBind go := fun A B k c =>
  match c with
  | Done a => k a
  | Panic r => Panic r
  end.

(** ** terraform-plugin-framework [types] *)
Module types.

(** [types.String]: null, unknown or known. *)
Inductive String : Type :=
| StringNull
| StringUnknown
| StringValue (s : string).

Definition IsNull (v : String) : bool :=
  match v with StringNull => true | _ => false end.

(** [ValueString] reads the empty string from a null or unknown value. *)
Definition ValueString (v : String) : string :=
  match v with StringValue s => s | _ => "" end.

Inductive Int64 : Type :=
| Int64Null
| Int64Unknown
| Int64Value (n : Z).

Inductive Bool : Type :=
| BoolNull
| BoolUnknown
| BoolValue (b : bool).

Global Instance String_eq_dec : EqDecision String.
Proof. solve_decision. Defined.

End types.

(** ** oapi-codegen [nullable.Nullable] *)
Module nullable.

(** A field of a wire object: not sent, sent as [null], or sent with a
    value. *)
Inductive Nullable (A : Type) : Type :=
| Unspecified
| Null
| Value (a : A).
Arguments Unspecified {A}.
Arguments Null {A}.
Arguments Value {A} a.

Definition IsNull {A} (t : Nullable A) : bool :=
  match t with Null => true | _ => false end.

Definition IsSpecified {A} (t : Nullable A) : bool :=
  match t with Unspecified => false | _ => true end.

(** [MustGet] panics unless a value is present. *)
Definition MustGet {A} (t : Nullable A) : go A :=
  match t with
  | Value a => Done a
  | Null => Panic "value is null"
  | Unspecified => Panic "value is not specified"
  end.

Definition NewNullableWithValue {A} (a : A) : Nullable A := Value a.

End nullable.

Import nullable.

(** ** google/uuid *)
Module uuid.

(** [uuid.UUID] is [[16]byte]; here the big-endian number it spells. *)
Definition UUID : Type := N.

Definition Nil : UUID := 0%N.

Definition hexdigit (d : N) : ascii :=
  if (d <? 10)%N then ascii_of_N (48 + d) else ascii_of_N (87 + d).

(** The [k] lowest hexadecimal digits of [n], most significant first. *)
Fixpoint hex (k : nat) (n : N) (acc : string) : string :=
  match k with
  | O => acc
  | S k' => hex k' (n / 16)%N (String.String (hexdigit (n mod 16)%N) acc)
  end.

(** [UUID.String]: xxxxxxxx-xxxx-xxxx-xxxx-xxxxxxxxxxxx. *)
Definition String (u : UUID) : string :=
  hex 8 (u / 2 ^ 96)%N
    ("-" +:+ hex 4 (u / 2 ^ 80)%N
       ("-" +:+ hex 4 (u / 2 ^ 64)%N
          ("-" +:+ hex 4 (u / 2 ^ 48)%N
             ("-" +:+ hex 12 u "")))).

End uuid.

(** ** internal/provider/model_dataset_columns.go *)

(** Modelled from the spec: the generated [client.DatasetRestApiGetTableColumn]
    is not among the sources; these are the fields the model functions
    read, with the types their uses impose ([IsNull], [IsSpecified] and
    [MustGet] on the nullable ones). *)
Record DatasetRestApiGetTableColumn : Type := {
  tc_Id : Z;
  tc_ColumnName : string;
  tc_Type : Nullable string;
  tc_Uuid : Nullable uuid.UUID;
}.

Record datasetColumn : Type := {
  dc_Id : types.Int64;
  dc_AdvancedDataType : types.String;
  dc_ColumnName : types.String;
  dc_Description : types.String;
  dc_Expression : types.String;
  dc_Extra : types.String;
  dc_Filterable : types.Bool;
  dc_Groupby : types.Bool;
  dc_IsActive : types.Bool;
  dc_IsDttm : types.Bool;
  dc_Type : types.String;
  dc_VerboseName : types.String;
}.

Record datasetColumnsBaseModel : Type := {
  cm_DatasetId : types.Int64;
  cm_DatasetName : types.String;
  cm_Columns : list datasetColumn;
}.

Definition set_dc_Id (column : datasetColumn) (v : types.Int64) : datasetColumn :=
  {| dc_Id := v;
     dc_AdvancedDataType := dc_AdvancedDataType column;
     dc_ColumnName := dc_ColumnName column;
     dc_Description := dc_Description column;
     dc_Expression := dc_Expression column;
     dc_Extra := dc_Extra column;
     dc_Filterable := dc_Filterable column;
     dc_Groupby := dc_Groupby column;
     dc_IsActive := dc_IsActive column;
     dc_IsDttm := dc_IsDttm column;
     dc_Type := dc_Type column;
     dc_VerboseName := dc_VerboseName column |}.

Definition set_dc_Type (column : datasetColumn) (v : types.String) : datasetColumn :=
  {| dc_Id := dc_Id column;
     dc_AdvancedDataType := dc_AdvancedDataType column;
     dc_ColumnName := dc_ColumnName column;
     dc_Description := dc_Description column;
     dc_Expression := dc_Expression column;
     dc_Extra := dc_Extra column;
     dc_Filterable := dc_Filterable column;
     dc_Groupby := dc_Groupby column;
     dc_IsActive := dc_IsActive column;
     dc_IsDttm := dc_IsDttm column;
     dc_Type := v;
     dc_VerboseName := dc_VerboseName column |}.

(** The first loop of [resovleColumns]: a later server column overwrites
    an earlier one of the same name. *)
Definition mapColumnNameToColumn (columns : list DatasetRestApiGetTableColumn)
  : gmap string DatasetRestApiGetTableColumn :=
  foldl (fun m c => <[tc_ColumnName c := c]> m) ∅ columns.

(** The body of the second loop, for one declared column. *)
Definition resovleColumn (m : gmap string DatasetRestApiGetTableColumn)
    (column : datasetColumn) : go datasetColumn :=
  let columnName := types.ValueString (dc_ColumnName column) in
  match m !! columnName with
  | Some c =>
      let column := set_dc_Id column (types.Int64Value (tc_Id c)) in
      if negb (IsNull (tc_Type c)) then
        t ← MustGet (tc_Type c);
        if bool_decide (t <> "") then Done (set_dc_Type column (types.StringValue t))
        else Done column
      else Done column
  | None => Done column
  end.

Fixpoint resovleColumns_loop (m : gmap string DatasetRestApiGetTableColumn)
    (declared resolvedColumns : list datasetColumn) : go (list datasetColumn) :=
  match declared with
  | [] => Done resolvedColumns
  | column :: rest =>
      column' ← resovleColumn m column;
      resovleColumns_loop m rest (resolvedColumns ++ [column'])
  end.

Definition resovleColumns (model : datasetColumnsBaseModel)
    (columns : list DatasetRestApiGetTableColumn) : go (list datasetColumn) :=
  resovleColumns_loop (mapColumnNameToColumn columns) (cm_Columns model) [].

(** [datasetColumn.updateState], the [Type] field only: how a server
    type reads in configuration shape. *)
Definition updateState_Type (d : DatasetRestApiGetTableColumn) : go types.String :=
  if IsNull (tc_Type d) then Done types.StringNull
  else t ← MustGet (tc_Type d);
       if bool_decide (t = "") then Done types.StringNull else Done (types.StringValue t).

(** The declared column [d] with the id of the server column [c], and
    with its type when that is a non-empty string; every other field,
    and the type otherwise, is the declared one. *)
Definition resolved_with (d : datasetColumn) (c : DatasetRestApiGetTableColumn)
  : datasetColumn :=
  set_dc_Type (set_dc_Id d (types.Int64Value (tc_Id c)))
    match tc_Type c with
    | Value t => if bool_decide (t = "") then dc_Type d else types.StringValue t
    | _ => dc_Type d
    end.

(** Concrete inputs for the column reconcile. *)
Definition col_declared (name type : string) (id : types.Int64) : datasetColumn :=
  {| dc_Id := id;
     dc_AdvancedDataType := types.StringNull;
     dc_ColumnName := types.StringValue name;
     dc_Description := types.StringValue "declared";
     dc_Expression := types.StringNull;
     dc_Extra := types.StringNull;
     dc_Filterable := types.BoolValue true;
     dc_Groupby := types.BoolNull;
     dc_IsActive := types.BoolNull;
     dc_IsDttm := types.BoolNull;
     dc_Type := types.StringValue type;
     dc_VerboseName := types.StringNull |}.

Definition col_server (id : Z) (name : string) (type : Nullable string)
  : DatasetRestApiGetTableColumn :=
  {| tc_Id := id; tc_ColumnName := name; tc_Type := type; tc_Uuid := Unspecified |}.

Definition cols_model (cs : list datasetColumn) : datasetColumnsBaseModel :=
  {| cm_DatasetId := types.Int64Value 1;
     cm_DatasetName := types.StringValue "tables";
     cm_Columns := cs |}.

Definition cols_declared_ex : list datasetColumn :=
  [ col_declared "COL1" "VARCHAR" types.Int64Null;
    col_declared "COL2" "TEXT" (types.Int64Value 99);
    col_declared "COL3" "DATE" types.Int64Unknown ].

Definition cols_server_ex : list DatasetRestApiGetTableColumn :=
  [ col_server 11 "COL2" (Value "BIGINT"); col_server 12 "COL1" Null ].

(** ** internal/provider/model_dataset_folder.go *)

(** Modelled from the spec: the generated [client.FolderType] and its
    three constants are not among the sources; the spec and the schema
    validators of the folder resource name the values. *)
Definition FolderType : Type := string.
Definition FolderTypeFolder : FolderType := "folder".
Definition FolderTypeColumn : FolderType := "column".
Definition FolderTypeMetric : FolderType := "metric".

(** Modelled from the spec: the generated [client.Folder] is not among
    the sources; a wire folder node has a name, a type tag, a uuid, an
    optional description and an optional list of children. *)
#[warnings="-register-all"] Inductive Folder : Type := mkFolder {
  wf_Name : string;
  wf_Type : FolderType;
  wf_Description : Nullable string;
  wf_Children : Nullable (list Folder);
  wf_Uuid : uuid.UUID;
}.

(** Modelled from the spec: the generated [client.DatasetRestApiGetSqlMetric]
    is not among the sources; these are the fields the model functions
    read. *)
Record DatasetRestApiGetSqlMetric : Type := {
  sm_Id : Z;
  sm_MetricName : string;
  sm_Expression : string;
  sm_Extra : Nullable string;
  sm_Uuid : Nullable uuid.UUID;
}.

(** The folders field of a dataset is an untyped JSON value that
    [mapToFolders] re-encodes and decodes as [[]client.Folder]; the
    value is represented by what that decoding makes of it. *)
Inductive FoldersJSON : Type :=
| DecodesTo (folders : list Folder)
| DoesNotDecode (err : error).

(** Modelled from the spec: the generated [client.DatasetRestApiGet] is
    not among the sources; these are the fields the model functions
    read. *)
Record DatasetRestApiGet : Type := {
  ds_Id : Z;
  ds_TableName : string;
  ds_Columns : list DatasetRestApiGetTableColumn;
  ds_Metrics : list DatasetRestApiGetSqlMetric;
  ds_Folders : Nullable FoldersJSON;
}.

Record datasetFolderChildModel : Type := {
  fc_Name : types.String;
  fc_Description : types.String;
  fc_Type : types.String;
  fc_Uuid : types.String;
}.

Record datasetFolderModel : Type := {
  fm_Name : types.String;
  fm_Description : types.String;
  fm_Type : types.String;
  fm_Children : list datasetFolderChildModel;
  fm_Uuid : types.String;
}.

Record datasetFolderBaseModel : Type := {
  fb_DatasetId : types.Int64;
  fb_DatasetName : types.String;
  fb_Folders : list datasetFolderModel;
}.

Definition zero_uuid_string : string := "00000000-0000-0000-0000-000000000000".

Definition mapToFolders (m : FoldersJSON) : Result (list Folder) :=
  match m with
  | DecodesTo folders => Ok folders
  | DoesNotDecode err => Err err
  end.

(** The loop over the children in [datasetFolderModel.updateState]: the
    children mapped so far, then an error at the first child without a
    uuid. *)
Fixpoint updateState_children (wire : list Folder)
    (children : list datasetFolderChildModel)
  : go (Result (list datasetFolderChildModel)) :=
  match wire with
  | [] => Done (Ok children)
  | child :: rest =>
      let childModel :=
        {| fc_Name := types.StringValue (wf_Name child);
           fc_Type := types.StringValue (wf_Type child);
           fc_Description := types.StringNull;
           fc_Uuid := types.StringNull |} in
      childModel ←
        (if IsSpecified (wf_Description child) then
           s ← MustGet (wf_Description child);
           if bool_decide (s <> "") then
             Done {| fc_Name := fc_Name childModel;
                     fc_Type := fc_Type childModel;
                     fc_Description := types.StringValue s;
                     fc_Uuid := fc_Uuid childModel |}
           else Done childModel
         else Done childModel);
      let u := uuid.String (wf_Uuid child) in
      if bool_decide (u = "") || bool_decide (u = zero_uuid_string) then
        Done (Err (errorString
          ("missing uuid for child " +:+ wf_Name child +:+ " in folders response")))
      else
        let childModel :=
          {| fc_Name := fc_Name childModel;
             fc_Type := fc_Type childModel;
             fc_Description := fc_Description childModel;
             fc_Uuid := types.StringValue (uuid.String (wf_Uuid child)) |} in
        updateState_children rest (children ++ [childModel])
  end.

(** [datasetFolderModel.updateState]: the receiver as the call leaves
    it, and the error returned. *)
Definition datasetFolderModel_updateState (model : datasetFolderModel) (d : Folder)
  : go (datasetFolderModel * option error) :=
  let model :=
    {| fm_Name := types.StringValue (wf_Name d);
       fm_Description := fm_Description model;
       fm_Type := fm_Type model;
       fm_Children := fm_Children model;
       fm_Uuid := fm_Uuid model |} in
  model ←
    (if IsSpecified (wf_Description d) then
       s ← MustGet (wf_Description d);
       if bool_decide (s <> "") then
         Done {| fm_Name := fm_Name model;
                 fm_Description := types.StringValue s;
                 fm_Type := fm_Type model;
                 fm_Children := fm_Children model;
                 fm_Uuid := fm_Uuid model |}
       else Done model
     else Done model);
  if bool_decide (wf_Type d <> FolderTypeFolder) then
    Done (model, Some (errorString
      ("unexpected folder type in dataset folders response: " +:+ wf_Type d
       +:+ ". Nested folders are not supported.")))
  else
    let model :=
      {| fm_Name := fm_Name model;
         fm_Description := fm_Description model;
         fm_Type := types.StringValue (wf_Type d);
         fm_Children := fm_Children model;
         fm_Uuid := types.StringValue (uuid.String (wf_Uuid d)) |} in
    if negb (IsNull (wf_Children d)) then
      cs ← MustGet (wf_Children d);
      if bool_decide (0 < length cs)%nat then
        r ← updateState_children cs [];
        match r with
        | Err e => Done (model, Some e)
        | Ok children =>
            Done ({| fm_Name := fm_Name model;
                     fm_Description := fm_Description model;
                     fm_Type := fm_Type model;
                     fm_Children := children;
                     fm_Uuid := fm_Uuid model |}, None)
        end
      else Done (model, None)
    else Done (model, None).

(** The loop over the root folders in [datasetFolderBaseModel.updateState]. *)
Fixpoint updateState_folders (typedFolders : list Folder)
    (folders : list datasetFolderModel)
  : go (Result (list datasetFolderModel)) :=
  match typedFolders with
  | [] => Done (Ok folders)
  | folder :: rest =>
      let folderModel :=
        {| fm_Name := types.StringValue (wf_Name folder);
           fm_Description := types.StringNull;
           fm_Type := types.StringNull;
           fm_Children := [];
           fm_Uuid := types.StringNull |} in
      folderModel ←
        (if IsSpecified (wf_Description folder) then
           s ← MustGet (wf_Description folder);
           if bool_decide (s <> "") then
             Done {| fm_Name := fm_Name folderModel;
                     fm_Description := types.StringValue s;
                     fm_Type := fm_Type folderModel;
                     fm_Children := fm_Children folderModel;
                     fm_Uuid := fm_Uuid folderModel |}
           else Done folderModel
         else Done folderModel);
      if bool_decide (wf_Type folder <> FolderTypeFolder) then
        Done (Err (errorString
          ("unexpected folder type in dataset folders response: " +:+ wf_Type folder
           +:+ ". Root level folders are expected to be of type 'folder'.")))
      else
        let folderModel :=
          {| fm_Name := fm_Name folderModel;
             fm_Description := fm_Description folderModel;
             fm_Type := types.StringValue (wf_Type folder);
             fm_Children := fm_Children folderModel;
             fm_Uuid := fm_Uuid folderModel |} in
        r ← datasetFolderModel_updateState folderModel folder;
        match r with
        | (_, Some err) => Done (Err err)
        | (folderModel, None) =>
            let folderModel :=
              {| fm_Name := fm_Name folderModel;
                 fm_Description := fm_Description folderModel;
                 fm_Type := fm_Type folderModel;
                 fm_Children := fm_Children folderModel;
                 fm_Uuid := types.StringValue (uuid.String (wf_Uuid folder)) |} in
            updateState_folders rest (folders ++ [folderModel])
        end
  end.

(** [datasetFolderBaseModel.updateState]: the receiver as the call
    leaves it, and the error returned. *)
Definition datasetFolderBaseModel_updateState (model : datasetFolderBaseModel)
    (d : DatasetRestApiGet) : go (datasetFolderBaseModel * option error) :=
  let model :=
    {| fb_DatasetId := types.Int64Value (ds_Id d);
       fb_DatasetName := types.StringValue (ds_TableName d);
       fb_Folders := fb_Folders model |} in
  if IsNull (ds_Folders d) then Done (model, None)
  else
    _folders ← MustGet (ds_Folders d);
    match mapToFolders _folders with
    | Err err =>
        Done (model,
              Some (wrapError "failed to map folders from API response: " err))
    | Ok typedFolders =>
        r ← updateState_folders typedFolders [];
        match r with
        | Err err => Done (model, Some err)
        | Ok folders =>
            Done ({| fb_DatasetId := fb_DatasetId model;
                     fb_DatasetName := fb_DatasetName model;
                     fb_Folders := folders |}, None)
        end
    end.

Fixpoint findColumnByName (columns : list DatasetRestApiGetTableColumn) (name : string)
  : option DatasetRestApiGetTableColumn :=
  match columns with
  | [] => None
  | column :: rest =>
      if bool_decide (tc_ColumnName column = name) then Some column
      else findColumnByName rest name
  end.

Fixpoint findMetricByName (metrics : list DatasetRestApiGetSqlMetric) (name : string)
  : option DatasetRestApiGetSqlMetric :=
  match metrics with
  | [] => None
  | metric :: rest =>
      if bool_decide (sm_MetricName metric = name) then Some metric
      else findMetricByName rest name
  end.

Definition set_fc_Uuid (child : datasetFolderChildModel) (v : types.String)
  : datasetFolderChildModel :=
  {| fc_Name := fc_Name child;
     fc_Description := fc_Description child;
     fc_Type := fc_Type child;
     fc_Uuid := v |}.

Definition set_fm_Children (folder : datasetFolderModel)
    (children : list datasetFolderChildModel) : datasetFolderModel :=
  {| fm_Name := fm_Name folder;
     fm_Description := fm_Description folder;
     fm_Type := fm_Type folder;
     fm_Children := children;
     fm_Uuid := fm_Uuid folder |}.

(** The body of the loop of [datasetFolderModel.resolveColumns]: what
    [model.Children[i]] holds after the iteration. *)
Definition resolveColumns_child (d : DatasetRestApiGet) (child : datasetFolderChildModel)
  : go datasetFolderChildModel :=
  if bool_decide (types.ValueString (fc_Type child) = FolderTypeColumn) then
    match findColumnByName (ds_Columns d) (types.ValueString (fc_Name child)) with
    | Some column =>
        if IsSpecified (tc_Uuid column) then
          u ← MustGet (tc_Uuid column);
          Done (set_fc_Uuid child (types.StringValue (uuid.String u)))
        else Done child
    | None => Done child
    end
  else if bool_decide (types.ValueString (fc_Type child) = FolderTypeMetric) then
    match findMetricByName (ds_Metrics d) (types.ValueString (fc_Name child)) with
    | Some metric =>
        if IsSpecified (sm_Uuid metric) then
          u ← MustGet (sm_Uuid metric);
          Done (set_fc_Uuid child (types.StringValue (uuid.String u)))
        else Done child
    | None => Done child
    end
  else Done child.

Fixpoint resolveColumns_children (d : DatasetRestApiGet)
    (children : list datasetFolderChildModel) : go (list datasetFolderChildModel) :=
  match children with
  | [] => Done []
  | child :: rest =>
      child' ← resolveColumns_child d child;
      rest' ← resolveColumns_children d rest;
      Done (child' :: rest')
  end.

(** [datasetFolderModel.resolveColumns] writes into the children of its
    receiver; the result is the receiver after the call. *)
Definition datasetFolderModel_resolveColumns (model : datasetFolderModel)
    (d : DatasetRestApiGet) : go datasetFolderModel :=
  children ← resolveColumns_children d (fm_Children model);
  Done (set_fm_Children model children).

Fixpoint resolveColumns_folders (d : DatasetRestApiGet)
    (folders : list datasetFolderModel) : go (list datasetFolderModel) :=
  match folders with
  | [] => Done []
  | folder :: rest =>
      folder' ←
        (if bool_decide (types.ValueString (fm_Type folder) = FolderTypeFolder)
         then datasetFolderModel_resolveColumns folder d
         else Done folder);
      rest' ← resolveColumns_folders d rest;
      Done (folder' :: rest')
  end.

(** [datasetFolderBaseModel.resolveColumns]: the receiver after the call. *)
Definition datasetFolderBaseModel_resolveColumns (model : datasetFolderBaseModel)
    (d : DatasetRestApiGet) : go datasetFolderBaseModel :=
  folders ← resolveColumns_folders d (fb_Folders model);
  Done {| fb_DatasetId := fb_DatasetId model;
          fb_DatasetName := fb_DatasetName model;
          fb_Folders := folders |}.

(** The declared uuid is not reused: it is null, or reads as the empty
    string or as the all-zero uuid. *)
Definition uuid_unset (v : types.String) : bool :=
  types.IsNull v
  || bool_decide (types.ValueString v = "")
  || bool_decide (types.ValueString v = zero_uuid_string).

Section toFolders.

(** [uuid.Parse], and the random source behind [uuid.New]: [random n]
    is the uuid of the [n]-th draw.  The flatten functions thread the
    number of draws made so far. *)
Variable Parse : string -> Result uuid.UUID.
Variable random : nat -> uuid.UUID.

Fixpoint datasetFolderModel_toFolders_loop (children : list datasetFolderChildModel)
    (folders : list Folder) (n : nat) : Result (list Folder) * nat :=
  match children with
  | [] => (Ok folders, n)
  | child :: rest =>
      let '(r, n) :=
        if uuid_unset (fc_Uuid child) then (Ok (random n), S n)
        else (Parse (types.ValueString (fc_Uuid child)), n) in
      match r with
      | Err err => (Err err, n)
      | Ok u =>
          let folder :=
            {| wf_Name := types.ValueString (fc_Name child);
               wf_Type := types.ValueString (fc_Type child);
               wf_Children := NewNullableWithValue [];
               wf_Uuid := u;
               wf_Description :=
                 if negb (types.IsNull (fc_Description child))
                    && bool_decide (types.ValueString (fc_Description child) <> "")
                 then NewNullableWithValue (types.ValueString (fc_Description child))
                 else Unspecified |} in
          datasetFolderModel_toFolders_loop rest (folders ++ [folder]) n
      end
  end.

Definition datasetFolderModel_toFolders (model : datasetFolderModel) (n : nat)
  : Result (list Folder) * nat :=
  datasetFolderModel_toFolders_loop (fm_Children model) [] n.

Fixpoint datasetFolderBaseModel_toFolders_loop (declared : list datasetFolderModel)
    (folders : list Folder) (n : nat) : Result (list Folder) * nat :=
  match declared with
  | [] => (Ok folders, n)
  | folderModel :: rest =>
      let '(r, n) :=
        if uuid_unset (fm_Uuid folderModel) then (Ok (random n), S n)
        else (Parse (types.ValueString (fm_Uuid folderModel)), n) in
      match r with
      | Err err => (Err err, n)
      | Ok u =>
          match datasetFolderModel_toFolders folderModel n with
          | (Err err, n) => (Err err, n)
          | (Ok children, n) =>
              let folder :=
                {| wf_Name := types.ValueString (fm_Name folderModel);
                   wf_Type := types.ValueString (fm_Type folderModel);
                   wf_Children :=
                     if bool_decide (0 < length children)%nat
                     then NewNullableWithValue children
                     else NewNullableWithValue [];
                   wf_Uuid := u;
                   wf_Description :=
                     if negb (types.IsNull (fm_Description folderModel))
                        && bool_decide (types.ValueString (fm_Description folderModel) <> "")
                     then NewNullableWithValue (types.ValueString (fm_Description folderModel))
                     else Unspecified |} in
              datasetFolderBaseModel_toFolders_loop rest (folders ++ [folder]) n
          end
      end
  end.

Definition datasetFolderBaseModel_toFolders (model : datasetFolderBaseModel) (n : nat)
  : Result (list Folder) * nat :=
  datasetFolderBaseModel_toFolders_loop (fb_Folders model) [] n.

End toFolders.

(** The declared uuid fields of a folder list, each root folder followed
    by its children: the order in which the flatten visits them. *)
Definition declared_uuids (folders : list datasetFolderModel) : list types.String :=
  concat (map (fun f => fm_Uuid f :: map fc_Uuid (fm_Children f)) folders).

(** The uuids of a two-level wire folder list, in the same order. *)
Definition wire_uuids (ws : list Folder) : list uuid.UUID :=
  concat (map (fun w => wf_Uuid w ::
                        match wf_Children w with
                        | Value cs => map wf_Uuid cs
                        | _ => []
                        end) ws).

Definition count_unset (us : list types.String) : nat :=
  length (filter (fun v => uuid_unset v = true) us).

(** A wire child carries the declared child's name and type, and an
    explicit empty children list. *)
Definition child_flattened (c : datasetFolderChildModel) (w : Folder) : Prop :=
  wf_Name w = types.ValueString (fc_Name c) /\
  wf_Type w = types.ValueString (fc_Type c) /\
  wf_Children w = Value [].

(** A wire root folder carries the declared folder's name and type, and
    an explicit children list with one entry per declared child. *)
Definition folder_flattened (f : datasetFolderModel) (w : Folder) : Prop :=
  wf_Name w = types.ValueString (fm_Name f) /\
  wf_Type w = types.ValueString (fm_Type f) /\
  exists cs, wf_Children w = Value cs /\ Forall2 child_flattened (fm_Children f) cs.

(** The uuid rule of the specification over a list of declared uuids: a
    new random uuid for an unset one, the parsed uuid otherwise, and the
    first parse error. *)
Fixpoint assign_uuids (Parse : string -> Result uuid.UUID) (random : nat -> uuid.UUID)
    (us : list types.String) (n : nat) : Result (list uuid.UUID) * nat :=
  match us with
  | [] => (Ok [], n)
  | v :: rest =>
      if uuid_unset v then
        match assign_uuids Parse random rest (S n) with
        | (Ok l, n') => (Ok (random n :: l), n')
        | (Err e, n') => (Err e, n')
        end
      else
        match Parse (types.ValueString v) with
        | Err e => (Err e, n)
        | Ok u =>
            match assign_uuids Parse random rest n with
            | (Ok l, n') => (Ok (u :: l), n')
            | (Err e, n') => (Err e, n')
            end
        end
  end.

(** [uuid.Parse] on the canonical form
    xxxxxxxx-xxxx-xxxx-xxxx-xxxxxxxxxxxx, the only form the examples
    use; any other string is refused. *)
Definition xvalue (a : ascii) : option N :=
  let c := N_of_ascii a in
  if (48 <=? c)%N && (c <=? 57)%N then Some (c - 48)%N
  else if (97 <=? c)%N && (c <=? 102)%N then Some (c - 87)%N
  else if (65 <=? c)%N && (c <=? 70)%N then Some (c - 55)%N
  else None.

Fixpoint parse_hex (s : string) (i : nat) (acc : N) : option N :=
  match s with
  | EmptyString => Some acc
  | String.String a s' =>
      if bool_decide (i = 8%nat \/ i = 13%nat \/ i = 18%nat \/ i = 23%nat) then
        if bool_decide (a = "-"%char) then parse_hex s' (S i) acc else None
      else
        match xvalue a with
        | Some d => parse_hex s' (S i) (16 * acc + d)%N
        | None => None
        end
  end.

Definition ParseCanonical (s : string) : Result uuid.UUID :=
  if bool_decide (String.length s = 36%nat) then
    match parse_hex s 0 0 with
    | Some u => Ok u
    | None => Err (errorString "invalid UUID format")
    end
  else Err (errorString "invalid UUID length").

(** A random source for the examples. *)
Definition random_ex (n : nat) : uuid.UUID :=
  (0xf47ac10b58cc4372a5670e02b2c3d479 + N.of_nat n)%N.

Definition folder_child (name type : string) (uuid : types.String)
  : datasetFolderChildModel :=
  {| fc_Name := types.StringValue name;
     fc_Description := types.StringNull;
     fc_Type := types.StringValue type;
     fc_Uuid := uuid |}.

Definition folder_root (name type : string) (uuid : types.String)
    (children : list datasetFolderChildModel) : datasetFolderModel :=
  {| fm_Name := types.StringValue name;
     fm_Description := types.StringValue "a folder";
     fm_Type := types.StringValue type;
     fm_Children := children;
     fm_Uuid := uuid |}.

Definition folders_model (folders : list datasetFolderModel) : datasetFolderBaseModel :=
  {| fb_DatasetId := types.Int64Value 1;
     fb_DatasetName := types.StringValue "tables";
     fb_Folders := folders |}.

Definition wire_node (name : string) (type : FolderType) (u : uuid.UUID)
    (children : Nullable (list Folder)) : Folder :=
  {| wf_Name := name;
     wf_Type := type;
     wf_Description := Unspecified;
     wf_Children := children;
     wf_Uuid := u |}.

(** A wire tree with a folder inside a folder. *)
Definition nested_wire : list Folder :=
  [ wire_node "outer" "folder" 0xa1%N
      (Value [ wire_node "inner" "folder" 0xa2%N
                 (Value [ wire_node "COL1" "column" 0xa3%N (Value []) ]) ]) ].

Definition dataset_with_folders (folders : Nullable FoldersJSON) : DatasetRestApiGet :=
  {| ds_Id := 7;
     ds_TableName := "tables";
     ds_Columns := [];
     ds_Metrics := [];
     ds_Folders := folders |}.

(** The zero value of the folder model, as [var data] leaves it. *)
Definition datasetFolderBaseModel_zero : datasetFolderBaseModel :=
  {| fb_DatasetId := types.Int64Null;
     fb_DatasetName := types.StringNull;
     fb_Folders := [] |}.

(** What [resolveColumns] does to one child [c] of a root folder,
    [in_folder] telling whether the root folder's type reads "folder":
    [c'] is [c] but for the uuid, which is that of the first dataset
    column (or metric) of the child's name when the child is a column
    (or metric) of a root folder of type "folder" and that entry has a
    uuid, and is the child's own uuid when the root folder is of another
    type, when the child is neither a column nor a metric, or when no
    dataset entry has its name. *)
Definition child_resolved (d : DatasetRestApiGet) (in_folder : bool)
    (c c' : datasetFolderChildModel) : Prop :=
  fc_Name c' = fc_Name c /\
  fc_Description c' = fc_Description c /\
  fc_Type c' = fc_Type c /\
  (in_folder = true ->
   types.ValueString (fc_Type c) = "column" ->
   forall pre column post u,
     ds_Columns d = pre ++ column :: post ->
     Forall (fun x => tc_ColumnName x <> types.ValueString (fc_Name c)) pre ->
     tc_ColumnName column = types.ValueString (fc_Name c) ->
     tc_Uuid column = Value u ->
     fc_Uuid c' = types.StringValue (uuid.String u)) /\
  (in_folder = true ->
   types.ValueString (fc_Type c) = "metric" ->
   forall pre metric post u,
     ds_Metrics d = pre ++ metric :: post ->
     Forall (fun x => sm_MetricName x <> types.ValueString (fc_Name c)) pre ->
     sm_MetricName metric = types.ValueString (fc_Name c) ->
     sm_Uuid metric = Value u ->
     fc_Uuid c' = types.StringValue (uuid.String u)) /\
  (in_folder = false -> fc_Uuid c' = fc_Uuid c) /\
  (types.ValueString (fc_Type c) <> "column" ->
   types.ValueString (fc_Type c) <> "metric" ->
   fc_Uuid c' = fc_Uuid c) /\
  (types.ValueString (fc_Type c) = "column" ->
   Forall (fun x => tc_ColumnName x <> types.ValueString (fc_Name c)) (ds_Columns d) ->
   fc_Uuid c' = fc_Uuid c) /\
  (types.ValueString (fc_Type c) = "metric" ->
   Forall (fun x => sm_MetricName x <> types.ValueString (fc_Name c)) (ds_Metrics d) ->
   fc_Uuid c' = fc_Uuid c).

(** What [resolveColumns] does to one root folder: nothing but to its
    children, one by one. *)
Definition folder_resolved (d : DatasetRestApiGet) (f f' : datasetFolderModel) : Prop :=
  fm_Name f' = fm_Name f /\
  fm_Description f' = fm_Description f /\
  fm_Type f' = fm_Type f /\
  fm_Uuid f' = fm_Uuid f /\
  Forall2 (child_resolved d
             (bool_decide (types.ValueString (fm_Type f) = "folder")))
          (fm_Children f) (fm_Children f').

Definition dataset_ex : DatasetRestApiGet :=
  {| ds_Id := 7;
     ds_TableName := "tables";
     ds_Columns :=
       [ {| tc_Id := 1; tc_ColumnName := "COL1"; tc_Type := Value "BIGINT";
            tc_Uuid := Value 0xc1%N |};
         {| tc_Id := 2; tc_ColumnName := "COL2"; tc_Type := Null;
            tc_Uuid := Value 0xc2%N |} ];
     ds_Metrics :=
       [ {| sm_Id := 5; sm_MetricName := "METRIC1"; sm_Expression := "SUM(COL1)";
            sm_Extra := Null; sm_Uuid := Value 0xe1%N |} ];
     ds_Folders := Null |}.

Definition folders_ex : list datasetFolderModel :=
  [ folder_root "test_folder" "folder" types.StringNull
      [ folder_child "COL1" "column" types.StringNull;
        folder_child "COL2" "column" (types.StringValue "declared");
        folder_child "METRIC1" "metric" types.StringUnknown;
        folder_child "GHOST" "column" (types.StringValue "kept") ] ].

(** ** internal/provider/model_dataset_metrics.go *)

(** [types.Object], with the attribute values the provider stores in
    objects (strings, integers, booleans). *)
Inductive attr_Primitive : Type :=
| PString (s : types.String)
| PInt64 (i : types.Int64)
| PBool (b : types.Bool).

Inductive types_Object : Type :=
| ObjectNull
| ObjectUnknown
| ObjectValue (attributes : gmap string attr_Primitive).

(** [attr.Value], the element type of [types.List] and [types.Set]. *)
Inductive attr_Value : Type :=
| OfPrimitive (p : attr_Primitive)
| OfObject (o : types_Object).

Inductive types_List : Type :=
| ListNull
| ListUnknown
| ListValue (elements : list attr_Value).

Inductive types_Set : Type :=
| SetNull
| SetUnknown
| SetValue (elements : list attr_Value).

Record datasetMetric : Type := {
  dm_Id : types.Int64;
  dm_Currency : types_Object;
  dm_D3format : types.String;
  dm_Description : types.String;
  dm_Expression : types.String;
  dm_CertifiedBy : types.String;
  dm_CertificationDetails : types.String;
  dm_MetricName : types.String;
  dm_VerboseName : types.String;
  dm_WarningText : types.String;
}.

Record datasetMetricsExtraCertification : Type := {
  ec_CertifiedBy : string;
  ec_CertificationDetails : string;
}.

Record datasetMetricsExtra : Type := {
  ex_Certification : datasetMetricsExtraCertification;
}.

Definition set_dm_CertifiedBy (model : datasetMetric) (v : types.String) : datasetMetric :=
  {| dm_Id := dm_Id model;
     dm_Currency := dm_Currency model;
     dm_D3format := dm_D3format model;
     dm_Description := dm_Description model;
     dm_Expression := dm_Expression model;
     dm_CertifiedBy := v;
     dm_CertificationDetails := dm_CertificationDetails model;
     dm_MetricName := dm_MetricName model;
     dm_VerboseName := dm_VerboseName model;
     dm_WarningText := dm_WarningText model |}.

Definition set_dm_CertificationDetails (model : datasetMetric) (v : types.String)
  : datasetMetric :=
  {| dm_Id := dm_Id model;
     dm_Currency := dm_Currency model;
     dm_D3format := dm_D3format model;
     dm_Description := dm_Description model;
     dm_Expression := dm_Expression model;
     dm_CertifiedBy := dm_CertifiedBy model;
     dm_CertificationDetails := v;
     dm_MetricName := dm_MetricName model;
     dm_VerboseName := dm_VerboseName model;
     dm_WarningText := dm_WarningText model |}.

(** The struct [toExtra] hands to [json.Marshal]. *)
Definition extraData_of (model : datasetMetric) : datasetMetricsExtra :=
  {| ex_Certification :=
       {| ec_CertifiedBy := types.ValueString (dm_CertifiedBy model);
          ec_CertificationDetails := types.ValueString (dm_CertificationDetails model) |} |}.

Section certification.

(** [encoding/json] at the type [datasetMetricsExtra]: [json.Marshal] of
    a value, and [json.Unmarshal] of a text into a zero value. *)
Variable json_Marshal : datasetMetricsExtra -> Result string.
Variable json_Unmarshal : string -> Result datasetMetricsExtra.

Definition datasetMetric_toExtra (model : datasetMetric) : Result string :=
  if types.IsNull (dm_CertifiedBy model) && types.IsNull (dm_CertificationDetails model)
  then Ok ""
  else
    let extraData := extraData_of model in
    match json_Marshal extraData with
    | Err err => Err (wrapError "failed to marshal extra data for metric" err)
    | Ok extraBytes => Ok extraBytes
    end.

(** [parseCertification]: the receiver as the call leaves it, and the
    error returned. *)
Definition datasetMetric_parseCertification (model : datasetMetric)
    (d : DatasetRestApiGetSqlMetric) : go (datasetMetric * option error) :=
  if negb (IsNull (sm_Extra d)) then
    s ← MustGet (sm_Extra d);
    if bool_decide (s <> "") then
      match json_Unmarshal s with
      | Err err =>
          Done (model, Some (wrapError "failed to parse extra field for metric" err))
      | Ok extraData =>
          let model :=
            if bool_decide (ec_CertifiedBy (ex_Certification extraData) <> "")
            then set_dm_CertifiedBy model
                   (types.StringValue (ec_CertifiedBy (ex_Certification extraData)))
            else model in
          let model :=
            if bool_decide (ec_CertificationDetails (ex_Certification extraData) <> "")
            then set_dm_CertificationDetails model
                   (types.StringValue
                      (ec_CertificationDetails (ex_Certification extraData)))
            else model in
          Done (model, None)
      end
    else Done (model, None)
  else Done (model, None).

End certification.

(** The zero value of [datasetMetric], as [var m datasetMetric] in
    [datasetMetricsBaseModel.updateState] leaves it. *)
Definition datasetMetric_zero : datasetMetric :=
  {| dm_Id := types.Int64Null;
     dm_Currency := ObjectNull;
     dm_D3format := types.StringNull;
     dm_Description := types.StringNull;
     dm_Expression := types.StringNull;
     dm_CertifiedBy := types.StringNull;
     dm_CertificationDetails := types.StringNull;
     dm_MetricName := types.StringNull;
     dm_VerboseName := types.StringNull;
     dm_WarningText := types.StringNull |}.

(** A certification field as it comes back from the parse into a
    receiver that holds [old]: the string when it is not empty. *)
Definition read_back (v old : types.String) : types.String :=
  if bool_decide (types.ValueString v <> "") then types.StringValue (types.ValueString v)
  else old.

(** A JSON codec for the examples: the text [json.Marshal] writes for a
    [datasetMetricsExtra] whose strings need no escape other than of the
    quote and the backslash, and a reader of that text. *)
Definition dquote : string := String.String (ascii_of_nat 34) EmptyString.

Fixpoint json_escape (s : string) : string :=
  match s with
  | EmptyString => EmptyString
  | String.String a s' =>
      if bool_decide (a = ascii_of_nat 34 \/ a = ascii_of_nat 92)
      then String.String (ascii_of_nat 92) (String.String a (json_escape s'))
      else String.String a (json_escape s')
  end.

Definition json_text (e : datasetMetricsExtra) : string :=
  "{" +:+ dquote +:+ "certification" +:+ dquote +:+ ":{"
  +:+ dquote +:+ "certified_by" +:+ dquote +:+ ":"
  +:+ dquote +:+ json_escape (ec_CertifiedBy (ex_Certification e)) +:+ dquote
  +:+ "," +:+ dquote +:+ "details" +:+ dquote +:+ ":"
  +:+ dquote +:+ json_escape (ec_CertificationDetails (ex_Certification e)) +:+ dquote
  +:+ "}}".

Definition Marshal_ex (e : datasetMetricsExtra) : Result string := Ok (json_text e).

(** Drops [prefix] from the front of [s]. *)
Fixpoint expect (prefix s : string) : option string :=
  match prefix, s with
  | EmptyString, _ => Some s
  | String.String a p', String.String b s' =>
      if bool_decide (a = b) then expect p' s' else None
  | _, _ => None
  end.

(** Reads an escaped string up to its closing quote. *)
Fixpoint read_string (s : string) : option (string * string) :=
  match s with
  | EmptyString => None
  | String.String a s' =>
      if bool_decide (a = ascii_of_nat 34) then Some (EmptyString, s')
      else if bool_decide (a = ascii_of_nat 92) then
        match s' with
        | String.String b s'' =>
            match read_string s'' with
            | Some (v, rest) => Some (String.String b v, rest)
            | None => None
            end
        | EmptyString => None
        end
      else
        match read_string s' with
        | Some (v, rest) => Some (String.String a v, rest)
        | None => None
        end
  end.

Definition Unmarshal_ex (s : string) : Result datasetMetricsExtra :=
  let syntax := Err (errorString "invalid character") in
  match expect ("{" +:+ dquote +:+ "certification" +:+ dquote +:+ ":{"
                +:+ dquote +:+ "certified_by" +:+ dquote +:+ ":" +:+ dquote) s with
  | None => syntax
  | Some s1 =>
      match read_string s1 with
      | None => syntax
      | Some (by_, s2) =>
          match expect ("," +:+ dquote +:+ "details" +:+ dquote +:+ ":" +:+ dquote) s2 with
          | None => syntax
          | Some s3 =>
              match read_string s3 with
              | Some (details, "}}") =>
                  Ok {| ex_Certification :=
                          {| ec_CertifiedBy := by_;
                             ec_CertificationDetails := details |} |}
              | _ => syntax
              end
          end
      end
  end.

Definition metric_declared (name : string) (certified_by details : types.String)
  : datasetMetric :=
  {| dm_Id := types.Int64Null;
     dm_Currency := ObjectNull;
     dm_D3format := types.StringNull;
     dm_Description := types.StringNull;
     dm_Expression := types.StringValue "SUM(COL1)";
     dm_CertifiedBy := certified_by;
     dm_CertificationDetails := details;
     dm_MetricName := types.StringValue name;
     dm_VerboseName := types.StringNull;
     dm_WarningText := types.StringNull |}.

Definition metric_server (name : string) (extra : Nullable string)
  : DatasetRestApiGetSqlMetric :=
  {| sm_Id := 5; sm_MetricName := name; sm_Expression := "SUM(COL1)";
     sm_Extra := extra; sm_Uuid := Unspecified |}.

(** ** internal/provider/model_role_permission.go and the user model *)

Definition Object_IsNull (o : types_Object) : bool :=
  match o with ObjectNull => true | _ => false end.

(** [Attributes]: the attribute map, empty for a null or unknown object. *)
Definition Object_Attributes (o : types_Object) : gmap string attr_Primitive :=
  match o with ObjectValue attributes => attributes | _ => ∅ end.

Definition List_IsNull (l : types_List) : bool :=
  match l with ListNull => true | _ => false end.

Definition List_Elements (l : types_List) : list attr_Value :=
  match l with ListValue elements => elements | _ => [] end.

Definition Set_IsNull (s : types_Set) : bool :=
  match s with SetNull => true | _ => false end.

Definition Set_Elements (s : types_Set) : list attr_Value :=
  match s with SetValue elements => elements | _ => [] end.

(** Modelled from the spec: the generated list types of the client
    ([RoleApiGetList], [GroupApiGetList], [PermissionViewMenuApiGetList],
    [RolePermissionListSchema]) are not among the sources; an entity has
    a server-assigned integer id and its names. *)
Record SupersetRoleApiGetList : Type := {
  role_Id : Z;
  role_Name : string;
}.

Record SupersetGroupApiGetList : Type := {
  group_Id : Z;
  group_Name : string;
}.

Record SupersetPermissionApiGetList : Type := {
  perm_Id : Z;
  perm_Permission_Name : string;
  perm_ViewMenu_Name : string;
}.

Record SupersetRolePermissionApiGetList : Type := {
  rp_Id : Z;
  rp_PermissionName : string;
  rp_ViewMenuName : string;
}.

Record rolePermissionBaseModel : Type := {
  rpm_RoleId : types.Int64;
  rpm_RoleName : types.String;
  rpm_Permissions : types_List;
}.

Record userBaseModel : Type := {
  um_Id : types.Int64;
  um_Username : types.String;
  um_Email : types.String;
  um_FirstName : types.String;
  um_LastName : types.String;
  um_Password : types.String;
  um_RoleNames : types_Set;
  um_GroupNames : types_Set;
  um_Active : types.Bool;
}.

(** The names one declared permission object holds; the panics are
    those of the loop body of [resolvePermissions]. *)
Definition permission_names (p : attr_Value) : go (string * string) :=
  match p with
  | OfObject permissionObj =>
      if Object_IsNull permissionObj
      then Panic "unexpected type of permission attribute value"
      else
        match Object_Attributes permissionObj !! "permission_name" with
        | None => Panic "permission_name attribute is missing in permission object"
        | Some (PString _permissionNameAttrValue) =>
            if types.IsNull _permissionNameAttrValue
            then Panic "unexpected type of permission_name attribute value"
            else
              match Object_Attributes permissionObj !! "view_menu_name" with
              | None => Panic "view_menu_name attribute is missing in permission object"
              | Some (PString _viewMenuNameAttrValue) =>
                  if types.IsNull _viewMenuNameAttrValue
                  then Panic "unexpected type of view_menu_name attribute value"
                  else Done (types.ValueString _permissionNameAttrValue,
                             types.ValueString _viewMenuNameAttrValue)
              | Some _ => Panic "unexpected type of view_menu_name attribute value"
              end
        | Some _ => Panic "unexpected type of permission_name attribute value"
        end
  | OfPrimitive _ => Panic "unexpected type of permission attribute value"
  end.

Definition sourcePermissionNameIdMap (sourcePermissions : list SupersetPermissionApiGetList)
  : gmap string Z :=
  foldl (fun m p => <[perm_Permission_Name p +:+ "_" +:+ perm_ViewMenu_Name p := perm_Id p]> m)
        ∅ sourcePermissions.

Fixpoint resolvePermissions_loop (m : gmap string Z) (permissionList : list attr_Value)
    (permissions : list SupersetRolePermissionApiGetList)
    (notFoundPermissions : list string)
  : go (list SupersetRolePermissionApiGetList * list string) :=
  match permissionList with
  | [] => Done (permissions, notFoundPermissions)
  | p :: rest =>
      names ← permission_names p;
      let fullPermissionName := fst names +:+ "_" +:+ snd names in
      match m !! fullPermissionName with
      | None =>
          resolvePermissions_loop m rest permissions
            (notFoundPermissions ++ [fullPermissionName])
      | Some sourcePermissionId =>
          resolvePermissions_loop m rest
            (permissions ++ [ {| rp_Id := sourcePermissionId;
                                 rp_PermissionName := fst names;
                                 rp_ViewMenuName := snd names |} ])
            notFoundPermissions
      end
  end.

Definition resolvePermissions (model : rolePermissionBaseModel)
    (sourcePermissions : list SupersetPermissionApiGetList)
  : go (list SupersetRolePermissionApiGetList * list string) :=
  if List_IsNull (rpm_Permissions model) then Done ([], [])
  else
    resolvePermissions_loop (sourcePermissionNameIdMap sourcePermissions)
      (List_Elements (rpm_Permissions model)) [] [].

(** The type assertion [g.(types.String)] on a set element. *)
Definition as_String (v : attr_Value) : go types.String :=
  match v with
  | OfPrimitive (PString s) => Done s
  | _ => Panic "interface conversion: attr.Value is not basetypes.StringValue"
  end.

Definition sourceGroupNameIdMap (sourceGroups : list SupersetGroupApiGetList)
  : gmap string Z :=
  foldl (fun m g => <[group_Name g := group_Id g]> m) ∅ sourceGroups.

Fixpoint resolveGroupIDsFromNames_loop (m : gmap string Z) (groupNamesList : list attr_Value)
    (ids : list Z) (notFoundGroups : list string) : go (list Z * list string) :=
  match groupNamesList with
  | [] => Done (ids, notFoundGroups)
  | g :: rest =>
      s ← as_String g;
      let nameAttrValue := types.ValueString s in
      match m !! nameAttrValue with
      | None => resolveGroupIDsFromNames_loop m rest ids (notFoundGroups ++ [nameAttrValue])
      | Some sourceGroupId =>
          resolveGroupIDsFromNames_loop m rest (ids ++ [sourceGroupId]) notFoundGroups
      end
  end.

Definition resolveGroupIDsFromNames (model : userBaseModel)
    (sourceGroups : list SupersetGroupApiGetList) : go (list Z * list string) :=
  if Set_IsNull (um_GroupNames model) then Done ([], [])
  else
    resolveGroupIDsFromNames_loop (sourceGroupNameIdMap sourceGroups)
      (Set_Elements (um_GroupNames model)) [] [].

Definition sourceRoleNameIdMap (sourceRoles : list SupersetRoleApiGetList)
  : gmap string Z :=
  foldl (fun m r => <[role_Name r := role_Id r]> m) ∅ sourceRoles.

Fixpoint resolveRoleIDsFromNames_loop (m : gmap string Z) (roleNamesList : list attr_Value)
    (ids : list Z) (notFoundRoles : list string) : go (list Z * list string) :=
  match roleNamesList with
  | [] => Done (ids, notFoundRoles)
  | r :: rest =>
      s ← as_String r;
      let nameAttrValue := types.ValueString s in
      match m !! nameAttrValue with
      | None => resolveRoleIDsFromNames_loop m rest ids (notFoundRoles ++ [nameAttrValue])
      | Some sourceRoleId =>
          resolveRoleIDsFromNames_loop m rest (ids ++ [sourceRoleId]) notFoundRoles
      end
  end.

Definition resolveRoleIDsFromNames (model : userBaseModel)
    (sourceRoles : list SupersetRoleApiGetList) : go (list Z * list string) :=
  if Set_IsNull (um_RoleNames model) then Done ([], [])
  else
    resolveRoleIDsFromNames_loop (sourceRoleNameIdMap sourceRoles)
      (Set_Elements (um_RoleNames model)) [] [].

(** The Name Resolver of the specification: over a source collection
    with a key and an id per entity, each declared name gives the id of
    the entity of that key (the last one, should several share it) or is
    reported as not found; both lists in the declared order. *)
Definition id_of_key {E : Type} (keyFn : E -> string) (idFn : E -> Z)
    (source : list E) (name : string) : option Z :=
  idFn <$> head (filter (fun e => keyFn e = name) (reverse source)).

Definition resolve {E : Type} (keyFn : E -> string) (idFn : E -> Z)
    (names : list string) (source : list E) : list Z * list string :=
  (omap (id_of_key keyFn idFn source) names,
   filter (fun name => id_of_key keyFn idFn source name = None) names).

Definition permission_key (p : SupersetPermissionApiGetList) : string :=
  perm_Permission_Name p +:+ "_" +:+ perm_ViewMenu_Name p.

Definition name_element (name : string) : attr_Value :=
  OfPrimitive (PString (types.StringValue name)).

Definition permission_element (names : string * string) : attr_Value :=
  OfObject (ObjectValue
    (<["permission_name" := PString (types.StringValue (fst names))]>
       (<["view_menu_name" := PString (types.StringValue (snd names))]> ∅))).

Definition user_model (roles groups : types_Set) : userBaseModel :=
  {| um_Id := types.Int64Null;
     um_Username := types.StringValue "alice";
     um_Email := types.StringValue "alice@example.com";
     um_FirstName := types.StringValue "Alice";
     um_LastName := types.StringValue "A";
     um_Password := types.StringNull;
     um_RoleNames := roles;
     um_GroupNames := groups;
     um_Active := types.BoolValue true |}.

Definition role_permission_model (permissions : types_List) : rolePermissionBaseModel :=
  {| rpm_RoleId := types.Int64Null;
     rpm_RoleName := types.StringValue "Reader";
     rpm_Permissions := permissions |}.

(** ** internal/client/client_wrapper.go: paginated lists *)

(** What the generated client hands back for a list request: the status
    code, the raw body and, for a JSON answer of status 200, the decoded
    result. *)
Record ListResponse (A : Type) : Type := {
  StatusCode : Z;
  Body : string;
  JSON200 : option (list A);
}.
Arguments StatusCode {A} _.
Arguments Body {A} _.
Arguments JSON200 {A} _.

Definition StatusOK : Z := 200.

Section paginated.

Variable A : Type.

(** The generated request function of one entity kind, as a function of
    the page number and the page size of the query: the answers the
    remote service gives during one retrieval. *)
Variable GetWithResponse : Z -> Z -> Result (ListResponse A).

(** The name of the entity kind in the error message. *)
Variable what : string.

(** The size of a page, [cw.pageSize]. *)
Variable pageSize : Z.

(** [_ListUsers], [_ListRoles], [_ListGroups], [_ListPermissions] and
    [_ListDatabases]: the five differ in the request function and in
    the word of the message only. *)
Definition _List (pageNumber : Z) : go (Result (list A)) :=
  match GetWithResponse pageNumber pageSize with
  | Err err => Done (Err err)
  | Ok res =>
      if bool_decide (StatusCode res <> StatusOK) then
        Done (Err (errorString ("failed to get " +:+ what +:+ ", status code and body: "
                                +:+ Body res)))
      else
        match JSON200 res with
        | Some result => Done (Ok result)
        | None => Panic "invalid memory address or nil pointer dereference"
        end
  end.

(** The loop of [ListUsers], [ListRoles], [ListGroups] and
    [ListDatabases], which stops after a page shorter than the page
    size.  [fuel] bounds the number of iterations and [None] says the
    loop is still running; the second component lists the page numbers
    requested. *)
Fixpoint List_until_short (fuel : nat) (pageNumber : Z) (all : list A) (requested : list Z)
  : option (go (Result (list A)) * list Z) :=
  match fuel with
  | O => None
  | S fuel' =>
      let requested := requested ++ [pageNumber] in
      match _List pageNumber with
      | Panic r => Some (Panic r, requested)
      | Done (Err err) => Some (Done (Err err), requested)
      | Done (Ok page) =>
          let all := all ++ page in
          if bool_decide (Z.of_nat (length page) < pageSize)%Z
          then Some (Done (Ok all), requested)
          else List_until_short fuel' (pageNumber + 1)%Z all requested
      end
  end.

(** The loop of [ListPermissions], which stops after an empty page. *)
Fixpoint List_until_empty (fuel : nat) (pageNumber : Z) (all : list A) (requested : list Z)
  : option (go (Result (list A)) * list Z) :=
  match fuel with
  | O => None
  | S fuel' =>
      let requested := requested ++ [pageNumber] in
      match _List pageNumber with
      | Panic r => Some (Panic r, requested)
      | Done (Err err) => Some (Done (Err err), requested)
      | Done (Ok page) =>
          let all := all ++ page in
          if bool_decide (length page = 0%nat)
          then Some (Done (Ok all), requested)
          else List_until_empty fuel' (pageNumber + 1)%Z all requested
      end
  end.

End paginated.

Arguments _List {A} _ _ _ _.
Arguments List_until_short {A} _ _ _ _ _ _ _.
Arguments List_until_empty {A} _ _ _ _ _ _ _.

Definition ListUsers {A} (get : Z -> Z -> Result (ListResponse A)) (pageSize : Z)
    (fuel : nat) : option (go (Result (list A)) * list Z) :=
  List_until_short get "users" pageSize fuel 0 [] [].

Definition ListRoles {A} (get : Z -> Z -> Result (ListResponse A)) (pageSize : Z)
    (fuel : nat) : option (go (Result (list A)) * list Z) :=
  List_until_short get "roles" pageSize fuel 0 [] [].

Definition ListGroups {A} (get : Z -> Z -> Result (ListResponse A)) (pageSize : Z)
    (fuel : nat) : option (go (Result (list A)) * list Z) :=
  List_until_short get "groups" pageSize fuel 0 [] [].

Definition ListDatabases {A} (get : Z -> Z -> Result (ListResponse A)) (pageSize : Z)
    (fuel : nat) : option (go (Result (list A)) * list Z) :=
  List_until_short get "databases" pageSize fuel 0 [] [].

Definition ListPermissions {A} (get : Z -> Z -> Result (ListResponse A)) (pageSize : Z)
    (fuel : nat) : option (go (Result (list A)) * list Z) :=
  List_until_empty get "permissions" pageSize fuel 0 [] [].

(** The page numbers [0 .. n-1]. *)
Definition page_numbers (n : nat) : list Z := map Z.of_nat (seq 0 n).

(** A remote collection served in pages: page [p] of size [s] holds the
    items from position [p * s] on. *)
Definition serve {A} (items : list A) (pageNumber pageSize : Z)
  : Result (ListResponse A) :=
  Ok {| StatusCode := 200;
        Body := "";
        JSON200 := Some (take (Z.to_nat pageSize)
                           (drop (Z.to_nat (pageNumber * pageSize)) items)) |}.

(** The same, with the third page refused. *)
Definition serve_failing {A} (items : list A) (pageNumber pageSize : Z)
  : Result (ListResponse A) :=
  if bool_decide (pageNumber = 2%Z)
  then Ok {| StatusCode := 503; Body := "unavailable"; JSON200 := None |}
  else serve items pageNumber pageSize.

(** ** Resource lifecycle handlers: Delete *)

(** [NotFoundError.Error] of the client wrapper, and the text of the
    other errors; a wrapped error prints its prefix and then the error
    it wraps. *)
Fixpoint Error (e : error) : string :=
  match e with
  | NotFoundError Resource (Some ID) =>
      Resource +:+ " not found (id=" +:+ pretty ID +:+ ")"
  | NotFoundError Resource None => Resource +:+ " not found"
  | errorString msg => msg
  | wrapError msg inner => msg +:+ Error inner
  end.

(** [client.IsNotFound]: [errors.As] looks for a [NotFoundError] along
    the chain of wrapped errors; a nil error is not one. *)
Fixpoint is_NotFoundError (e : error) : bool :=
  match e with
  | NotFoundError _ _ => true
  | errorString _ => false
  | wrapError _ inner => is_NotFoundError inner
  end.

Definition IsNotFound (err : option error) : bool :=
  match err with
  | Some e => is_NotFoundError e
  | None => false
  end.

(** A diagnostic of the plugin framework. *)
Inductive Diagnostic : Type :=
| ErrorDiagnostic (summary detail : string)
| WarningDiagnostic (summary detail : string).

Definition is_error (d : Diagnostic) : bool :=
  match d with ErrorDiagnostic _ _ => true | WarningDiagnostic _ _ => false end.

Definition HasError (diags : list Diagnostic) : bool := existsb is_error diags.

Definition AddError (diags : list Diagnostic) (summary detail : string) : list Diagnostic :=
  diags ++ [ErrorDiagnostic summary detail].

Definition AddWarning (diags : list Diagnostic) (summary detail : string) : list Diagnostic :=
  diags ++ [WarningDiagnostic summary detail].

Definition ValueInt64 (v : types.Int64) : Z :=
  match v with types.Int64Value n => n | _ => 0%Z end.

(** A Go slice: [None] is the nil slice, [Some []] an empty one. *)
Definition slice (A : Type) : Type := option (list A).

(** Modelled from the spec: the generated [client.SupersetUserApiPut]
    is not among the sources; these are the fields the user resource
    sets. *)
Record SupersetUserApiPut : Type := {
  up_Email : string;
  up_FirstName : string;
  up_LastName : string;
  up_Password : string;
  up_Active : bool;
  up_Groups : slice Z;
  up_Roles : slice Z;
}.

(** The calls a handler makes to the remote service, in order. *)
Inductive UserCall : Type :=
| CallDeleteUser (userID : Z)
| CallUpdateUser (userID : Z) (user : SupersetUserApiPut).

(** The answers of the remote service to the two calls of the Delete
    handler: the error of [DeleteUser] (nil on success) and the error of
    [UpdateUser]. *)
Record UserClient : Type := {
  DeleteUser : Z -> option error;
  UpdateUser : Z -> SupersetUserApiPut -> option error;
}.

(** What a Delete handler leaves in its response: the diagnostics, and
    whether it called [State.RemoveResource]. *)
Record DeleteResponse : Type := {
  Diagnostics : list Diagnostic;
  StateRemoved : bool;
}.

(** [UserResource.Delete].  [stateDiags] are the diagnostics of reading
    the prior state and [state_Id] the id read from it. *)
Definition UserResource_Delete (client : UserClient) (stateDiags : list Diagnostic)
    (state_Id : types.Int64) : DeleteResponse * list UserCall :=
  let diags := stateDiags in
  let id := ValueInt64 state_Id in
  match DeleteUser client id with
  | Some err =>
      let diags := AddWarning diags "Deletion Error"
                     ("Unable to delete user with ID " +:+ pretty id +:+ ": " +:+ Error err) in
      let user :=
        {| up_Email := ""; up_FirstName := ""; up_LastName := ""; up_Password := "";
           up_Active := false;
           up_Groups := Some [];
           up_Roles := None |} in
      match UpdateUser client id user with
      | Some err =>
          ({| Diagnostics :=
                AddError diags "Client Error"
                  ("Unable to deactivate user with ID " +:+ pretty id
                   +:+ ":, so deactivate user. error: " +:+ Error err);
              StateRemoved := false |},
           [CallDeleteUser id; CallUpdateUser id user])
      | None =>
          ({| Diagnostics := diags; StateRemoved := false |},
           [CallDeleteUser id; CallUpdateUser id user])
      end
  | None => ({| Diagnostics := diags; StateRemoved := false |}, [CallDeleteUser id])
  end.

(** Modelled from the spec: the generated put types of a dataset are not
    among the sources; these are the fields the dataset resources set,
    with the types their assignments impose. *)
Record DatasetMetricsPut : Type := {
  mp_Id : Z;
  mp_MetricName : string;
  mp_Expression : string;
  mp_Extra : Nullable string;
}.

Record DatasetColumnsPut : Type := {
  cp_Id : Z;
  cp_ColumnName : string;
}.

Record DatasetRestApiPut : Type := {
  put_Description : Nullable string;
  put_CacheTimeout : Nullable Z;
  put_FilterSelectEnabled : Nullable bool;
  put_FetchValuesPredicate : Nullable string;
  put_AlwaysFilterMainDttm : bool;
  put_DatabaseId : Z;
  put_Owners : slice Z;
  put_Extra : Nullable string;
  put_Sql : Nullable string;
  put_NormalizeColumns : Nullable bool;
  put_Catalog : Nullable string;
  put_Schema : Nullable string;
  put_TableName : Nullable string;
  put_Columns : slice DatasetColumnsPut;
  put_Metrics : slice DatasetMetricsPut;
  put_Folders : slice Folder;
}.

(** [client.DatasetRestApiPut{}]. *)
Definition DatasetRestApiPut_zero : DatasetRestApiPut :=
  {| put_Description := Unspecified;
     put_CacheTimeout := Unspecified;
     put_FilterSelectEnabled := Unspecified;
     put_FetchValuesPredicate := Unspecified;
     put_AlwaysFilterMainDttm := false;
     put_DatabaseId := 0;
     put_Owners := None;
     put_Extra := Unspecified;
     put_Sql := Unspecified;
     put_NormalizeColumns := Unspecified;
     put_Catalog := Unspecified;
     put_Schema := Unspecified;
     put_TableName := Unspecified;
     put_Columns := None;
     put_Metrics := None;
     put_Folders := None |}.

Definition put_with_Metrics (metrics : slice DatasetMetricsPut) : DatasetRestApiPut :=
  {| put_Description := Unspecified;
     put_CacheTimeout := Unspecified;
     put_FilterSelectEnabled := Unspecified;
     put_FetchValuesPredicate := Unspecified;
     put_AlwaysFilterMainDttm := false;
     put_DatabaseId := 0;
     put_Owners := None;
     put_Extra := Unspecified;
     put_Sql := Unspecified;
     put_NormalizeColumns := Unspecified;
     put_Catalog := Unspecified;
     put_Schema := Unspecified;
     put_TableName := Unspecified;
     put_Columns := None;
     put_Metrics := metrics;
     put_Folders := None |}.

Definition put_with_Folders (folders : slice Folder) : DatasetRestApiPut :=
  {| put_Description := Unspecified;
     put_CacheTimeout := Unspecified;
     put_FilterSelectEnabled := Unspecified;
     put_FetchValuesPredicate := Unspecified;
     put_AlwaysFilterMainDttm := false;
     put_DatabaseId := 0;
     put_Owners := None;
     put_Extra := Unspecified;
     put_Sql := Unspecified;
     put_NormalizeColumns := Unspecified;
     put_Catalog := Unspecified;
     put_Schema := Unspecified;
     put_TableName := Unspecified;
     put_Columns := None;
     put_Metrics := None;
     put_Folders := folders |}.

Inductive DatasetCall : Type :=
| CallFindDataset (datasetName : string)
| CallUpdateDataset (datasetID : Z) (body : DatasetRestApiPut).

(** The answers of the remote service to the calls of the two Delete
    handlers: [FindDataset] gives the id of the dataset of that name or
    an error, [UpdateDataset] its error (nil on success). *)
Record DatasetClient : Type := {
  FindDataset : string -> Result Z;
  UpdateDataset : Z -> DatasetRestApiPut -> option error;
}.

(** [datasetMetricsResource.Delete]. *)
Definition datasetMetricsResource_Delete (client : DatasetClient)
    (stateDiags : list Diagnostic) (state_DatasetName : types.String)
  : DeleteResponse * list DatasetCall :=
  let diags := stateDiags in
  let name := types.ValueString state_DatasetName in
  match FindDataset client name with
  | Err err =>
      if IsNotFound (Some err) then
        ({| Diagnostics := diags; StateRemoved := true |}, [CallFindDataset name])
      else
        ({| Diagnostics :=
              AddError diags "Client Error"
                ("Unable to find dataset with name '" +:+ name +:+ "': " +:+ Error err);
            StateRemoved := false |},
         [CallFindDataset name])
  | Ok dataset_Id =>
      let putData := put_with_Metrics (Some []) in
      match UpdateDataset client dataset_Id putData with
      | Some err =>
          ({| Diagnostics :=
                AddError diags "Client Error"
                  ("Unable to update dataset with ID " +:+ pretty dataset_Id
                   +:+ ": " +:+ Error err);
              StateRemoved := false |},
           [CallFindDataset name; CallUpdateDataset dataset_Id putData])
      | None =>
          ({| Diagnostics := diags; StateRemoved := false |},
           [CallFindDataset name; CallUpdateDataset dataset_Id putData])
      end
  end.

(** [datasetFolderResource.Delete]. *)
Definition datasetFolderResource_Delete (client : DatasetClient)
    (stateDiags : list Diagnostic) (state_DatasetName : types.String)
  : DeleteResponse * list DatasetCall :=
  let diags := stateDiags in
  let name := types.ValueString state_DatasetName in
  match FindDataset client name with
  | Err err =>
      if IsNotFound (Some err) then
        ({| Diagnostics := diags; StateRemoved := true |}, [CallFindDataset name])
      else
        ({| Diagnostics :=
              AddError diags "Client Error"
                ("Unable to find dataset with name '" +:+ name +:+ "': " +:+ Error err);
            StateRemoved := false |},
         [CallFindDataset name])
  | Ok dataset_Id =>
      let putData := put_with_Folders (Some []) in
      match UpdateDataset client dataset_Id putData with
      | Some err =>
          ({| Diagnostics :=
                AddError diags "Client Error"
                  ("Unable to update dataset with ID " +:+ pretty dataset_Id
                   +:+ ": " +:+ Error err);
              StateRemoved := false |},
           [CallFindDataset name; CallUpdateDataset dataset_Id putData])
      | None =>
          ({| Diagnostics := diags; StateRemoved := false |},
           [CallFindDataset name; CallUpdateDataset dataset_Id putData])
      end
  end.

(** Remote services for the examples. *)
Definition user_client_ex (delete_fails update_fails : bool) : UserClient :=
  {| DeleteUser := fun _ =>
       if delete_fails then Some (errorString "failed to delete user") else None;
     UpdateUser := fun _ _ =>
       if update_fails then Some (errorString "failed to update user") else None |}.

Definition dataset_client_gone : DatasetClient :=
  {| FindDataset := fun _ => Err (NotFoundError "Dataset" None);
     UpdateDataset := fun _ _ => None |}.

(** A call to the remote service failed: it returned a non-nil error. *)
Definition failed (err : option error) : bool :=
  match err with Some _ => true | None => false end.

(** The body of the fallback update of [UserResource.Delete]. *)
Definition deactivation : SupersetUserApiPut :=
  {| up_Email := ""; up_FirstName := ""; up_LastName := ""; up_Password := "";
     up_Active := false;
     up_Groups := Some [];
     up_Roles := None |}.

(** The children a wire folder carries. *)
Definition children_of (w : Folder) : list Folder :=
  match wf_Children w with Value cs => cs | _ => [] end.

(** The fields of a wire root folder were sent in the way the mapping
    can read: no description sent as null, at the root or at a child,
    and a children field that was sent. *)
Definition root_readable (w : Folder) : Prop :=
  wf_Description w <> Null /\
  wf_Children w <> Unspecified /\
  Forall (fun c => wf_Description c <> Null) (children_of w).

(** The test [updateState] makes on the uuid of a child. *)
Definition child_uuid_missing (w : Folder) : bool :=
  bool_decide (uuid.String (wf_Uuid w) = "")
  || bool_decide (uuid.String (wf_Uuid w) = zero_uuid_string).

(** The two tests [updateState] makes on a root folder: its type, and
    the uuids of its children. *)
Definition root_accepted (w : Folder) : bool :=
  bool_decide (wf_Type w = FolderTypeFolder)
  && forallb (fun c => negb (child_uuid_missing c)) (children_of w).

(** How a wire description reads in configuration shape. *)
Definition description_read (d : Nullable string) : types.String :=
  match d with
  | Value s => if bool_decide (s = "") then types.StringNull else types.StringValue s
  | _ => types.StringNull
  end.

Definition child_unflattened (w : Folder) (c : datasetFolderChildModel) : Prop :=
  c = {| fc_Name := types.StringValue (wf_Name w);
         fc_Description := description_read (wf_Description w);
         fc_Type := types.StringValue (wf_Type w);
         fc_Uuid := types.StringValue (uuid.String (wf_Uuid w)) |}.

Definition folder_unflattened (w : Folder) (f : datasetFolderModel) : Prop :=
  fm_Name f = types.StringValue (wf_Name w) /\
  fm_Description f = description_read (wf_Description w) /\
  fm_Type f = types.StringValue (wf_Type w) /\
  fm_Uuid f = types.StringValue (uuid.String (wf_Uuid w)) /\
  Forall2 child_unflattened (children_of w) (fm_Children f).

(** Wire folders for the examples of the unflatten: a root folder with
    two children, and the same with a child without uuid. *)
Definition wire_ok : list Folder :=
  [ wire_node "test_folder" "folder" 0xa1%N
      (Value [ wire_node "COL1" "column" 0xc1%N (Value []);
               wire_node "METRIC1" "metric" 0xe1%N Unspecified ]) ].

(** How a declared description is written to the wire: a value when it
    is a non-empty string, not sent otherwise. *)
Definition description_flattened (v : types.String) : Nullable string :=
  if negb (types.IsNull v) && bool_decide (types.ValueString v <> "")
  then Value (types.ValueString v)
  else Unspecified.

(** The wire child of a declared child, uuid included: a declared uuid
    that is to be reused is the one [Parse] reads. *)
Definition child_flattened_to (Parse : string -> Result uuid.UUID)
    (c : datasetFolderChildModel) (w : Folder) : Prop :=
  wf_Name w = types.ValueString (fc_Name c) /\
  wf_Type w = types.ValueString (fc_Type c) /\
  wf_Description w = description_flattened (fc_Description c) /\
  wf_Children w = Value [] /\
  (uuid_unset (fc_Uuid c) = false ->
   Parse (types.ValueString (fc_Uuid c)) = Ok (wf_Uuid w)).

Definition folder_flattened_to (Parse : string -> Result uuid.UUID)
    (f : datasetFolderModel) (w : Folder) : Prop :=
  wf_Name w = types.ValueString (fm_Name f) /\
  wf_Type w = types.ValueString (fm_Type f) /\
  wf_Description w = description_flattened (fm_Description f) /\
  (uuid_unset (fm_Uuid f) = false ->
   Parse (types.ValueString (fm_Uuid f)) = Ok (wf_Uuid w)) /\
  exists cs, wf_Children w = Value cs /\
             Forall2 (child_flattened_to Parse) (fm_Children f) cs.

(** A declared child after flatten and unflatten: names and types as
    known strings, the description null unless it was a non-empty
    string, and a reused uuid in the canonical text of what [Parse]
    read. *)
Definition child_round_trip (Parse : string -> Result uuid.UUID)
    (c c' : datasetFolderChildModel) : Prop :=
  fc_Name c' = types.StringValue (types.ValueString (fc_Name c)) /\
  fc_Type c' = types.StringValue (types.ValueString (fc_Type c)) /\
  fc_Description c' = read_back (fc_Description c) types.StringNull /\
  (exists u, fc_Uuid c' = types.StringValue (uuid.String u) /\
             (uuid_unset (fc_Uuid c) = false ->
              Parse (types.ValueString (fc_Uuid c)) = Ok u)).

Definition folder_round_trip (Parse : string -> Result uuid.UUID)
    (f f' : datasetFolderModel) : Prop :=
  fm_Name f' = types.StringValue (types.ValueString (fm_Name f)) /\
  fm_Type f' = types.StringValue (types.ValueString (fm_Type f)) /\
  fm_Description f' = read_back (fm_Description f) types.StringNull /\
  (exists u, fm_Uuid f' = types.StringValue (uuid.String u) /\
             (uuid_unset (fm_Uuid f) = false ->
              Parse (types.ValueString (fm_Uuid f)) = Ok u)) /\
  Forall2 (child_round_trip Parse) (fm_Children f) (fm_Children f').

(** A declaration and the wire list it flattens to with the random
    source of the examples. *)
Definition folders_decl_ex : list datasetFolderModel :=
  [ folder_root "test_folder" "folder" types.StringNull
      [ folder_child "COL1" "column"
          (types.StringValue "0a0b0c0d-0000-4000-8000-000000000001");
        folder_child "METRIC1" "metric" types.StringNull ] ].

Definition folders_wire_ex : list Folder :=
  [ {| wf_Name := "test_folder";
       wf_Type := "folder";
       wf_Description := Value "a folder";
       wf_Children :=
         Value [ {| wf_Name := "COL1";
                    wf_Type := "column";
                    wf_Description := Unspecified;
                    wf_Children := Value [];
                    wf_Uuid := 0x0a0b0c0d000040008000000000000001%N |};
                 {| wf_Name := "METRIC1";
                    wf_Type := "metric";
                    wf_Description := Unspecified;
                    wf_Children := Value [];
                    wf_Uuid := random_ex 1 |} ];
       wf_Uuid := random_ex 0 |} ].

(** ** Single-entity reads: client wrapper and Read handlers *)

Definition StatusNotFound : Z := 404.

(** What the generated client hands back for the request of one entity
    by id. *)
Record PkResponse (A : Type) : Type := {
  pk_StatusCode : Z;
  pk_Body : string;
  pk_JSON200 : option A;
}.
Arguments pk_StatusCode {A} _.
Arguments pk_Body {A} _.
Arguments pk_JSON200 {A} _.

(** Modelled from the spec: the generated [SupersetUserApiGet] and
    [SupersetRoleApiGet] are not among the sources; a user has the
    fields the user model reads, and its roles and groups are entities
    with an id and a name. *)
Record NamedRef : Type := {
  ref_Id : Z;
  ref_Name : string;
}.

Record SupersetUserApiGet : Type := {
  ug_Id : Z;
  ug_Username : string;
  ug_Email : string;
  ug_FirstName : string;
  ug_LastName : string;
  ug_Active : Nullable bool;
  ug_Roles : list NamedRef;
  ug_Groups : list NamedRef;
}.

Record SupersetRoleApiGet : Type := {
  rg_Id : Z;
  rg_Name : string;
}.

(** [ClientWrapper.GetUser]: the test for a status other than 200 comes
    before the test for 404. *)
Definition GetUser (GetApiV1SecurityUsersPkWithResponse :
                      Z -> Result (PkResponse SupersetUserApiGet))
    (userID : Z) : go (Result SupersetUserApiGet) :=
  match GetApiV1SecurityUsersPkWithResponse userID with
  | Err err => Done (Err err)
  | Ok res =>
      if bool_decide (pk_StatusCode res <> StatusOK) then
        Done (Err (errorString ("failed to get user, status code: "
                                +:+ pretty (pk_StatusCode res)
                                +:+ ", body: " +:+ pk_Body res)))
      else if bool_decide (pk_StatusCode res = StatusNotFound) then
        Done (Err (NotFoundError "User" (Some userID)))
      else
        match pk_JSON200 res with
        | Some result => Done (Ok result)
        | None => Panic "invalid memory address or nil pointer dereference"
        end
  end.

(** [ClientWrapper.GetRole]: the test for 404 comes first. *)
Definition GetRole (GetApiV1SecurityRolesPkWithResponse :
                      Z -> Result (PkResponse SupersetRoleApiGet))
    (roleID : Z) : go (Result SupersetRoleApiGet) :=
  match GetApiV1SecurityRolesPkWithResponse roleID with
  | Err err => Done (Err err)
  | Ok res =>
      if bool_decide (pk_StatusCode res = StatusNotFound) then
        Done (Err (NotFoundError "Role" (Some roleID)))
      else if bool_decide (pk_StatusCode res <> StatusOK) then
        Done (Err (errorString ("failed to get role, status code: "
                                +:+ pretty (pk_StatusCode res)
                                +:+ ", body: " +:+ pk_Body res)))
      else
        match pk_JSON200 res with
        | Some result => Done (Ok result)
        | None => Panic "invalid memory address or nil pointer dereference"
        end
  end.

(** [userBaseModel.flattenRoleNamesToSet] and [flattenGroupNamesToSet]. *)
Definition flattenRoleNamesToSet (u : SupersetUserApiGet) : types_Set :=
  SetValue (map (fun r => OfPrimitive (PString (types.StringValue (ref_Name r))))
                (ug_Roles u)).

Definition flattenGroupNamesToSet (u : SupersetUserApiGet) : types_Set :=
  SetValue (map (fun g => OfPrimitive (PString (types.StringValue (ref_Name g))))
                (ug_Groups u)).

(** [userBaseModel.updateState]; [password] is the Go [*string]. *)
Definition userBaseModel_updateState (model : userBaseModel) (u : SupersetUserApiGet)
    (password : option string) : go userBaseModel :=
  active ← (if IsNull (ug_Active u) then Done types.BoolNull
            else b ← MustGet (ug_Active u); Done (types.BoolValue b));
  Done {| um_Id := types.Int64Value (ug_Id u);
          um_Username := types.StringValue (ug_Username u);
          um_Email := types.StringValue (ug_Email u);
          um_FirstName := types.StringValue (ug_FirstName u);
          um_LastName := types.StringValue (ug_LastName u);
          um_Password := match password with
                         | Some p => types.StringValue p
                         | None => types.StringNull
                         end;
          um_RoleNames := flattenRoleNamesToSet u;
          um_GroupNames := flattenGroupNamesToSet u;
          um_Active := active |}.

Record roleBaseModel : Type := {
  rm_Id : types.Int64;
  rm_Name : types.String;
}.

(** [roleBaseModel.updateState]. *)
Definition roleBaseModel_updateState (model : roleBaseModel) (r : SupersetRoleApiGet)
  : roleBaseModel :=
  {| rm_Id := types.Int64Value (rg_Id r);
     rm_Name := types.StringValue (rg_Name r) |}.

(** What a Read handler leaves in its response: the diagnostics, whether
    it called [State.RemoveResource], and the state it set, if any. *)
Record ReadResponse (S : Type) : Type := {
  rd_Diagnostics : list Diagnostic;
  rd_StateRemoved : bool;
  rd_State : option S;
}.
Arguments rd_Diagnostics {S} _.
Arguments rd_StateRemoved {S} _.
Arguments rd_State {S} _.

(** [UserResource.Read].  [stateDiags] are the diagnostics of reading
    the prior state, [state] the model read from it, and [setDiags] the
    diagnostics of storing the new state. *)
Definition UserResource_Read
    (GetApiV1SecurityUsersPkWithResponse : Z -> Result (PkResponse SupersetUserApiGet))
    (stateDiags : list Diagnostic) (state : userBaseModel)
    (setDiags : userBaseModel -> list Diagnostic)
  : go (ReadResponse userBaseModel) :=
  let diags := stateDiags in
  if HasError diags then
    Done {| rd_Diagnostics := diags; rd_StateRemoved := false; rd_State := None |}
  else
    r ← GetUser GetApiV1SecurityUsersPkWithResponse (ValueInt64 (um_Id state));
    match r with
    | Err err =>
        if IsNotFound (Some err) then
          Done {| rd_Diagnostics := diags; rd_StateRemoved := true; rd_State := None |}
        else
          Done {| rd_Diagnostics :=
                    AddError diags "Client Error"
                      ("Unable to read user with ID " +:+ pretty (ValueInt64 (um_Id state))
                       +:+ ": " +:+ Error err);
                  rd_StateRemoved := false;
                  rd_State := None |}
    | Ok u =>
        let password :=
          if negb (types.IsNull (um_Password state))
          then Some (types.ValueString (um_Password state))
          else None in
        state ← userBaseModel_updateState state u password;
        Done {| rd_Diagnostics := diags ++ setDiags state;
                rd_StateRemoved := false;
                rd_State := Some state |}
    end.

(** [RoleResource.Read]. *)
Definition RoleResource_Read
    (GetApiV1SecurityRolesPkWithResponse : Z -> Result (PkResponse SupersetRoleApiGet))
    (stateDiags : list Diagnostic) (data : roleBaseModel)
    (setDiags : roleBaseModel -> list Diagnostic)
  : go (ReadResponse roleBaseModel) :=
  let diags := stateDiags in
  if HasError diags then
    Done {| rd_Diagnostics := diags; rd_StateRemoved := false; rd_State := None |}
  else
    r ← GetRole GetApiV1SecurityRolesPkWithResponse (ValueInt64 (rm_Id data));
    match r with
    | Err err =>
        if IsNotFound (Some err) then
          Done {| rd_Diagnostics := diags; rd_StateRemoved := true; rd_State := None |}
        else
          Done {| rd_Diagnostics :=
                    AddError diags "Client Error"
                      ("Unable to read role with ID " +:+ pretty (ValueInt64 (rm_Id data))
                       +:+ ": " +:+ Error err);
                  rd_StateRemoved := false;
                  rd_State := None |}
    | Ok g =>
        let data := roleBaseModel_updateState data g in
        Done {| rd_Diagnostics := diags ++ setDiags data;
                rd_StateRemoved := false;
                rd_State := Some data |}
    end.

(** A remote service that answers every request by id with 404. *)
Definition pk_gone {A : Type} (id : Z) : Result (PkResponse A) :=
  Ok {| pk_StatusCode := 404; pk_Body := "not found"; pk_JSON200 := None |}.

Definition user_ex : SupersetUserApiGet :=
  {| ug_Id := 42;
     ug_Username := "alice";
     ug_Email := "alice@example.com";
     ug_FirstName := "Alice";
     ug_LastName := "A";
     ug_Active := Value true;
     ug_Roles := [ {| ref_Id := 3; ref_Name := "Gamma" |};
                   {| ref_Id := 1; ref_Name := "Admin" |} ];
     ug_Groups := [ {| ref_Id := 8; ref_Name := "analysts" |} ] |}.

(** ** Read of a role's permissions into the model *)

(** [rolePermissionBaseModel.flattenPermissionsToList]. *)
Definition flattenPermissionsToList (permissions : list SupersetRolePermissionApiGetList)
  : types_List :=
  ListValue
    (map (fun p =>
            OfObject (ObjectValue
              (<["permission_name" := PString (types.StringValue (rp_PermissionName p))]>
                 (<["view_menu_name" := PString (types.StringValue (rp_ViewMenuName p))]>
                    ∅))))
         permissions).

(** [rolePermissionBaseModel.updateState]. *)
Definition rolePermissionBaseModel_updateState (model : rolePermissionBaseModel)
    (roleId : Z) (roleName : string)
    (permissions : list SupersetRolePermissionApiGetList) : rolePermissionBaseModel :=
  {| rpm_RoleId := types.Int64Value roleId;
     rpm_RoleName := types.StringValue roleName;
     rpm_Permissions := flattenPermissionsToList permissions |}.

(** ** internal/provider/model_group_role_binding.go *)

Record groupRoleBindingBaseModel : Type := {
  gb_GroupId : types.Int64;
  gb_GroupName : types.String;
  gb_RoleNames : types_Set;
}.

(** The loop of [resolveRoleIds]: unlike the resolvers of the user
    model, it tests the type assertion and the null value itself. *)
Fixpoint resolveRoleIds_loop (m : gmap string Z) (roleNamesList : list attr_Value)
    (ids : list Z) (notFoundRoles : list string) : go (list Z * list string) :=
  match roleNamesList with
  | [] => Done (ids, notFoundRoles)
  | p :: rest =>
      match p with
      | OfPrimitive (PString pv) =>
          if types.IsNull pv then Panic "unexpected type of role name attribute value"
          else
            let roleNameAttrValue := types.ValueString pv in
            match m !! roleNameAttrValue with
            | None => resolveRoleIds_loop m rest ids (notFoundRoles ++ [roleNameAttrValue])
            | Some sourceRoleId => resolveRoleIds_loop m rest (ids ++ [sourceRoleId]) notFoundRoles
            end
      | _ => Panic "unexpected type of role name attribute value"
      end
  end.

(** [groupRoleBindingBaseModel.resolveRoleIds]. *)
Definition resolveRoleIds (model : groupRoleBindingBaseModel)
    (sourceRoles : list SupersetRoleApiGetList) : go (list Z * list string) :=
  if Set_IsNull (gb_RoleNames model) then Done ([], [])
  else
    resolveRoleIds_loop (sourceRoleNameIdMap sourceRoles)
      (Set_Elements (gb_RoleNames model)) [] [].

(** ** [UserResource.Update] *)

(** [ValueBool] reads [false] from a null or unknown value. *)
Definition ValueBool (v : types.Bool) : bool :=
  match v with types.BoolValue b => b | _ => false end.

(** A slice grown by [append] from the nil slice: still nil when nothing
    was appended. *)
Definition appended (ids : list Z) : slice Z :=
  match ids with [] => None | _ => Some ids end.

(** How [fmt] prints a slice of strings with [%v]. *)
Definition print_names (names : list string) : string :=
  "[" +:+ String.concat " " names +:+ "]".

(** The calls the Update handler makes to the remote service. *)
Inductive UserUpdateCall : Type :=
| UpdateListGroups
| UpdateListRoles
| UpdateUpdateUser (userID : Z) (user : SupersetUserApiPut).

(** The answers of the remote service to the calls of the Update
    handler. *)
Record UserUpdateClient : Type := {
  uu_ListGroups : Result (list SupersetGroupApiGetList);
  uu_ListRoles : Result (list SupersetRoleApiGetList);
  uu_UpdateUser : Z -> SupersetUserApiPut -> Result SupersetUserApiGet;
}.

(** What the Update handler leaves in its response: the diagnostics and
    the state it set, if any. *)
Record UpdateResponse : Type := {
  ur_Diagnostics : list Diagnostic;
  ur_State : option userBaseModel;
}.

Definition set_up_Groups (putData : SupersetUserApiPut) (v : slice Z) : SupersetUserApiPut :=
  {| up_Email := up_Email putData;
     up_FirstName := up_FirstName putData;
     up_LastName := up_LastName putData;
     up_Password := up_Password putData;
     up_Active := up_Active putData;
     up_Groups := v;
     up_Roles := up_Roles putData |}.

Definition set_up_Roles (putData : SupersetUserApiPut) (v : slice Z) : SupersetUserApiPut :=
  {| up_Email := up_Email putData;
     up_FirstName := up_FirstName putData;
     up_LastName := up_LastName putData;
     up_Password := up_Password putData;
     up_Active := up_Active putData;
     up_Groups := up_Groups putData;
     up_Roles := v |}.

(** The end of [UserResource.Update], from the call of [UpdateUser]. *)
Definition UserResource_Update_send (client : UserUpdateClient) (diags : list Diagnostic)
    (plan state : userBaseModel) (setDiags : userBaseModel -> list Diagnostic)
    (putData : SupersetUserApiPut) (calls : list UserUpdateCall)
  : go (UpdateResponse * list UserUpdateCall) :=
  let id := ValueInt64 (um_Id plan) in
  let calls := calls ++ [UpdateUpdateUser id putData] in
  match uu_UpdateUser client id putData with
  | Err err =>
      Done ({| ur_Diagnostics :=
                 AddError diags "Client Error"
                   ("Unable to update user with ID " +:+ pretty (ValueInt64 (um_Id state))
                    +:+ ": " +:+ Error err);
               ur_State := None |}, calls)
  | Ok u =>
      let password :=
        if negb (types.IsNull (um_Password plan))
        then Some (types.ValueString (um_Password plan))
        else None in
      state ← userBaseModel_updateState state u password;
      Done ({| ur_Diagnostics := diags ++ setDiags state; ur_State := Some state |}, calls)
  end.

(** The middle of [UserResource.Update]: the role names. *)
Definition UserResource_Update_roles (client : UserUpdateClient) (diags : list Diagnostic)
    (plan state : userBaseModel) (setDiags : userBaseModel -> list Diagnostic)
    (putData : SupersetUserApiPut) (calls : list UserUpdateCall)
  : go (UpdateResponse * list UserUpdateCall) :=
  if bool_decide (0 < length (Set_Elements (um_RoleNames plan)))%nat then
    let calls := calls ++ [UpdateListRoles] in
    match uu_ListRoles client with
    | Err err =>
        Done ({| ur_Diagnostics :=
                   AddError diags "Client Error" ("Unable to list roles: " +:+ Error err);
                 ur_State := None |}, calls)
    | Ok roles =>
        r ← resolveRoleIDsFromNames plan roles;
        let roleIds := fst r in
        let notFoundRoles := snd r in
        if bool_decide (0 < length notFoundRoles)%nat then
          Done ({| ur_Diagnostics :=
                     AddError diags "Client Error"
                       ("Unable to find roles: " +:+ print_names notFoundRoles);
                   ur_State := None |}, calls)
        else
          UserResource_Update_send client diags plan state setDiags
            (set_up_Roles putData (appended roleIds)) calls
    end
  else
    UserResource_Update_send client diags plan state setDiags
      (set_up_Roles putData (Some [])) calls.

(** [UserResource.Update].  [planDiags] and [stateDiags] are the
    diagnostics of reading the plan and the prior state, [setDiags]
    those of storing the new state. *)
Definition UserResource_Update (client : UserUpdateClient)
    (planDiags stateDiags : list Diagnostic)
    (plan state : userBaseModel) (setDiags : userBaseModel -> list Diagnostic)
  : go (UpdateResponse * list UserUpdateCall) :=
  let diags := planDiags ++ stateDiags in
  if HasError diags then Done ({| ur_Diagnostics := diags; ur_State := None |}, [])
  else
    let putData :=
      {| up_Email := types.ValueString (um_Email plan);
         up_FirstName := types.ValueString (um_FirstName plan);
         up_LastName := types.ValueString (um_LastName plan);
         up_Password := types.ValueString (um_Password plan);
         up_Active := ValueBool (um_Active plan);
         up_Groups := None;
         up_Roles := None |} in
    if bool_decide (0 < length (Set_Elements (um_GroupNames plan)))%nat then
      let calls := [UpdateListGroups] in
      match uu_ListGroups client with
      | Err err =>
          Done ({| ur_Diagnostics :=
                     AddError diags "Client Error" ("Unable to list groups: " +:+ Error err);
                   ur_State := None |}, calls)
      | Ok sourceGroups =>
          r ← resolveGroupIDsFromNames plan sourceGroups;
          let groupIds := fst r in
          let notFoundGroups := snd r in
          if bool_decide (0 < length notFoundGroups)%nat then
            Done ({| ur_Diagnostics :=
                       AddError diags "Client Error"
                         ("Unable to find groups: " +:+ print_names notFoundGroups);
                     ur_State := None |}, calls)
          else
            UserResource_Update_roles client diags plan state setDiags
              (set_up_Groups putData (appended groupIds)) calls
      end
    else
      UserResource_Update_roles client diags plan state setDiags
        (set_up_Groups putData (Some [])) [].

(** A remote service for the examples: one group, two roles, and an
    update that answers with [user_ex]. *)
Definition user_update_client_ex : UserUpdateClient :=
  {| uu_ListGroups := Ok [ {| group_Id := 8; group_Name := "analysts" |} ];
     uu_ListRoles := Ok [ {| role_Id := 1; role_Name := "Admin" |};
                          {| role_Id := 3; role_Name := "Gamma" |} ];
     uu_UpdateUser := fun _ _ => Ok user_ex |}.

(** ** [RolePermissionsResource.ValidateConfig] *)

Definition String_IsUnknown (v : types.String) : bool :=
  match v with types.StringUnknown => true | _ => false end.

Definition List_IsUnknown (l : types_List) : bool :=
  match l with ListUnknown => true | _ => false end.

(** [obj.Attributes()[name].(types.String)]: the assertion panics on a
    missing attribute and on one that is not a string. *)
Definition attribute_String (obj : types_Object) (name : string) : go types.String :=
  match Object_Attributes obj !! name with
  | Some (PString s) => Done s
  | _ => Panic "interface conversion: attr.Value is not basetypes.StringValue"
  end.

(** An error diagnostic on the element of [permissions] at an index, as
    [AddAttributeError] at [path.Root("permissions").AtListIndex(i)]
    adds it. *)
Definition AttributeError : Type := nat * Diagnostic.

Section ValidateConfig.

(** The verb [%q] of [fmt]: the string as a quoted Go literal. *)
Variable Quote : string -> string.

Definition duplicate_permission (key : string) (firstIdx : nat) : Diagnostic :=
  ErrorDiagnostic "Duplicate permission"
    ("Duplicate permission " +:+ Quote key
     +:+ ". It was already specified at permissions[" +:+ pretty firstIdx +:+ "].").

(** The loop over the elements: [i] is the index of the next element,
    [seen] the map from a key to the index it was first seen at, and
    [diags] the attribute errors added so far. *)
Fixpoint ValidateConfig_loop (elems : list attr_Value) (i : nat) (seen : gmap string nat)
    (diags : list AttributeError) : go (list AttributeError) :=
  match elems with
  | [] => Done diags
  | v :: rest =>
      match v with
      | OfObject obj =>
          pn ← attribute_String obj "permission_name";
          vm ← attribute_String obj "view_menu_name";
          if types.IsNull pn || String_IsUnknown pn || types.IsNull vm || String_IsUnknown vm
          then
            ValidateConfig_loop rest (S i) seen
              (diags ++ [(i, ErrorDiagnostic "Permission is not fully specified"
                               "permission_name and view_menu_name must be set.")])
          else
            let key := types.ValueString pn +:+ "_" +:+ types.ValueString vm in
            match seen !! key with
            | Some firstIdx =>
                ValidateConfig_loop rest (S i) seen
                  (diags ++ [(i, duplicate_permission key firstIdx)])
            | None => ValidateConfig_loop rest (S i) (<[key := i]> seen) diags
            end
      | OfPrimitive _ =>
          ValidateConfig_loop rest (S i) seen
            (diags ++ [(i, ErrorDiagnostic "Invalid permission element"
                             "Each permissions element must be an object.")])
      end
  end.

(** [ValidateConfig].  [configDiags] are the diagnostics of reading the
    configuration and [Permissions] the list read from it; the result is
    the diagnostics of the response, those without a path and the
    attribute errors added after them. *)
Definition ValidateConfig (configDiags : list Diagnostic) (Permissions : types_List)
  : go (list Diagnostic * list AttributeError) :=
  if HasError configDiags then Done (configDiags, [])
  else if List_IsNull Permissions || List_IsUnknown Permissions then Done (configDiags, [])
  else
    diags ← ValidateConfig_loop (List_Elements Permissions) 0 ∅ [];
    Done (configDiags, diags).

End ValidateConfig.

(** The keys of a list of declared permission pairs. *)
Definition permission_keys (pairs : list (string * string)) : list string :=
  map (fun ab => fst ab +:+ "_" +:+ snd ab) pairs.

(** [j] is the first index at which [l] holds [k]. *)
Definition first_at (l : list string) (k : string) (j : nat) : Prop :=
  l !! j = Some k /\ forall j', (j' < j)%nat -> l !! j' <> Some k.

(** The duplicates of a list of keys as the loop finds them: the index,
    the index of the first occurrence, and the key. *)
Fixpoint duplicates (keys : list string) (i : nat) (seen : gmap string nat)
  : list (nat * nat * string) :=
  match keys with
  | [] => []
  | key :: rest =>
      match seen !! key with
      | Some firstIdx => (i, firstIdx, key) :: duplicates rest (S i) seen
      | None => duplicates rest (S i) (<[key := i]> seen)
      end
  end.

(** A quoting for the examples, right for strings without a character
    to escape. *)
Definition Quote_ex (s : string) : string := dquote +:+ s +:+ dquote.

(** The role ids an update may carry: the empty list when the plan has
    no role names, and otherwise the ids the listed roles resolve the
    names to, none being not found. *)
Definition roles_resolved (client : UserUpdateClient) (plan : userBaseModel)
    (roleIds : list Z) : Prop :=
  (Set_Elements (um_RoleNames plan) = [] /\ roleIds = []) \/
  (exists roles, uu_ListRoles client = Ok roles /\
                 resolveRoleIDsFromNames plan roles = Done (roleIds, [])).

Definition groups_resolved (client : UserUpdateClient) (plan : userBaseModel)
    (groupIds : list Z) : Prop :=
  (Set_Elements (um_GroupNames plan) = [] /\ groupIds = []) \/
  (exists groups, uu_ListGroups client = Ok groups /\
                  resolveGroupIDsFromNames plan groups = Done (groupIds, [])).

(* ================================================================== *)
(** * Properties *)
(* ================================================================== *)

(** ** Column reconcile *)

Lemma mapColumnNameToColumn_snoc columns c :
  mapColumnNameToColumn (columns ++ [c])
  = <[tc_ColumnName c := c]> (mapColumnNameToColumn columns).
Proof. unfold mapColumnNameToColumn. by rewrite foldl_app. Qed.

(** The lookup table answers with the last server column of that name. *)
Lemma mapColumnNameToColumn_Some columns k c :
  mapColumnNameToColumn columns !! k = Some c <->
  exists pre post, columns = pre ++ c :: post /\ tc_ColumnName c = k /\
    Forall (fun c' => tc_ColumnName c' <> k) post.
Proof.
  revert c. induction columns as [|x columns IH] using rev_ind; intros c.
  - split; [done|]. intros (pre & post & E & _). by destruct pre.
  - rewrite mapColumnNameToColumn_snoc.
    destruct (decide (tc_ColumnName x = k)) as [Hx|Hx].
    + rewrite Hx, lookup_insert_eq. split.
      * intros [= <-]. exists columns, []. by repeat split.
      * intros (pre & post & E & Hc & Hpost).
        destruct post as [|y post _] using rev_ind.
        { apply app_inj_tail in E as [_ ->]. done. }
        rewrite app_comm_cons, app_assoc in E.
        apply app_inj_tail in E as [_ ->].
        apply Forall_app in Hpost as [_ Hy]. by inversion Hy.
    + rewrite lookup_insert_ne by done. rewrite IH. split.
      * intros (pre & post & -> & Hc & Hpost).
        exists pre, (post ++ [x]). rewrite <- app_assoc. repeat split; [done|].
        apply Forall_app. split; [done|]. by constructor.
      * intros (pre & post & E & Hc & Hpost).
        destruct post as [|y post _] using rev_ind.
        { apply app_inj_tail in E as [_ ->]. done. }
        rewrite app_comm_cons, app_assoc in E.
        apply app_inj_tail in E as [-> ->].
        apply Forall_app in Hpost as [Hpost _]. by exists pre, post.
Qed.

Lemma mapColumnNameToColumn_None columns k :
  mapColumnNameToColumn columns !! k = None <->
  Forall (fun c => tc_ColumnName c <> k) columns.
Proof.
  induction columns as [|x columns IH] using rev_ind.
  - split; [constructor|done].
  - rewrite mapColumnNameToColumn_snoc, Forall_app, <- IH.
    destruct (decide (tc_ColumnName x = k)) as [Hx|Hx].
    + rewrite Hx, lookup_insert_eq. split; [done|].
      intros [_ H]. by inversion H.
    + rewrite lookup_insert_ne by done. split; [|tauto].
      intros H. split; [done|]. by repeat constructor.
Qed.

Lemma mapColumnNameToColumn_elem columns k c :
  mapColumnNameToColumn columns !! k = Some c -> c ∈ columns.
Proof.
  intros (pre & post & -> & _)%mapColumnNameToColumn_Some.
  apply elem_of_app. right. by left.
Qed.

Lemma resovleColumn_spec m d :
  (forall c, m !! types.ValueString (dc_ColumnName d) = Some c ->
             IsSpecified (tc_Type c) = true) ->
  resovleColumn m d =
  Done match m !! types.ValueString (dc_ColumnName d) with
       | Some c => resolved_with d c
       | None => d
       end.
Proof.
  intros H. unfold resovleColumn, resolved_with.
  destruct (m !! _) as [c|]; [|done].
  specialize (H c eq_refl).
  destruct (tc_Type c) as [| |t]; simpl in *; try done.
  destruct (decide (t = "")) as [->|Ht]; [done|].
  rewrite bool_decide_true by done. by rewrite bool_decide_false by done.
Qed.

Lemma resovleColumns_loop_spec m declared acc :
  Forall (fun d => forall c, m !! types.ValueString (dc_ColumnName d) = Some c ->
                             IsSpecified (tc_Type c) = true) declared ->
  resovleColumns_loop m declared acc =
  Done (acc ++ map (fun d => match m !! types.ValueString (dc_ColumnName d) with
                             | Some c => resolved_with d c
                             | None => d
                             end) declared).
Proof.
  revert acc. induction declared as [|d declared IH]; intros acc H; simpl.
  - by rewrite app_nil_r.
  - inversion H as [|? ? Hd Hrest]; subst.
    rewrite (resovleColumn_spec m d Hd). unfold mbind, go_bind.
    rewrite (IH _ Hrest). by rewrite <- app_assoc.
Qed.

(** C1 (as amended).  When every server column's type field was sent,
    the reconcile returns one entry per declared column, in the declared
    order.  An entry whose column_name is the name of a server column is
    the declared column with the id of the last such server column, and
    with that column's type when it is a non-empty string (a null or
    empty server type leaves the declared type in place); an entry whose
    name no server column has is the declared column itself. *)
Theorem resovleColumns_copies_server_fields
    (model : datasetColumnsBaseModel)
    (columns : list DatasetRestApiGetTableColumn) :
  Forall (fun c => IsSpecified (tc_Type c) = true) columns ->
  exists out,
    resovleColumns model columns = Done out /\
    length out = length (cm_Columns model) /\
    forall (i : nat) (d : datasetColumn),
      cm_Columns model !! i = Some d ->
      (forall pre c post,
          columns = pre ++ c :: post ->
          tc_ColumnName c = types.ValueString (dc_ColumnName d) ->
          Forall (fun c' => tc_ColumnName c' <> types.ValueString (dc_ColumnName d)) post ->
          out !! i = Some (resolved_with d c)) /\
      (Forall (fun c => tc_ColumnName c <> types.ValueString (dc_ColumnName d)) columns ->
       out !! i = Some d).
Proof.
  intros Hspec. unfold resovleColumns.
  rewrite resovleColumns_loop_spec.
  2:{ apply Forall_forall. intros d _ c Hc.
      apply mapColumnNameToColumn_elem in Hc.
      rewrite Forall_forall in Hspec. by apply Hspec. }
  eexists. split; [reflexivity|]. simpl. split; [by rewrite length_map|].
  intros i d Hd. rewrite list_lookup_fmap, Hd. simpl. split.
  - intros pre c post E Hc Hpost.
    assert (mapColumnNameToColumn columns !! types.ValueString (dc_ColumnName d)
            = Some c) as ->; [|done].
    apply mapColumnNameToColumn_Some. by exists pre, post.
  - intros Hnone. apply mapColumnNameToColumn_None in Hnone. by rewrite Hnone.
Qed.

Lemma resovleColumns_copies_server_fields_witness :
  exists out,
    resovleColumns (cols_model cols_declared_ex) cols_server_ex = Done out /\
    length out = length (cm_Columns (cols_model cols_declared_ex)) /\
    forall (i : nat) (d : datasetColumn),
      cm_Columns (cols_model cols_declared_ex) !! i = Some d ->
      (forall pre c post,
          cols_server_ex = pre ++ c :: post ->
          tc_ColumnName c = types.ValueString (dc_ColumnName d) ->
          Forall (fun c' => tc_ColumnName c' <> types.ValueString (dc_ColumnName d)) post ->
          out !! i = Some (resolved_with d c)) /\
      (Forall (fun c => tc_ColumnName c <> types.ValueString (dc_ColumnName d)) cols_server_ex ->
       out !! i = Some d).
Proof.
  apply (resovleColumns_copies_server_fields (cols_model cols_declared_ex) cols_server_ex).
  repeat constructor.
Defined.

(** The reconcile on the concrete inputs: COL1 takes id 12 and keeps its
    declared type, COL2 takes id 11 and the server type, COL3 is passed
    through. *)
Example resovleColumns_ex :
  resovleColumns (cols_model cols_declared_ex) cols_server_ex =
  Done [ col_declared "COL1" "VARCHAR" (types.Int64Value 12);
         col_declared "COL2" "BIGINT" (types.Int64Value 11);
         col_declared "COL3" "DATE" types.Int64Unknown ].
Proof. vm_compute. reflexivity. Qed.

(** C1 as stated fails: the declared column COL1 matches the server
    column of id 12, whose type is null (and reads as a null string in
    configuration shape), yet the output keeps the declared type. *)
Lemma resovleColumns_keeps_declared_type :
  resovleColumns (cols_model [col_declared "COL1" "VARCHAR" types.Int64Null])
                 [col_server 12 "COL1" Null]
  = Done [col_declared "COL1" "VARCHAR" (types.Int64Value 12)] /\
  updateState_Type (col_server 12 "COL1" Null) = Done types.StringNull /\
  dc_Type (col_declared "COL1" "VARCHAR" (types.Int64Value 12)) <> types.StringNull.
Proof. split; [|split]; [vm_compute; reflexivity .. | discriminate]. Qed.

(** A matched server column whose type field was not sent makes the
    reconcile panic. *)
Example resovleColumns_panics :
  resovleColumns (cols_model [col_declared "COL1" "VARCHAR" types.Int64Null])
                 [col_server 12 "COL1" Unspecified]
  = Panic "value is not specified".
Proof. vm_compute. reflexivity. Qed.

(** ** Folder flatten *)

Example uuid_String_ex :
  uuid.String 0xf47ac10b58cc4372a5670e02b2c3d479%N
  = "f47ac10b-58cc-4372-a567-0e02b2c3d479" /\
  uuid.String uuid.Nil = zero_uuid_string /\
  ParseCanonical "F47AC10B-58cc-4372-a567-0e02b2c3d479"
  = Ok 0xf47ac10b58cc4372a5670e02b2c3d479%N.
Proof. vm_compute. auto. Qed.

Section toFolders_facts.

Variable Parse : string -> Result uuid.UUID.
Variable random : nat -> uuid.UUID.

Lemma assign_uuids_app us1 us2 n :
  assign_uuids Parse random (us1 ++ us2) n =
  match assign_uuids Parse random us1 n with
  | (Ok l1, n1) =>
      match assign_uuids Parse random us2 n1 with
      | (Ok l2, n2) => (Ok (l1 ++ l2), n2)
      | (Err e, n2) => (Err e, n2)
      end
  | (Err e, n1) => (Err e, n1)
  end.
Proof.
  revert n. induction us1 as [|v us1 IH]; intros n; simpl.
  - by destruct (assign_uuids Parse random us2 n) as [[l|e] n2].
  - destruct (uuid_unset v).
    + rewrite IH. destruct (assign_uuids Parse random us1 (S n)) as [[l1|e] n1]; [|done].
      by destruct (assign_uuids Parse random us2 n1) as [[l2|e] n2].
    + destruct (Parse (types.ValueString v)) as [u|e]; [|done].
      rewrite IH. destruct (assign_uuids Parse random us1 n) as [[l1|e] n1]; [|done].
      by destruct (assign_uuids Parse random us2 n1) as [[l2|e] n2].
Qed.

Lemma count_unset_cons v us :
  count_unset (v :: us) = ((if uuid_unset v then 1 else 0) + count_unset us)%nat.
Proof.
  unfold count_unset. rewrite filter_cons.
  destruct (uuid_unset v); case_decide; simpl; congruence.
Qed.

(** The rule, position by position: the [j]-th uuid is the draw numbered
    by the unset uuids before it, or the parsed declared string. *)
Lemma assign_uuids_Ok us n l n' :
  assign_uuids Parse random us n = (Ok l, n') ->
  n' = (n + count_unset us)%nat /\
  length l = length us /\
  forall j v u, us !! j = Some v -> l !! j = Some u ->
    if uuid_unset v then u = random (n + count_unset (take j us))%nat
    else Parse (types.ValueString v) = Ok u.
Proof.
  revert n l n'. induction us as [|v us IH]; intros n l n'; simpl.
  - intros [= <- <-]. unfold count_unset. simpl. repeat split; [lia|]. by intros [|j].
  - rewrite count_unset_cons.
    destruct (uuid_unset v) eqn:Hv.
    + destruct (assign_uuids Parse random us (S n)) as [[l1|e] n1] eqn:E; [|done].
      intros [= <- <-]. destruct (IH _ _ _ E) as (-> & Hlen & Hj).
      split; [lia|split; [simpl; lia|]].
      intros [|j] v' u; simpl.
      * intros [= <-] [= <-]. rewrite Hv. unfold count_unset. simpl. f_equal. lia.
      * intros Hv' Hu. specialize (Hj j v' u Hv' Hu).
        rewrite count_unset_cons, Hv.
        destruct (uuid_unset v'); [|done]. rewrite Hj. f_equal. lia.
    + destruct (Parse (types.ValueString v)) as [u0|e0] eqn:HP; [|done].
      destruct (assign_uuids Parse random us n) as [[l1|e] n1] eqn:E; [|done].
      intros [= <- <-]. destruct (IH _ _ _ E) as (-> & Hlen & Hj).
      split; [lia|split; [simpl; lia|]].
      intros [|j] v' u; simpl.
      * intros [= <-] [= <-]. by rewrite Hv.
      * intros Hv' Hu. specialize (Hj j v' u Hv' Hu).
        rewrite count_unset_cons, Hv. done.
Qed.

Lemma assign_uuids_Err us n e n' :
  assign_uuids Parse random us n = (Err e, n') ->
  exists v, v ∈ us /\ uuid_unset v = false /\ Parse (types.ValueString v) = Err e.
Proof.
  revert n. induction us as [|v us IH]; intros n; simpl; [done|].
  destruct (uuid_unset v) eqn:Hv.
  - destruct (assign_uuids Parse random us (S n)) as [[l1|e1] n1] eqn:E; [done|].
    intros [= <- <-]. destruct (IH _ E) as (v' & Hin & H).
    exists v'. split; [by right|done].
  - destruct (Parse (types.ValueString v)) as [u0|e0] eqn:HP.
    + destruct (assign_uuids Parse random us n) as [[l1|e1] n1] eqn:E; [done|].
      intros [= <- <-]. destruct (IH _ E) as (v' & Hin & H).
      exists v'. split; [by right|done].
    + intros [= <- <-]. exists v. split; [by left|done].
Qed.

(** A declared uuid that is to be reused and does not parse makes the
    rule fail. *)
Lemma assign_uuids_malformed us n v e :
  v ∈ us -> uuid_unset v = false -> Parse (types.ValueString v) = Err e ->
  exists e' n', assign_uuids Parse random us n = (Err e', n').
Proof.
  intros Hin Hv HP.
  destruct (assign_uuids Parse random us n) as [[l|e'] n'] eqn:E; [|by eauto].
  destruct (assign_uuids_Ok _ _ _ _ E) as (_ & Hlen & Hj).
  apply list_elem_of_lookup in Hin as [j Hjv].
  destruct (lookup_lt_is_Some_2 l j) as [u Hu].
  { rewrite Hlen. by eapply lookup_lt_Some. }
  specialize (Hj _ _ _ Hjv Hu). rewrite Hv, HP in Hj. done.
Qed.

(** The children loop follows the rule over the children's uuids. *)
Lemma datasetFolderModel_toFolders_loop_spec children acc n :
  match datasetFolderModel_toFolders_loop Parse random children acc n,
        assign_uuids Parse random (map fc_Uuid children) n with
  | (Ok ws, n1), (Ok l, n2) =>
      n1 = n2 /\ exists new, ws = acc ++ new /\ map wf_Uuid new = l /\
                             Forall2 child_flattened children new
  | (Err e1, _), (Err e2, _) => e1 = e2
  | _, _ => False
  end.
Proof.
  revert acc n. induction children as [|c children IH]; intros acc n; simpl.
  - split; [done|]. exists []. by rewrite app_nil_r.
  - destruct (uuid_unset (fc_Uuid c)).
    + match goal with |- context [datasetFolderModel_toFolders_loop _ _ _ ?a ?m] =>
        specialize (IH a m) end.
      destruct (datasetFolderModel_toFolders_loop _ _ _ _ _) as [[ws|e1] n1];
        destruct (assign_uuids _ _ _ _) as [[l|e2] n2]; try done.
      destruct IH as (-> & new & -> & <- & HF). split; [done|].
      eexists (_ :: new). rewrite <- app_assoc. split; [done|]. split; [done|].
      by constructor.
    + destruct (Parse _) as [u|e]; [|done].
      match goal with |- context [datasetFolderModel_toFolders_loop _ _ _ ?a ?m] =>
        specialize (IH a m) end.
      destruct (datasetFolderModel_toFolders_loop _ _ _ _ _) as [[ws|e1] n1];
        destruct (assign_uuids _ _ _ _) as [[l|e2] n2]; try done.
      destruct IH as (-> & new & -> & <- & HF). split; [done|].
      eexists (_ :: new). rewrite <- app_assoc. split; [done|]. split; [done|].
      by constructor.
Qed.

(** The root loop follows the rule over all declared uuids, and the
    wire list has the declared shape. *)
Lemma datasetFolderBaseModel_toFolders_loop_spec declared acc n :
  match datasetFolderBaseModel_toFolders_loop Parse random declared acc n,
        assign_uuids Parse random (declared_uuids declared) n with
  | (Ok ws, n1), (Ok l, n2) =>
      n1 = n2 /\ exists new, ws = acc ++ new /\ wire_uuids new = l /\
                             Forall2 folder_flattened declared new
  | (Err e1, _), (Err e2, _) => e1 = e2
  | _, _ => False
  end.
Proof.
  revert acc n. induction declared as [|f declared IH]; intros acc n.
  - simpl. split; [done|]. exists []. by rewrite app_nil_r.
  - unfold declared_uuids. simpl. fold (declared_uuids declared).
    destruct (uuid_unset (fm_Uuid f)).
    + rewrite assign_uuids_app. unfold datasetFolderModel_toFolders.
      pose proof (datasetFolderModel_toFolders_loop_spec (fm_Children f) [] (S n)) as Hc.
      destruct (datasetFolderModel_toFolders_loop _ _ _ _ _) as [[cs|e1] n1];
        destruct (assign_uuids _ _ (map _ _) _) as [[l|e2] n2]; try done.
      destruct Hc as (-> & new & -> & <- & HFc). simpl.
      match goal with |- context [datasetFolderBaseModel_toFolders_loop _ _ _ ?a ?m] =>
        specialize (IH a m) end.
      destruct (datasetFolderBaseModel_toFolders_loop _ _ _ _ _) as [[ws|e1] n1];
        destruct (assign_uuids _ _ _ _) as [[l|e2] n3]; try done.
      destruct IH as (-> & new' & -> & <- & HF). split; [done|].
      eexists (_ :: new'). rewrite <- app_assoc. split; [done|]. split.
      * unfold wire_uuids. simpl. case_bool_decide; [done|].
        destruct new; [done|simpl in *; lia].
      * constructor; [|done]. repeat split. simpl. case_bool_decide; eauto.
        destruct new; simpl in *; [|lia]. inversion HFc. subst. eauto.
    + destruct (Parse _) as [u|e]; [|done].
      rewrite assign_uuids_app. unfold datasetFolderModel_toFolders.
      pose proof (datasetFolderModel_toFolders_loop_spec (fm_Children f) [] n) as Hc.
      destruct (datasetFolderModel_toFolders_loop _ _ _ _ _) as [[cs|e1] n1];
        destruct (assign_uuids _ _ (map _ _) _) as [[l|e2] n2]; try done.
      destruct Hc as (-> & new & -> & <- & HFc). simpl.
      match goal with |- context [datasetFolderBaseModel_toFolders_loop _ _ _ ?a ?m] =>
        specialize (IH a m) end.
      destruct (datasetFolderBaseModel_toFolders_loop _ _ _ _ _) as [[ws|e1] n1];
        destruct (assign_uuids _ _ _ _) as [[l|e2] n3]; try done.
      destruct IH as (-> & new' & -> & <- & HF). split; [done|].
      eexists (_ :: new'). rewrite <- app_assoc. split; [done|]. split.
      * unfold wire_uuids. simpl. case_bool_decide; [done|].
        destruct new; [done|simpl in *; lia].
      * constructor; [|done]. repeat split. simpl. case_bool_decide; eauto.
        destruct new; simpl in *; [|lia]. inversion HFc. subst. eauto.
Qed.

End toFolders_facts.

Lemma uuid_unset_iff (v : types.String) :
  uuid_unset v = true <->
  v = types.StringNull \/ types.ValueString v = "" \/
  types.ValueString v = "00000000-0000-0000-0000-000000000000".
Proof.
  unfold uuid_unset. rewrite !orb_true_iff, !bool_decide_eq_true.
  destruct v; simpl; intuition congruence.
Qed.

(** C2 (as amended).  The flatten never looks at the type of a declared
    root folder.  When it returns a wire list, the list has one folder
    per declared root folder and each carries the declared type string,
    whatever it is; when it returns an error, the error is the parse
    error of a declared uuid that was to be reused. *)
Theorem toFolders_copies_root_type
    (Parse : string -> Result uuid.UUID) (random : nat -> uuid.UUID)
    (model : datasetFolderBaseModel) (n : nat) :
  match datasetFolderBaseModel_toFolders Parse random model n with
  | (Ok ws, _) =>
      length ws = length (fb_Folders model) /\
      forall i f w, fb_Folders model !! i = Some f -> ws !! i = Some w ->
                    wf_Type w = types.ValueString (fm_Type f)
  | (Err e, _) =>
      exists v, v ∈ declared_uuids (fb_Folders model) /\
                uuid_unset v = false /\
                Parse (types.ValueString v) = Err e
  end.
Proof.
  unfold datasetFolderBaseModel_toFolders.
  pose proof (datasetFolderBaseModel_toFolders_loop_spec Parse random
                (fb_Folders model) [] n) as H.
  destruct (datasetFolderBaseModel_toFolders_loop _ _ _ _ _) as [[ws|e1] n1];
    destruct (assign_uuids _ _ _ _) as [[l|e2] n2] eqn:E; try done.
  - destruct H as (_ & new & -> & _ & HF). simpl. split.
    + symmetry. by eapply Forall2_length.
    + intros i f w Hf Hw.
      destruct (Forall2_lookup_lr _ _ _ _ _ _ HF Hf Hw) as (_ & Ht & _). done.
  - subst e2. by eapply assign_uuids_Err.
Qed.

(** C2 as stated fails: a declared root folder of type "column" is
    flattened to a wire folder of type "column". *)
Lemma toFolders_accepts_root_of_other_type :
  datasetFolderBaseModel_toFolders ParseCanonical random_ex
    (folders_model
       [folder_root "test_folder" "column" types.StringNull
          [folder_child "COL1" "column" types.StringNull]]) 0
  = (Ok [ {| wf_Name := "test_folder";
             wf_Type := "column";
             wf_Description := Value "a folder";
             wf_Children :=
               Value [ {| wf_Name := "COL1";
                          wf_Type := "column";
                          wf_Description := Unspecified;
                          wf_Children := Value [];
                          wf_Uuid := random_ex 1 |} ];
             wf_Uuid := random_ex 0 |} ], 2%nat)
  /\ "column" <> FolderTypeFolder.
Proof. split; [vm_compute; reflexivity | discriminate]. Qed.

(** C4.  Over the declared uuids in flatten order (each root folder,
    then its children): when the flatten returns a wire list, the list
    has the declared shape, and the uuid at each position is a random
    uuid drawn for that position alone exactly when the declared uuid is
    unset (null, or reading as the empty string or as the all-zero
    uuid), and is otherwise the declared string as [uuid.Parse] reads
    it; the number of draws is the number of unset uuids.  When it
    returns an error, that is the parse error of a declared uuid that
    was to be reused; and whenever such a uuid is malformed, the flatten
    returns an error. *)
Theorem toFolders_uuid_rule
    (Parse : string -> Result uuid.UUID) (random : nat -> uuid.UUID)
    (model : datasetFolderBaseModel) (n : nat) :
  let us := declared_uuids (fb_Folders model) in
  match datasetFolderBaseModel_toFolders Parse random model n with
  | (Ok ws, n') =>
      Forall2 folder_flattened (fb_Folders model) ws /\
      n' = (n + count_unset us)%nat /\
      length (wire_uuids ws) = length us /\
      forall j v u, us !! j = Some v -> wire_uuids ws !! j = Some u ->
        if uuid_unset v then u = random (n + count_unset (take j us))%nat
        else Parse (types.ValueString v) = Ok u
  | (Err e, _) =>
      exists v, v ∈ us /\ uuid_unset v = false /\
                Parse (types.ValueString v) = Err e
  end /\
  (forall v e, v ∈ us -> uuid_unset v = false ->
               Parse (types.ValueString v) = Err e ->
     exists e' n',
       datasetFolderBaseModel_toFolders Parse random model n = (Err e', n')).
Proof.
  intros us. unfold datasetFolderBaseModel_toFolders.
  pose proof (datasetFolderBaseModel_toFolders_loop_spec Parse random
                (fb_Folders model) [] n) as H.
  fold us in H. split.
  - destruct (datasetFolderBaseModel_toFolders_loop _ _ _ _ _) as [[ws|e1] n1];
      destruct (assign_uuids _ _ _ _) as [[l|e2] n2] eqn:E; try done.
    + destruct H as (-> & new & -> & <- & HF). simpl.
      destruct (assign_uuids_Ok _ _ _ _ _ _ E) as (-> & Hlen & Hj). done.
    + subst e2. by eapply assign_uuids_Err.
  - intros v e Hin Hv HP.
    destruct (assign_uuids_malformed Parse random us n v e Hin Hv HP) as (e' & n' & E).
    rewrite E in H.
    destruct (datasetFolderBaseModel_toFolders_loop _ _ _ _ _) as [[ws|e1] n1];
      [done|by eauto].
Qed.

(** The flatten on a concrete declaration: the root folder and the
    second child get the first and the second random uuid, the first
    child reuses its declared uuid. *)
Example toFolders_ex :
  datasetFolderBaseModel_toFolders ParseCanonical random_ex
    (folders_model
       [folder_root "test_folder" "folder" types.StringUnknown
          [folder_child "COL1" "column"
             (types.StringValue "0a0b0c0d-0000-4000-8000-000000000001");
           folder_child "METRIC1" "metric"
             (types.StringValue "00000000-0000-0000-0000-000000000000")]]) 0
  = (Ok [ {| wf_Name := "test_folder";
             wf_Type := "folder";
             wf_Description := Value "a folder";
             wf_Children :=
               Value [ {| wf_Name := "COL1";
                          wf_Type := "column";
                          wf_Description := Unspecified;
                          wf_Children := Value [];
                          wf_Uuid := 0x0a0b0c0d000040008000000000000001%N |};
                       {| wf_Name := "METRIC1";
                          wf_Type := "metric";
                          wf_Description := Unspecified;
                          wf_Children := Value [];
                          wf_Uuid := random_ex 1 |} ];
             wf_Uuid := random_ex 0 |} ], 2%nat).
Proof. vm_compute. reflexivity. Qed.

Example toFolders_malformed_ex :
  datasetFolderBaseModel_toFolders ParseCanonical random_ex
    (folders_model
       [folder_root "test_folder" "folder" types.StringNull
          [folder_child "COL1" "column" (types.StringValue "not-a-uuid")]]) 0
  = (Err (errorString "invalid UUID length"), 1%nat).
Proof. vm_compute. reflexivity. Qed.

(** ** Folder unflatten *)

Lemma hex_length k n acc : String.length (uuid.hex k n acc) = (k + String.length acc)%nat.
Proof.
  revert n acc. induction k as [|k IH]; intros n acc; simpl; [done|].
  rewrite IH. simpl. lia.
Qed.

(** [UUID.String] is never the empty string: the first of the two tests
    on a child's uuid cannot succeed. *)
Lemma uuid_String_not_empty (u : uuid.UUID) : uuid.String u <> "".
Proof.
  intros H. apply (f_equal String.length) in H. unfold uuid.String in H.
  rewrite hex_length in H. simpl in H. lia.
Qed.

Lemma updateState_children_spec (wire : list Folder) :
  forall children,
  Forall (fun c => wf_Description c <> Null) wire ->
  (forallb (fun c => negb (child_uuid_missing c)) wire = true ->
   exists new, updateState_children wire children = Done (Ok (children ++ new)) /\
               Forall2 child_unflattened wire new) /\
  (forallb (fun c => negb (child_uuid_missing c)) wire = false ->
   exists e, updateState_children wire children = Done (Err e)).
Proof.
  induction wire as [|w wire IH]; intros children Hread.
  - simpl. split; [|done]. intros _. exists []. by rewrite app_nil_r.
  - inversion Hread as [|? ? Hw Hrest]; subst.
    cbn [updateState_children forallb].
    unfold child_uuid_missing at 1 3.
    rewrite !(bool_decide_false (uuid.String (wf_Uuid w) = ""))
      by apply uuid_String_not_empty.
    rewrite !orb_false_l.
    assert (forall cm : datasetFolderChildModel,
              fc_Name cm = types.StringValue (wf_Name w) ->
              fc_Type cm = types.StringValue (wf_Type w) ->
              fc_Description cm = description_read (wf_Description w) ->
              (negb (bool_decide (uuid.String (wf_Uuid w) = zero_uuid_string))
               && forallb (fun c => negb (child_uuid_missing c)) wire = true ->
               exists new,
                 (if bool_decide (uuid.String (wf_Uuid w) = zero_uuid_string)
                  then Done (Err (errorString
                         ("missing uuid for child " +:+ wf_Name w
                          +:+ " in folders response")))
                  else updateState_children wire
                         (children ++
                          [ {| fc_Name := fc_Name cm;
                               fc_Type := fc_Type cm;
                               fc_Description := fc_Description cm;
                               fc_Uuid := types.StringValue
                                            (uuid.String (wf_Uuid w)) |} ]))
                 = Done (Ok (children ++ new)) /\
                 Forall2 child_unflattened (w :: wire) new) /\
              (negb (bool_decide (uuid.String (wf_Uuid w) = zero_uuid_string))
               && forallb (fun c => negb (child_uuid_missing c)) wire = false ->
               exists e,
                 (if bool_decide (uuid.String (wf_Uuid w) = zero_uuid_string)
                  then Done (Err (errorString
                         ("missing uuid for child " +:+ wf_Name w
                          +:+ " in folders response")))
                  else updateState_children wire
                         (children ++
                          [ {| fc_Name := fc_Name cm;
                               fc_Type := fc_Type cm;
                               fc_Description := fc_Description cm;
                               fc_Uuid := types.StringValue
                                            (uuid.String (wf_Uuid w)) |} ]))
                 = Done (Err e))) as Hstep.
    { intros cm Hn Ht Hd. rewrite Hn, Ht, Hd.
      destruct (bool_decide (uuid.String (wf_Uuid w) = zero_uuid_string));
        cbn [negb andb].
      - split; [done|]. intros _. eauto.
      - match goal with |- context [updateState_children wire ?a] =>
          destruct (IH a Hrest) as [IHt IHf] end.
        split.
        + intros Hall. destruct (IHt Hall) as (new & -> & HF).
          eexists (_ :: new). rewrite <- app_assoc. split; [done|].
          by constructor.
        + intros Hall. by apply IHf. }
    destruct (wf_Description w) as [| |s] eqn:HD; [|done|];
      cbn [IsSpecified MustGet mbind go_bind].
    + by apply Hstep.
    + destruct (decide (s = "")) as [->|Hs].
      * rewrite (bool_decide_false ("" <> "")) by (intros H; by apply H).
        by apply Hstep.
      * rewrite (bool_decide_true (s <> "")) by done.
        apply Hstep; [done..|]. cbn. by rewrite bool_decide_false.
Qed.

Lemma datasetFolderModel_updateState_spec (model : datasetFolderModel) (w : Folder) :
  root_readable w ->
  wf_Type w = FolderTypeFolder ->
  fm_Description model = description_read (wf_Description w) ->
  fm_Children model = [] ->
  (forallb (fun c => negb (child_uuid_missing c)) (children_of w) = true ->
   exists model', datasetFolderModel_updateState model w = Done (model', None) /\
                  folder_unflattened w model') /\
  (forallb (fun c => negb (child_uuid_missing c)) (children_of w) = false ->
   exists model' e, datasetFolderModel_updateState model w = Done (model', Some e)).
Proof.
  intros (Hd & Hc & Hcs) Ht Hdesc Hchildren.
  unfold datasetFolderModel_updateState, children_of in *.
  rewrite Ht. rewrite (bool_decide_false (FolderTypeFolder <> FolderTypeFolder)) by auto.
  assert (forall m : datasetFolderModel,
            fm_Description m = description_read (wf_Description w) ->
            (if IsSpecified (wf_Description w)
             then s ← MustGet (wf_Description w);
                  if bool_decide (s <> "")
                  then Done {| fm_Name := fm_Name m;
                               fm_Description := types.StringValue s;
                               fm_Type := fm_Type m;
                               fm_Children := fm_Children m;
                               fm_Uuid := fm_Uuid m |}
                  else Done m
             else Done m) = Done m) as Hsame.
  { intros m Hm. destruct m as [n d t c u]. cbn in Hm |- *. subst d.
    destruct (wf_Description w) as [| |s]; cbn; [done|done|].
    destruct (decide (s = "")) as [->|Hs]; cbn; [done|].
    rewrite bool_decide_true by done. by rewrite bool_decide_false by done. }
  rewrite Hsame by done.
  cbn [mbind go_bind fm_Name fm_Description fm_Type fm_Children fm_Uuid].
  destruct (wf_Children w) as [| |cs] eqn:HC;
    cbn [IsNull negb MustGet mbind go_bind]; [done| |].
  - split; [|done]. intros _. eexists. split; [done|].
    unfold folder_unflattened, children_of. rewrite HC, Ht.
    cbn [fm_Name fm_Description fm_Type fm_Children fm_Uuid].
    rewrite Hchildren. by repeat split.
  - destruct cs as [|c cs].
    + rewrite bool_decide_false by (cbn; lia).
      split; [|done]. intros _. eexists. split; [done|].
      unfold folder_unflattened, children_of. rewrite HC, Ht.
      cbn [fm_Name fm_Description fm_Type fm_Children fm_Uuid].
      rewrite Hchildren. by repeat split.
    + rewrite bool_decide_true by (cbn; lia).
      destruct (updateState_children_spec (c :: cs) [] Hcs) as [Htrue Hfalse].
      split.
      * intros Hall. destruct (Htrue Hall) as (new & -> & HF).
        cbn [mbind go_bind app].
        eexists. split; [done|].
        unfold folder_unflattened, children_of. rewrite HC, Ht.
        cbn [fm_Name fm_Description fm_Type fm_Children fm_Uuid].
        by repeat split.
      * intros Hall. destruct (Hfalse Hall) as (e & ->).
        cbn [mbind go_bind]. eauto.
Qed.

(** What the unflatten does, and does not, check: over wire folders it
    can read, the mapping succeeds exactly when every root folder is of
    type "folder" and every child of a root folder has a uuid, and then
    gives one configuration folder per wire root folder and one child
    per wire child of a root folder.  Nothing below a child is looked
    at. *)
Lemma updateState_folders_spec (typedFolders : list Folder) :
  forall folders,
  Forall root_readable typedFolders ->
  (forallb root_accepted typedFolders = true ->
   exists new, updateState_folders typedFolders folders = Done (Ok (folders ++ new)) /\
               Forall2 folder_unflattened typedFolders new) /\
  (forallb root_accepted typedFolders = false ->
   exists e, updateState_folders typedFolders folders = Done (Err e)).
Proof.
  induction typedFolders as [|w typedFolders IH]; intros folders Hread.
  - cbn. split; [|done]. intros _. exists []. by rewrite app_nil_r.
  - inversion Hread as [|? ? Hw Hrest]; subst.
    cbn [updateState_folders forallb]. unfold root_accepted at 1 3.
    pose proof Hw as (Hd & _).
    assert (exists fm,
      (if IsSpecified (wf_Description w)
       then s ← MustGet (wf_Description w);
            if bool_decide (s <> "")
            then Done {| fm_Name := types.StringValue (wf_Name w);
                         fm_Description := types.StringValue s;
                         fm_Type := types.StringNull;
                         fm_Children := [];
                         fm_Uuid := types.StringNull |}
            else Done {| fm_Name := types.StringValue (wf_Name w);
                         fm_Description := types.StringNull;
                         fm_Type := types.StringNull;
                         fm_Children := [];
                         fm_Uuid := types.StringNull |}
       else Done {| fm_Name := types.StringValue (wf_Name w);
                    fm_Description := types.StringNull;
                    fm_Type := types.StringNull;
                    fm_Children := [];
                    fm_Uuid := types.StringNull |})
      = Done fm /\
      fm_Description fm = description_read (wf_Description w) /\
      fm_Children fm = []) as (fm & Hfm & Hfd & Hfc).
    { destruct (wf_Description w) as [| |s]; cbn; [eauto|done|].
      destruct (decide (s = "")) as [->|Hs]; cbn; [eauto|].
      rewrite bool_decide_true by done. rewrite bool_decide_false by done. eauto. }
    cbn [fm_Name fm_Description fm_Type fm_Children fm_Uuid] in Hfm |- *.
    rewrite Hfm. cbn [mbind go_bind].
    destruct (decide (wf_Type w = FolderTypeFolder)) as [Ht|Ht].
    + rewrite (bool_decide_true (wf_Type w = FolderTypeFolder)) by done.
      rewrite (bool_decide_false (wf_Type w <> FolderTypeFolder)) by auto.
      cbn [andb].
      match goal with |- context [datasetFolderModel_updateState ?m w] =>
        destruct (datasetFolderModel_updateState_spec m w Hw Ht Hfd Hfc)
          as [Htrue Hfalse] end.
      destruct (forallb _ (children_of w)) eqn:Hall; cbn [andb].
      * destruct (Htrue eq_refl) as (model' & -> & Hshape). cbn [mbind go_bind].
        match goal with |- context [updateState_folders typedFolders ?a] =>
          destruct (IH a Hrest) as [IHt IHf] end.
        split.
        -- intros Hacc. destruct (IHt Hacc) as (new & -> & HF).
           eexists (_ :: new). rewrite <- app_assoc. split; [done|].
           constructor; [|done].
           destruct Hshape as (? & ? & ? & ? & ?). by repeat split.
        -- intros Hacc. by apply IHf.
      * destruct (Hfalse eq_refl) as (model' & e & ->). cbn [mbind go_bind].
        split; [done|]. eauto.
    + rewrite (bool_decide_false (wf_Type w = FolderTypeFolder)) by done.
      rewrite (bool_decide_true (wf_Type w <> FolderTypeFolder)) by done.
      cbn [andb]. split; [done|]. eauto.
Qed.

(** C3, at the failing input.  The wire tree has a folder "inner" inside
    the root folder "outer", with a column below it.  The mapping
    returns no error: "inner" becomes a child of type "folder" and the
    column below it is dropped, so the three wire nodes give two
    configuration nodes. *)
Theorem updateState_accepts_nested_folder :
  datasetFolderBaseModel_updateState datasetFolderBaseModel_zero
    (dataset_with_folders (Value (DecodesTo nested_wire)))
  = Done ({| fb_DatasetId := types.Int64Value 7;
             fb_DatasetName := types.StringValue "tables";
             fb_Folders :=
               [ {| fm_Name := types.StringValue "outer";
                    fm_Description := types.StringNull;
                    fm_Type := types.StringValue "folder";
                    fm_Children :=
                      [ {| fc_Name := types.StringValue "inner";
                           fc_Description := types.StringNull;
                           fc_Type := types.StringValue "folder";
                           fc_Uuid := types.StringValue
                                        "00000000-0000-0000-0000-0000000000a2" |} ];
                    fm_Uuid := types.StringValue
                                 "00000000-0000-0000-0000-0000000000a1" |} ] |},
          None).
Proof. vm_compute. reflexivity. Qed.

(** ** Folder child identifiers *)

Lemma findColumnByName_Some columns name column :
  findColumnByName columns name = Some column <->
  exists pre post, columns = pre ++ column :: post /\
    Forall (fun x => tc_ColumnName x <> name) pre /\ tc_ColumnName column = name.
Proof.
  induction columns as [|x columns IH]; simpl.
  - split; [done|]. intros (pre & post & E & _). by destruct pre.
  - case_bool_decide as Hx.
    + split.
      * intros [= <-]. exists [], columns. by repeat split.
      * intros (pre & post & E & Hpre & Hc). destruct pre as [|y pre]; simpl in E.
        { by injection E as -> _. }
        injection E as -> _. by inversion Hpre.
    + rewrite IH. split.
      * intros (pre & post & -> & Hpre & Hc). exists (x :: pre), post.
        repeat split; [|done]. by constructor.
      * intros (pre & post & E & Hpre & Hc). destruct pre as [|y pre]; simpl in E.
        { injection E as -> _. done. }
        injection E as -> ->. inversion Hpre; subst. by exists pre, post.
Qed.

Lemma findColumnByName_None columns name :
  findColumnByName columns name = None <->
  Forall (fun x => tc_ColumnName x <> name) columns.
Proof.
  induction columns as [|x columns IH]; simpl.
  - split; [constructor|done].
  - case_bool_decide as Hx.
    + split; [done|]. intros H. by inversion H.
    + rewrite IH. split; [by constructor|]. intros H. by inversion H.
Qed.

Lemma findMetricByName_Some metrics name metric :
  findMetricByName metrics name = Some metric <->
  exists pre post, metrics = pre ++ metric :: post /\
    Forall (fun x => sm_MetricName x <> name) pre /\ sm_MetricName metric = name.
Proof.
  induction metrics as [|x metrics IH]; simpl.
  - split; [done|]. intros (pre & post & E & _). by destruct pre.
  - case_bool_decide as Hx.
    + split.
      * intros [= <-]. exists [], metrics. by repeat split.
      * intros (pre & post & E & Hpre & Hc). destruct pre as [|y pre]; simpl in E.
        { by injection E as -> _. }
        injection E as -> _. by inversion Hpre.
    + rewrite IH. split.
      * intros (pre & post & -> & Hpre & Hc). exists (x :: pre), post.
        repeat split; [|done]. by constructor.
      * intros (pre & post & E & Hpre & Hc). destruct pre as [|y pre]; simpl in E.
        { injection E as -> _. done. }
        injection E as -> ->. inversion Hpre; subst. by exists pre, post.
Qed.

Lemma findMetricByName_None metrics name :
  findMetricByName metrics name = None <->
  Forall (fun x => sm_MetricName x <> name) metrics.
Proof.
  induction metrics as [|x metrics IH]; simpl.
  - split; [constructor|done].
  - case_bool_decide as Hx.
    + split; [done|]. intros H. by inversion H.
    + rewrite IH. split; [by constructor|]. intros H. by inversion H.
Qed.

(** The first entry of a name is unique. *)
Lemma first_match_unique {A} (P : A -> Prop) l pre x post pre' x' post' :
  l = pre ++ x :: post -> Forall (fun y => ~ P y) pre -> P x ->
  l = pre' ++ x' :: post' -> Forall (fun y => ~ P y) pre' -> P x' ->
  x = x'.
Proof.
  intros -> Hpre Hx. revert pre' . induction pre as [|y pre IH]; intros pre' E Hpre' Hx'.
  - destruct pre' as [|y' pre']; simpl in E; [congruence|].
    injection E as -> _. by inversion Hpre'.
  - destruct pre' as [|y' pre']; simpl in E.
    + injection E as -> _. by inversion Hpre.
    + injection E as -> E. inversion Hpre; inversion Hpre'; subst. by eapply IH.
Qed.

Lemma child_resolved_refl d b c :
  b = false \/
  (types.ValueString (fc_Type c) <> "column" /\
   types.ValueString (fc_Type c) <> "metric") ->
  child_resolved d b c c.
Proof.
  intros H. unfold child_resolved. split_and!; try done.
  all: intros; destruct H as [?|[? ?]]; congruence.
Qed.

(** Closes the goals of [child_resolved] that speak of another first
    entry of the child's name. *)
Ltac first_entry_again :=
  intros;
  match goal with
  | E : ds_Columns ?d = ?pre ++ ?x :: ?post,
    E' : ds_Columns ?d = ?pre' ++ ?x' :: ?post' |- _ =>
      assert (x = x') as <-
        by (eapply (first_match_unique
                      (fun y => tc_ColumnName y = _) (ds_Columns d)); eauto);
      congruence
  | E : ds_Metrics ?d = ?pre ++ ?x :: ?post,
    E' : ds_Metrics ?d = ?pre' ++ ?x' :: ?post' |- _ =>
      assert (x = x') as <-
        by (eapply (first_match_unique
                      (fun y => sm_MetricName y = _) (ds_Metrics d)); eauto);
      congruence
  | H : Forall _ ?l, E : ?l = ?pre ++ ?x :: ?post |- _ =>
      rewrite Forall_forall in H; destruct (H x);
      [rewrite E; apply elem_of_app; right; by left | done]
  | H : Forall _ (ds_Columns ?d),
    F : findColumnByName (ds_Columns ?d) _ = Some _ |- _ =>
      apply findColumnByName_None in H; congruence
  | H : Forall _ (ds_Metrics ?d),
    F : findMetricByName (ds_Metrics ?d) _ = Some _ |- _ =>
      apply findMetricByName_None in H; congruence
  end.

Lemma resolveColumns_child_spec d c :
  Forall (fun x => tc_Uuid x <> Null) (ds_Columns d) ->
  Forall (fun x => sm_Uuid x <> Null) (ds_Metrics d) ->
  exists c', resolveColumns_child d c = Done c' /\ child_resolved d true c c'.
Proof.
  intros HC HM. unfold resolveColumns_child, FolderTypeColumn, FolderTypeMetric.
  case_bool_decide as Hcol; [|case_bool_decide as Hmet].
  - destruct (findColumnByName _ _) as [column|] eqn:Hfind.
    + pose proof Hfind as (pre & post & E & Hpre & Hname)%findColumnByName_Some.
      assert (tc_Uuid column <> Null) as Hnn.
      { rewrite Forall_forall in HC. apply HC. rewrite E.
        apply elem_of_app. right. by left. }
      clear HC HM.
      destruct (tc_Uuid column) as [| |u] eqn:Hu; simpl; [|done|];
        (eexists; split; [done|]); unfold child_resolved; simpl;
        split_and!; try done; try (intros; congruence); first_entry_again.
    + apply findColumnByName_None in Hfind. clear HC HM.
      exists c. split; [done|]. unfold child_resolved.
      split_and!; try done; try (intros; congruence); first_entry_again.
  - destruct (findMetricByName _ _) as [metric|] eqn:Hfind.
    + pose proof Hfind as (pre & post & E & Hpre & Hname)%findMetricByName_Some.
      assert (sm_Uuid metric <> Null) as Hnn.
      { rewrite Forall_forall in HM. apply HM. rewrite E.
        apply elem_of_app. right. by left. }
      clear HC HM.
      destruct (sm_Uuid metric) as [| |u] eqn:Hu; simpl; [|done|];
        (eexists; split; [done|]); unfold child_resolved; simpl;
        split_and!; try done; try (intros; congruence); first_entry_again.
    + apply findMetricByName_None in Hfind. clear HC HM.
      exists c. split; [done|]. unfold child_resolved.
      split_and!; try done; try (intros; congruence); first_entry_again.
  - exists c. split; [done|]. apply child_resolved_refl. by right.
Qed.

Lemma resolveColumns_children_spec d children :
  Forall (fun x => tc_Uuid x <> Null) (ds_Columns d) ->
  Forall (fun x => sm_Uuid x <> Null) (ds_Metrics d) ->
  exists children', resolveColumns_children d children = Done children' /\
                    Forall2 (child_resolved d true) children children'.
Proof.
  intros HC HM. induction children as [|c children (children' & E & HF)]; simpl.
  - by exists [].
  - destruct (resolveColumns_child_spec d c HC HM) as (c' & -> & Hc). simpl.
    rewrite E. simpl. exists (c' :: children'). split; [done|]. by constructor.
Qed.

Lemma resolveColumns_folders_spec d folders :
  Forall (fun x => tc_Uuid x <> Null) (ds_Columns d) ->
  Forall (fun x => sm_Uuid x <> Null) (ds_Metrics d) ->
  exists folders', resolveColumns_folders d folders = Done folders' /\
                   Forall2 (folder_resolved d) folders folders'.
Proof.
  intros HC HM. induction folders as [|f folders (folders' & E & HF)]; simpl.
  - by exists [].
  - unfold FolderTypeFolder. case_bool_decide as Hf.
    + unfold datasetFolderModel_resolveColumns.
      destruct (resolveColumns_children_spec d (fm_Children f) HC HM)
        as (children' & -> & Hc). simpl.
      rewrite E. simpl. eexists (_ :: folders'). split; [done|].
      constructor; [|done]. unfold folder_resolved. simpl.
      rewrite bool_decide_true by done. done.
    + simpl. rewrite E. simpl. exists (f :: folders'). split; [done|].
      constructor; [|done]. unfold folder_resolved.
      rewrite bool_decide_false by done. repeat split.
      apply Forall2_same_length_lookup. split; [done|].
      intros i c c' Hc Hc'. assert (c = c') as <- by congruence.
      apply child_resolved_refl. by left.
Qed.

(** C5 (as amended).  When no dataset column or metric carries an
    explicitly null uuid, [resolveColumns] returns, and changes nothing
    but uuids of children: the dataset fields, the number and order of
    folders and of children, and every name, type, description and
    folder uuid stay as they were.  A child of a root folder whose type
    is "folder" takes the uuid of the first dataset column of its name
    when it is of type "column" (of the first metric when "metric") and
    that entry has a uuid.  A child keeps its uuid when its root folder
    has another type, when it is of neither type, or when no dataset
    entry has its name. *)
Theorem resolveColumns_only_child_uuids
    (model : datasetFolderBaseModel) (d : DatasetRestApiGet) :
  Forall (fun x => tc_Uuid x <> Null) (ds_Columns d) ->
  Forall (fun x => sm_Uuid x <> Null) (ds_Metrics d) ->
  exists model',
    datasetFolderBaseModel_resolveColumns model d = Done model' /\
    fb_DatasetId model' = fb_DatasetId model /\
    fb_DatasetName model' = fb_DatasetName model /\
    Forall2 (folder_resolved d) (fb_Folders model) (fb_Folders model').
Proof.
  intros HC HM. unfold datasetFolderBaseModel_resolveColumns.
  destruct (resolveColumns_folders_spec d (fb_Folders model) HC HM)
    as (folders' & -> & HF).
  simpl. eexists. split; [done|]. by repeat split.
Qed.

Lemma resolveColumns_only_child_uuids_witness :
  exists model',
    datasetFolderBaseModel_resolveColumns (folders_model folders_ex) dataset_ex
    = Done model' /\
    fb_DatasetId model' = fb_DatasetId (folders_model folders_ex) /\
    fb_DatasetName model' = fb_DatasetName (folders_model folders_ex) /\
    Forall2 (folder_resolved dataset_ex)
            (fb_Folders (folders_model folders_ex)) (fb_Folders model').
Proof.
  apply (resolveColumns_only_child_uuids (folders_model folders_ex) dataset_ex);
    repeat (constructor; [discriminate|]); constructor.
Defined.

(** Scenario 1 of the specification: the children COL1 and COL2 take
    the uuids of the dataset columns, the metric that of the dataset
    metric, and the child no column is named after keeps its uuid. *)
Example resolveColumns_ex :
  datasetFolderBaseModel_resolveColumns (folders_model folders_ex) dataset_ex
  = Done (folders_model
      [ folder_root "test_folder" "folder" types.StringNull
          [ folder_child "COL1" "column"
              (types.StringValue "00000000-0000-0000-0000-0000000000c1");
            folder_child "COL2" "column"
              (types.StringValue "00000000-0000-0000-0000-0000000000c2");
            folder_child "METRIC1" "metric"
              (types.StringValue "00000000-0000-0000-0000-0000000000e1");
            folder_child "GHOST" "column" (types.StringValue "kept") ] ]).
Proof. vm_compute. reflexivity. Qed.

(** C5 as stated fails: the child COL1 is of type "column" and the
    dataset has a column COL1 with a uuid, yet the child's uuid is not
    overwritten, because its root folder is not of type "folder". *)
Lemma resolveColumns_skips_root_of_other_type :
  datasetFolderBaseModel_resolveColumns
    (folders_model
       [ folder_root "test_folder" "group" types.StringNull
           [ folder_child "COL1" "column" types.StringNull ] ])
    dataset_ex
  = Done (folders_model
       [ folder_root "test_folder" "group" types.StringNull
           [ folder_child "COL1" "column" types.StringNull ] ]) /\
  (tc_Uuid <$> findColumnByName (ds_Columns dataset_ex) "COL1") = Some (Value 0xc1%N) /\
  types.StringNull <> types.StringValue (uuid.String 0xc1%N).
Proof. split; [|split]; [vm_compute; reflexivity .. | discriminate]. Qed.

(** A dataset column whose uuid was sent as null makes [resolveColumns]
    panic at the child named after it. *)
Example resolveColumns_panics :
  datasetFolderBaseModel_resolveColumns (folders_model folders_ex)
    {| ds_Id := 7; ds_TableName := "tables";
       ds_Columns := [ {| tc_Id := 1; tc_ColumnName := "COL1";
                          tc_Type := Null; tc_Uuid := Null |} ];
       ds_Metrics := []; ds_Folders := Null |}
  = Panic "value is null".
Proof. vm_compute. reflexivity. Qed.

(** ** Certification in the extra field *)

Lemma read_back_nonempty (s : string) (old : types.String) :
  s <> "" -> read_back (types.StringValue s) old = types.StringValue s.
Proof. intros H. unfold read_back. simpl. by rewrite bool_decide_true. Qed.

Lemma read_back_empty (v old : types.String) :
  types.ValueString v = "" -> read_back v old = old.
Proof. intros H. unfold read_back. by rewrite bool_decide_false by (rewrite H; auto). Qed.

(** C6 (as amended).  For a metric [m] with a certification field that
    is not null, whose packed certification the JSON library writes as
    [s] and reads back from [s]: [toExtra] returns [s], and parsing a
    server metric whose extra is [s] sets each certification field that
    [m] holds as a non-empty string to that string and leaves the
    receiver's field (null, on the fresh model [updateState] parses
    into) for a field of [m] that is null, unknown or the empty string.
    When both fields are null [toExtra] returns the empty string, and
    parsing a null or empty extra changes nothing and returns no
    error. *)
Theorem certification_round_trip
    (json_Marshal : datasetMetricsExtra -> Result string)
    (json_Unmarshal : string -> Result datasetMetricsExtra)
    (m model : datasetMetric) (d : DatasetRestApiGetSqlMetric) (s : string) :
  types.IsNull (dm_CertifiedBy m) && types.IsNull (dm_CertificationDetails m) = false ->
  json_Marshal (extraData_of m) = Ok s ->
  s <> "" ->
  json_Unmarshal s = Ok (extraData_of m) ->
  sm_Extra d = Value s ->
  (datasetMetric_toExtra json_Marshal m = Ok s /\
   datasetMetric_parseCertification json_Unmarshal model d
   = Done (set_dm_CertificationDetails
             (set_dm_CertifiedBy model
                (read_back (dm_CertifiedBy m) (dm_CertifiedBy model)))
             (read_back (dm_CertificationDetails m) (dm_CertificationDetails model)),
           None)) /\
  (forall m0,
      types.IsNull (dm_CertifiedBy m0) && types.IsNull (dm_CertificationDetails m0) = true ->
      datasetMetric_toExtra json_Marshal m0 = Ok "") /\
  (forall model0 d0,
      sm_Extra d0 = Null \/ sm_Extra d0 = Value "" ->
      datasetMetric_parseCertification json_Unmarshal model0 d0 = Done (model0, None)).
Proof.
  intros Hnn HM Hs HU Hd. split; [split|split].
  - unfold datasetMetric_toExtra. by rewrite Hnn, HM.
  - unfold datasetMetric_parseCertification. rewrite Hd. simpl.
    rewrite bool_decide_true by done. rewrite HU. simpl.
    unfold read_back.
    destruct model; simpl.
    do 2 case_bool_decide; reflexivity.
  - intros m0 H0. unfold datasetMetric_toExtra. by rewrite H0.
  - intros model0 d0 [H0|H0]; unfold datasetMetric_parseCertification;
      by rewrite H0.
Qed.

Lemma certification_round_trip_witness :
  (datasetMetric_toExtra Marshal_ex
     (metric_declared "METRIC1" (types.StringValue "alice") types.StringNull)
   = Ok (json_text (extraData_of
           (metric_declared "METRIC1" (types.StringValue "alice") types.StringNull))) /\
   datasetMetric_parseCertification Unmarshal_ex datasetMetric_zero
     (metric_server "METRIC1"
        (Value (json_text (extraData_of
           (metric_declared "METRIC1" (types.StringValue "alice") types.StringNull)))))
   = Done (set_dm_CertificationDetails
             (set_dm_CertifiedBy datasetMetric_zero
                (read_back (types.StringValue "alice") types.StringNull))
             (read_back types.StringNull types.StringNull),
           None)) /\
  (forall m0,
      types.IsNull (dm_CertifiedBy m0) && types.IsNull (dm_CertificationDetails m0) = true ->
      datasetMetric_toExtra Marshal_ex m0 = Ok "") /\
  (forall model0 d0,
      sm_Extra d0 = Null \/ sm_Extra d0 = Value "" ->
      datasetMetric_parseCertification Unmarshal_ex model0 d0 = Done (model0, None)).
Proof.
  apply (certification_round_trip Marshal_ex Unmarshal_ex
           (metric_declared "METRIC1" (types.StringValue "alice") types.StringNull)
           datasetMetric_zero
           (metric_server "METRIC1"
              (Value (json_text (extraData_of
                 (metric_declared "METRIC1" (types.StringValue "alice")
                    types.StringNull)))))
           (json_text (extraData_of
              (metric_declared "METRIC1" (types.StringValue "alice") types.StringNull))));
    [reflexivity | reflexivity | discriminate | vm_compute; reflexivity | reflexivity].
Defined.

(** The round trip on a metric certified by "alice" with null details:
    both fields come back as declared. *)
Example certification_round_trip_ex :
  datasetMetric_parseCertification Unmarshal_ex datasetMetric_zero
    (metric_server "METRIC1"
       (Value (json_text (extraData_of
          (metric_declared "METRIC1" (types.StringValue "alice") types.StringNull)))))
  = Done (set_dm_CertifiedBy datasetMetric_zero (types.StringValue "alice"), None).
Proof. vm_compute. reflexivity. Qed.

(** C6 as stated fails: a metric with certified_by "alice" and the empty
    string as certification_details has a non-empty certification field,
    is packed, and parses back with null details, not the original
    empty string. *)
Lemma certification_empty_string_comes_back_null :
  datasetMetric_toExtra Marshal_ex
    (metric_declared "METRIC1" (types.StringValue "alice") (types.StringValue ""))
  = Ok (json_text {| ex_Certification :=
                       {| ec_CertifiedBy := "alice";
                          ec_CertificationDetails := "" |} |}) /\
  datasetMetric_parseCertification Unmarshal_ex datasetMetric_zero
    (metric_server "METRIC1"
       (Value (json_text {| ex_Certification :=
                              {| ec_CertifiedBy := "alice";
                                 ec_CertificationDetails := "" |} |})))
  = Done (set_dm_CertifiedBy datasetMetric_zero (types.StringValue "alice"), None) /\
  dm_CertificationDetails
    (set_dm_CertifiedBy datasetMetric_zero (types.StringValue "alice"))
  <> dm_CertificationDetails
       (metric_declared "METRIC1" (types.StringValue "alice") (types.StringValue "")).
Proof. split; [|split]; [vm_compute; reflexivity .. | discriminate]. Qed.

(** A server metric whose extra field was not sent makes the parse
    panic. *)
Example parseCertification_panics :
  datasetMetric_parseCertification Unmarshal_ex datasetMetric_zero
    (metric_server "METRIC1" Unspecified)
  = Panic "value is not specified".
Proof. vm_compute. reflexivity. Qed.

(** ** Name resolution *)

Lemma table_lookup {E : Type} (keyFn : E -> string) (idFn : E -> Z)
    (source : list E) (name : string) :
  foldl (fun m e => <[keyFn e := idFn e]> m) (∅ : gmap string Z) source !! name
  = id_of_key keyFn idFn source name.
Proof.
  unfold id_of_key.
  induction source as [|e source IH] using rev_ind; [done|].
  rewrite foldl_app, reverse_app. simpl.
  rewrite filter_cons. destruct (decide (keyFn e = name)) as [He|He].
  - simpl. by rewrite He, lookup_insert_eq.
  - by rewrite lookup_insert_ne.
Qed.

Lemma id_of_key_Some {E : Type} (keyFn : E -> string) (idFn : E -> Z)
    (source : list E) (name : string) (id : Z) :
  id_of_key keyFn idFn source name = Some id <->
  exists pre e post, source = pre ++ e :: post /\ keyFn e = name /\ idFn e = id /\
    Forall (fun e' => keyFn e' <> name) post.
Proof.
  unfold id_of_key.
  induction source as [|x source IH] using rev_ind.
  - split; [done|]. intros (pre & e & post & E0 & _). by destruct pre.
  - rewrite reverse_app. simpl. rewrite filter_cons.
    destruct (decide (keyFn x = name)) as [Hx|Hx]; simpl.
    + split.
      * intros [= <-]. exists source, x, []. by repeat split.
      * intros (pre & e & post & E0 & He & Hid & Hpost).
        destruct post as [|y post _] using rev_ind.
        { apply app_inj_tail in E0 as [_ ->]. by rewrite Hid. }
        rewrite app_comm_cons, app_assoc in E0.
        apply app_inj_tail in E0 as [_ ->].
        apply Forall_app in Hpost as [_ Hy]. by inversion Hy.
    + rewrite IH. split.
      * intros (pre & e & post & -> & He & Hid & Hpost).
        exists pre, e, (post ++ [x]). rewrite <- app_assoc.
        repeat split; [done..|]. apply Forall_app. split; [done|]. by constructor.
      * intros (pre & e & post & E0 & He & Hid & Hpost).
        destruct post as [|y post _] using rev_ind.
        { apply app_inj_tail in E0 as [_ ->]. done. }
        rewrite app_comm_cons, app_assoc in E0.
        apply app_inj_tail in E0 as [-> ->].
        apply Forall_app in Hpost as [Hpost _]. by exists pre, e, post.
Qed.

Lemma id_of_key_None {E : Type} (keyFn : E -> string) (idFn : E -> Z)
    (source : list E) (name : string) :
  id_of_key keyFn idFn source name = None <->
  Forall (fun e => keyFn e <> name) source.
Proof.
  unfold id_of_key.
  induction source as [|x source IH] using rev_ind.
  - split; [constructor|done].
  - rewrite reverse_app, Forall_app, <- IH. simpl. rewrite filter_cons.
    destruct (decide (keyFn x = name)) as [Hx|Hx]; simpl.
    + split; [done|]. intros [_ H]. by inversion H.
    + split; [|tauto]. intros H. split; [done|]. by repeat constructor.
Qed.

Lemma resolve_one_entry_each {E : Type} (keyFn : E -> string) (idFn : E -> Z)
    (names : list string) (source : list E) :
  (length (fst (resolve keyFn idFn names source))
   + length (snd (resolve keyFn idFn names source)) = length names)%nat.
Proof.
  unfold resolve. simpl. induction names as [|n names IH]; [done|].
  simpl. rewrite filter_cons.
  destruct (id_of_key keyFn idFn source n) eqn:Hn; case_decide; try done.
  - simpl. f_equal. exact IH.
  - simpl. rewrite Nat.add_succ_r. f_equal. exact IH.
Qed.

Lemma resolveRoleIDsFromNames_loop_spec m (f : string -> option Z) strs ids nf :
  (forall n, m !! n = f n) ->
  resolveRoleIDsFromNames_loop m (map (fun s => OfPrimitive (PString s)) strs) ids nf
  = Done (ids ++ omap f (map types.ValueString strs),
          nf ++ filter (fun n => f n = None) (map types.ValueString strs)).
Proof.
  intros Hm. revert ids nf. induction strs as [|s strs IH]; intros ids nf; simpl.
  - by rewrite !app_nil_r.
  - rewrite Hm, filter_cons. destruct (f (types.ValueString s)) as [id|] eqn:Hf.
    + rewrite IH. case_decide; [done|]. by rewrite <- app_assoc.
    + rewrite IH. case_decide; [|done]. by rewrite <- app_assoc.
Qed.

Lemma resolveGroupIDsFromNames_loop_spec m (f : string -> option Z) strs ids nf :
  (forall n, m !! n = f n) ->
  resolveGroupIDsFromNames_loop m (map (fun s => OfPrimitive (PString s)) strs) ids nf
  = Done (ids ++ omap f (map types.ValueString strs),
          nf ++ filter (fun n => f n = None) (map types.ValueString strs)).
Proof.
  intros Hm. revert ids nf. induction strs as [|s strs IH]; intros ids nf; simpl.
  - by rewrite !app_nil_r.
  - rewrite Hm, filter_cons. destruct (f (types.ValueString s)) as [id|] eqn:Hf.
    + rewrite IH. case_decide; [done|]. by rewrite <- app_assoc.
    + rewrite IH. case_decide; [|done]. by rewrite <- app_assoc.
Qed.

(** The wire permission a declared pair resolves to. *)
Lemma resolvePermissions_loop_spec m (f : string -> option Z) elems pairs perms nf :
  (forall n, m !! n = f n) ->
  Forall2 (fun p ab => permission_names p = Done ab) elems pairs ->
  resolvePermissions_loop m elems perms nf
  = Done (perms ++ omap (fun ab =>
                           (fun id => {| rp_Id := id;
                                         rp_PermissionName := fst ab;
                                         rp_ViewMenuName := snd ab |})
                           <$> f (fst ab +:+ "_" +:+ snd ab)) pairs,
          nf ++ filter (fun n => f n = None)
                       (map (fun ab => fst ab +:+ "_" +:+ snd ab) pairs)).
Proof.
  intros Hm HF. revert perms nf.
  induction HF as [|p ab elems pairs Hp HF IH]; intros perms nf; simpl.
  - by rewrite !app_nil_r.
  - rewrite Hp. simpl. rewrite Hm, filter_cons.
    destruct (f (fst ab +:+ "_" +:+ snd ab)) as [id|] eqn:Hf.
    + rewrite IH. case_decide; [done|]. simpl. by rewrite <- app_assoc.
    + rewrite IH. case_decide; [|done]. simpl. by rewrite <- app_assoc.
Qed.
(** C7.  For role names, group names and permission pairs alike, the
    resolver returns what the Name Resolver of the specification does:
    the ids of the declared names that are the key of a source entity,
    in the declared order, and the declared names that are no entity's
    key, all of them and in the declared order; each declared name gives
    exactly one entry of one of the two lists.  A null collection
    resolves to two empty lists.  The set A, B, C against a source with
    only A and C gives the ids of A and C and B as not found. *)
Theorem name_resolution_complete :
  (forall model sourceRoles strs,
      um_RoleNames model = SetValue (map (fun s => OfPrimitive (PString s)) strs) ->
      resolveRoleIDsFromNames model sourceRoles
      = Done (resolve role_Name role_Id (map types.ValueString strs) sourceRoles)) /\
  (forall model sourceGroups strs,
      um_GroupNames model = SetValue (map (fun s => OfPrimitive (PString s)) strs) ->
      resolveGroupIDsFromNames model sourceGroups
      = Done (resolve group_Name group_Id (map types.ValueString strs) sourceGroups)) /\
  (forall model sourcePermissions elems pairs,
      rpm_Permissions model = ListValue elems ->
      Forall2 (fun p ab => permission_names p = Done ab) elems pairs ->
      resolvePermissions model sourcePermissions
      = Done (omap (fun ab =>
                      (fun id => {| rp_Id := id;
                                    rp_PermissionName := fst ab;
                                    rp_ViewMenuName := snd ab |})
                      <$> id_of_key permission_key perm_Id sourcePermissions
                            (fst ab +:+ "_" +:+ snd ab)) pairs,
              snd (resolve permission_key perm_Id
                     (map (fun ab => fst ab +:+ "_" +:+ snd ab) pairs)
                     sourcePermissions))) /\
  (forall model sourceRoles,
      um_RoleNames model = SetNull ->
      resolveRoleIDsFromNames model sourceRoles = Done ([], [])) /\
  (forall (E : Type) (keyFn : E -> string) (idFn : E -> Z)
          (names : list string) (source : list E),
      (length (fst (resolve keyFn idFn names source))
       + length (snd (resolve keyFn idFn names source)) = length names)%nat /\
      (forall name id,
          id_of_key keyFn idFn source name = Some id <->
          exists pre e post, source = pre ++ e :: post /\ keyFn e = name /\
            idFn e = id /\ Forall (fun e' => keyFn e' <> name) post) /\
      (forall name,
          id_of_key keyFn idFn source name = None <->
          Forall (fun e => keyFn e <> name) source)) /\
  (forall a c : Z,
      resolveRoleIDsFromNames
        (user_model (SetValue [name_element "A"; name_element "B"; name_element "C"])
                    SetNull)
        [ {| role_Id := a; role_Name := "A" |}; {| role_Id := c; role_Name := "C" |} ]
      = Done ([a; c], ["B"])).
Proof.
  split_and!.
  - intros model sourceRoles strs H. unfold resolveRoleIDsFromNames. rewrite H. simpl.
    rewrite (resolveRoleIDsFromNames_loop_spec _
               (id_of_key role_Name role_Id sourceRoles)); [done|].
    intros n. apply (table_lookup role_Name role_Id).
  - intros model sourceGroups strs H. unfold resolveGroupIDsFromNames. rewrite H. simpl.
    rewrite (resolveGroupIDsFromNames_loop_spec _
               (id_of_key group_Name group_Id sourceGroups)); [done|].
    intros n. apply (table_lookup group_Name group_Id).
  - intros model sourcePermissions elems pairs H HF.
    unfold resolvePermissions. rewrite H. simpl.
    rewrite (resolvePermissions_loop_spec _
               (id_of_key permission_key perm_Id sourcePermissions) elems pairs);
      [done| |done].
    intros n. apply (table_lookup permission_key perm_Id).
  - intros model sourceRoles H. unfold resolveRoleIDsFromNames. by rewrite H.
  - intros E keyFn idFn names source. split_and!.
    + apply resolve_one_entry_each.
    + intros name id. apply id_of_key_Some.
    + intros name. apply id_of_key_None.
  - intros a c. vm_compute. reflexivity.
Qed.

(** Scenario 3 of the specification. *)
Example resolvePermissions_ex :
  resolvePermissions
    (role_permission_model
       (ListValue [ permission_element ("can_post", "Group");
                    permission_element ("can_get", "Group");
                    permission_element ("can_fly", "Group") ]))
    [ {| perm_Id := 11; perm_Permission_Name := "can_get"; perm_ViewMenu_Name := "Group" |};
      {| perm_Id := 10; perm_Permission_Name := "can_post"; perm_ViewMenu_Name := "Group" |} ]
  = Done ([ {| rp_Id := 10; rp_PermissionName := "can_post"; rp_ViewMenuName := "Group" |};
            {| rp_Id := 11; rp_PermissionName := "can_get"; rp_ViewMenuName := "Group" |} ],
          [ "can_fly_Group" ]).
Proof. vm_compute. reflexivity. Qed.

(** A set element that is not a string, or a null permission object,
    makes the resolver panic. *)
Example resolvePermissions_panics :
  resolvePermissions (role_permission_model (ListValue [ OfObject ObjectNull ])) []
  = Panic "unexpected type of permission attribute value".
Proof. vm_compute. reflexivity. Qed.

(** ** Paginated lists *)

Section paginated_facts.

Context {A : Type}.
Variable get : Z -> Z -> Result (ListResponse A).
Variable what : string.
Variable pageSize : Z.

Lemma page_numbers_S n : page_numbers (S n) = page_numbers n ++ [Z.of_nat n].
Proof. unfold page_numbers. by rewrite seq_S, map_app. Qed.

(** Full pages: the loop goes on to the page after them. *)
Lemma List_until_short_full (pages : list (list A)) :
  forall (fuel : nat) (start : nat) (all : list A),
  (forall i p, pages !! i = Some p ->
               _List get what pageSize (Z.of_nat (start + i)) = Done (Ok p)) ->
  Forall (fun p => (pageSize <= Z.of_nat (length p))%Z) pages ->
  List_until_short get what pageSize (length pages + fuel) (Z.of_nat start) all
    (page_numbers start)
  = List_until_short get what pageSize fuel (Z.of_nat (start + length pages))
      (all ++ concat pages) (page_numbers (start + length pages)).
Proof.
  induction pages as [|p pages IH]; intros fuel start all Hget Hfull.
  - simpl. by rewrite Nat.add_0_r, app_nil_r.
  - inversion Hfull as [|? ? Hp Hrest]; subst. simpl.
    pose proof (Hget 0%nat p eq_refl) as H0. rewrite Nat.add_0_r in H0. rewrite H0.
    rewrite bool_decide_false by lia.
    rewrite <- page_numbers_S.
    replace (Z.of_nat start + 1)%Z with (Z.of_nat (S start)) by lia.
    rewrite IH; [|intros i q Hq; specialize (Hget (S i) q Hq);
                   by replace (S start + i)%nat with (start + S i)%nat by lia|done].
    rewrite <- app_assoc.
    by replace (S start + length pages)%nat with (start + S (length pages))%nat by lia.
Qed.

Lemma List_until_empty_full (pages : list (list A)) :
  forall (fuel : nat) (start : nat) (all : list A),
  (forall i p, pages !! i = Some p ->
               _List get what pageSize (Z.of_nat (start + i)) = Done (Ok p)) ->
  Forall (fun p => p <> []) pages ->
  List_until_empty get what pageSize (length pages + fuel) (Z.of_nat start) all
    (page_numbers start)
  = List_until_empty get what pageSize fuel (Z.of_nat (start + length pages))
      (all ++ concat pages) (page_numbers (start + length pages)).
Proof.
  induction pages as [|p pages IH]; intros fuel start all Hget Hfull.
  - simpl. by rewrite Nat.add_0_r, app_nil_r.
  - inversion Hfull as [|? ? Hp Hrest]; subst. simpl.
    pose proof (Hget 0%nat p eq_refl) as H0. rewrite Nat.add_0_r in H0. rewrite H0.
    rewrite bool_decide_false by (by destruct p).
    rewrite <- page_numbers_S.
    replace (Z.of_nat start + 1)%Z with (Z.of_nat (S start)) by lia.
    rewrite IH; [|intros i q Hq; specialize (Hget (S i) q Hq);
                   by replace (S start + i)%nat with (start + S i)%nat by lia|done].
    rewrite <- app_assoc.
    by replace (S start + length pages)%nat with (start + S (length pages))%nat by lia.
Qed.

End paginated_facts.

(** C8.  Let the pages numbered from 0 be [pages], followed by the
    answer [final] to the request for the next page, and let the loop
    run long enough.  Users, roles, groups and databases: when every
    page of [pages] is full (not shorter than the page size), a short
    [final] page ends the retrieval with the concatenation of all pages
    in order, and a [final] error ends it with that error.  Permissions:
    the same when every page of [pages] is non-empty and [final] is the
    empty page, or an error.  In each case the pages requested are
    exactly 0, 1, ... up to the final one, in this order and with the
    one page size. *)
Theorem paginated_retrieval (A : Type)
    (get : Z -> Z -> Result (ListResponse A)) (what : string) (pageSize : Z)
    (pages : list (list A)) (final : go (Result (list A))) (fuel : nat) :
  (forall i p, pages !! i = Some p ->
               _List get what pageSize (Z.of_nat i) = Done (Ok p)) ->
  _List get what pageSize (Z.of_nat (length pages)) = final ->
  (length pages < fuel)%nat ->
  (Forall (fun p => (pageSize <= Z.of_nat (length p))%Z) pages ->
   (forall last, final = Done (Ok last) -> (Z.of_nat (length last) < pageSize)%Z ->
      List_until_short get what pageSize fuel 0 [] []
      = Some (Done (Ok (concat pages ++ last)), page_numbers (S (length pages)))) /\
   (forall err, final = Done (Err err) ->
      List_until_short get what pageSize fuel 0 [] []
      = Some (Done (Err err), page_numbers (S (length pages))))) /\
  (Forall (fun p => p <> []) pages ->
   (final = Done (Ok []) ->
      List_until_empty get what pageSize fuel 0 [] []
      = Some (Done (Ok (concat pages)), page_numbers (S (length pages)))) /\
   (forall err, final = Done (Err err) ->
      List_until_empty get what pageSize fuel 0 [] []
      = Some (Done (Err err), page_numbers (S (length pages))))) /\
  ListUsers get pageSize fuel = List_until_short get "users" pageSize fuel 0 [] [] /\
  ListRoles get pageSize fuel = List_until_short get "roles" pageSize fuel 0 [] [] /\
  ListGroups get pageSize fuel = List_until_short get "groups" pageSize fuel 0 [] [] /\
  ListDatabases get pageSize fuel
  = List_until_short get "databases" pageSize fuel 0 [] [] /\
  ListPermissions get pageSize fuel
  = List_until_empty get "permissions" pageSize fuel 0 [] [].
Proof.
  intros Hget Hfinal Hfuel.
  destruct fuel as [|k]; [lia|].
  replace (S k) with (length pages + S (k - length pages))%nat by lia.
  split_and!; try reflexivity.
  - intros Hfull. split.
    + intros last -> Hshort.
      rewrite (List_until_short_full get what pageSize pages _ 0 []) by done.
      simpl. rewrite Hfinal. rewrite bool_decide_true by done.
      by rewrite page_numbers_S.
    + intros err ->.
      rewrite (List_until_short_full get what pageSize pages _ 0 []) by done.
      simpl. rewrite Hfinal. by rewrite page_numbers_S.
  - intros Hfull. split.
    + intros ->.
      rewrite (List_until_empty_full get what pageSize pages _ 0 []) by done.
      simpl. rewrite Hfinal. simpl. by rewrite page_numbers_S, app_nil_r.
    + intros err ->.
      rewrite (List_until_empty_full get what pageSize pages _ 0 []) by done.
      simpl. rewrite Hfinal. by rewrite page_numbers_S.
Qed.
Lemma paginated_retrieval_witness :
  ListUsers (serve [1; 2; 3; 4; 5]%nat) 2 3
  = Some (Done (Ok [1; 2; 3; 4; 5]%nat), [0; 1; 2]%Z).
Proof.
  pose proof (paginated_retrieval nat (serve [1; 2; 3; 4; 5]%nat) "users" 2
                [[1; 2]; [3; 4]]%nat (Done (Ok [5%nat])) 3) as H.
  destruct H as [Hshort _].
  - intros [|[|i]] p; simpl; intros Hp; inversion Hp; reflexivity.
  - reflexivity.
  - simpl. lia.
  - destruct Hshort as [Hok _].
    + repeat constructor; simpl; lia.
    + apply (Hok [5%nat] eq_refl). simpl. lia.
Defined.

(** Five items in pages of two: users stop at the short third page,
    permissions ask for one more page after the last non-empty one. *)
Example ListUsers_ex :
  ListUsers (serve [1; 2; 3; 4; 5]%nat) 2 10
  = Some (Done (Ok [1; 2; 3; 4; 5]%nat), [0; 1; 2]%Z) /\
  ListPermissions (serve [1; 2; 3; 4; 5]%nat) 2 10
  = Some (Done (Ok [1; 2; 3; 4; 5]%nat), [0; 1; 2; 3]%Z) /\
  ListUsers (serve [1; 2; 3; 4]%nat) 2 10
  = Some (Done (Ok [1; 2; 3; 4]%nat), [0; 1; 2]%Z).
Proof. vm_compute. auto. Qed.

(** A refused page ends the retrieval with its error; the pages before
    it are dropped. *)
Example ListUsers_error_ex :
  ListUsers (serve_failing [1; 2; 3; 4; 5]%nat) 2 10
  = Some (Done (Err (errorString
            "failed to get users, status code and body: unavailable")),
          [0; 1; 2]%Z).
Proof. vm_compute. reflexivity. Qed.

(** With a page size of zero no page is short: the loop for users does
    not end on a service that keeps answering. *)
Lemma ListUsers_page_size_zero (items : list nat) (fuel : nat) :
  ListUsers (serve items) 0 fuel = None.
Proof.
  unfold ListUsers.
  enough (forall fuel start all requested,
             List_until_short (serve items) "users" 0 fuel start all requested = None)
    as H by apply H.
  clear fuel. induction fuel as [|fuel IH]; intros start all requested; [done|].
  simpl. apply IH.
Qed.

(** ** Delete handlers *)

Lemma HasError_app (d1 d2 : list Diagnostic) :
  HasError (d1 ++ d2) = HasError d1 || HasError d2.
Proof. unfold HasError. apply existsb_app. Qed.

(** C9.  [UserResource.Delete] first calls the remote delete.  When it
    succeeds nothing else is called and no diagnostic is added.  When it
    fails, one warning is added and the fallback update is issued, with
    a body that sets the user inactive and its groups to the empty list;
    if the fallback succeeds nothing more is added, and if it fails one
    error is added after the warning.  So the handler adds an error
    exactly when both the delete and the fallback fail. *)
Theorem UserResource_Delete_fallback
    (client : UserClient) (stateDiags : list Diagnostic) (state_Id : types.Int64) :
  let id := ValueInt64 state_Id in
  let resp := fst (UserResource_Delete client stateDiags state_Id) in
  let calls := snd (UserResource_Delete client stateDiags state_Id) in
  up_Active deactivation = false /\ up_Groups deactivation = Some [] /\
  match DeleteUser client id with
  | None => Diagnostics resp = stateDiags /\ calls = [CallDeleteUser id]
  | Some _ =>
      calls = [CallDeleteUser id; CallUpdateUser id deactivation] /\
      exists w, is_error w = false /\
        match UpdateUser client id deactivation with
        | None => Diagnostics resp = stateDiags ++ [w]
        | Some _ => exists e, is_error e = true /\
                              Diagnostics resp = stateDiags ++ [w; e]
        end
  end /\
  HasError (Diagnostics resp)
  = HasError stateDiags
    || (failed (DeleteUser client id) && failed (UpdateUser client id deactivation)).
Proof.
  intros id resp calls. subst resp calls. unfold UserResource_Delete. fold id.
  fold deactivation.
  split; [done|]. split; [done|].
  destruct (DeleteUser client id) as [err|]; simpl.
  - destruct (UpdateUser client id deactivation) as [err'|]; simpl.
    + split.
      * split; [done|]. eexists (WarningDiagnostic _ _). split; [done|].
        eexists (ErrorDiagnostic _ _). split; [done|].
        unfold AddError, AddWarning. by rewrite <- app_assoc.
      * unfold AddError, AddWarning. rewrite !HasError_app. simpl.
        by rewrite !orb_false_r, orb_true_r.
    + split.
      * split; [done|]. by eexists (WarningDiagnostic _ _).
      * unfold AddWarning. rewrite HasError_app. simpl. by rewrite !orb_false_r.
  - split; [done|]. by rewrite orb_false_r.
Qed.

(** The four runs of the user Delete handler on a state read without
    diagnostics: only the last ends with an error. *)
Example UserResource_Delete_ex :
  HasError (Diagnostics (fst (UserResource_Delete (user_client_ex false false) []
                                (types.Int64Value 42)))) = false /\
  HasError (Diagnostics (fst (UserResource_Delete (user_client_ex false true) []
                                (types.Int64Value 42)))) = false /\
  HasError (Diagnostics (fst (UserResource_Delete (user_client_ex true false) []
                                (types.Int64Value 42)))) = false /\
  HasError (Diagnostics (fst (UserResource_Delete (user_client_ex true true) []
                                (types.Int64Value 42)))) = true /\
  UserResource_Delete (user_client_ex true false) [] (types.Int64Value 42)
  = ({| Diagnostics :=
          [WarningDiagnostic "Deletion Error"
             "Unable to delete user with ID 42: failed to delete user"];
        StateRemoved := false |},
     [CallDeleteUser 42; CallUpdateUser 42 deactivation]).
Proof. vm_compute. auto 6. Qed.

(** C10.  The Delete handlers of the dataset metrics and of the dataset
    folder look the parent dataset up by name.  When the lookup answers
    not-found, they remove the resource from the state, add no
    diagnostic and send no update.  When the dataset is found they send
    one update, whose body is the zero body but for the metrics
    (respectively the folders), which are the empty list; no diagnostic
    is added when that update succeeds, and one error when it fails.  A
    lookup that fails otherwise adds one error and sends no update. *)
Theorem sub_collection_Delete
    (client : DatasetClient) (stateDiags : list Diagnostic)
    (state_DatasetName : types.String) :
  let name := types.ValueString state_DatasetName in
  let metrics := datasetMetricsResource_Delete client stateDiags state_DatasetName in
  let folder := datasetFolderResource_Delete client stateDiags state_DatasetName in
  put_with_Metrics None = DatasetRestApiPut_zero /\
  put_with_Folders None = DatasetRestApiPut_zero /\
  match FindDataset client name with
  | Err err =>
      snd metrics = [CallFindDataset name] /\
      snd folder = [CallFindDataset name] /\
      if IsNotFound (Some err) then
        fst metrics = {| Diagnostics := stateDiags; StateRemoved := true |} /\
        fst folder = {| Diagnostics := stateDiags; StateRemoved := true |}
      else
        exists e, is_error e = true /\
          fst metrics = {| Diagnostics := stateDiags ++ [e]; StateRemoved := false |} /\
          fst folder = {| Diagnostics := stateDiags ++ [e]; StateRemoved := false |}
  | Ok id =>
      snd metrics = [CallFindDataset name;
                     CallUpdateDataset id (put_with_Metrics (Some []))] /\
      snd folder = [CallFindDataset name;
                    CallUpdateDataset id (put_with_Folders (Some []))] /\
      match UpdateDataset client id (put_with_Metrics (Some [])) with
      | None => fst metrics = {| Diagnostics := stateDiags; StateRemoved := false |}
      | Some _ =>
          exists e, is_error e = true /\
            fst metrics = {| Diagnostics := stateDiags ++ [e]; StateRemoved := false |}
      end /\
      match UpdateDataset client id (put_with_Folders (Some [])) with
      | None => fst folder = {| Diagnostics := stateDiags; StateRemoved := false |}
      | Some _ =>
          exists e, is_error e = true /\
            fst folder = {| Diagnostics := stateDiags ++ [e]; StateRemoved := false |}
      end
  end.
Proof.
  intros name metrics folder. subst metrics folder.
  unfold datasetMetricsResource_Delete, datasetFolderResource_Delete. fold name.
  split; [done|]. split; [done|].
  destruct (FindDataset client name) as [id|err].
  - destruct (UpdateDataset client id (put_with_Metrics (Some []))) as [e1|];
      destruct (UpdateDataset client id (put_with_Folders (Some []))) as [e2|];
      simpl; split_and!; try done; by eexists (ErrorDiagnostic _ _).
  - destruct (IsNotFound (Some err)); simpl; split_and!; try done.
    by eexists (ErrorDiagnostic _ _).
Qed.

(** A parent dataset that is gone: both handlers remove the resource
    from the state, add nothing to the diagnostics and send no update. *)
Example sub_collection_Delete_ex :
  datasetMetricsResource_Delete dataset_client_gone [] (types.StringValue "tables")
  = ({| Diagnostics := []; StateRemoved := true |}, [CallFindDataset "tables"]) /\
  datasetFolderResource_Delete dataset_client_gone [] (types.StringValue "tables")
  = ({| Diagnostics := []; StateRemoved := true |}, [CallFindDataset "tables"]).
Proof. vm_compute. auto. Qed.

(** ** Further properties of the folder model *)

(** X1.  What [datasetFolderBaseModel.updateState] checks.  Over wire
    folders it can read, the mapping returns no error exactly when every
    root folder is of type "folder" and every child of a root folder has
    a uuid other than the all-zero one; it then stores one configuration
    folder per wire root folder and one child per wire child, in order,
    with the wire names, types, uuids and non-empty descriptions.
    Otherwise it returns an error and leaves the folders of the model as
    they were. *)
Theorem updateState_checks
    (model : datasetFolderBaseModel) (d : DatasetRestApiGet)
    (typedFolders : list Folder) :
  ds_Folders d = Value (DecodesTo typedFolders) ->
  Forall root_readable typedFolders ->
  (forallb root_accepted typedFolders = true ->
   exists folders,
     datasetFolderBaseModel_updateState model d
     = Done ({| fb_DatasetId := types.Int64Value (ds_Id d);
                fb_DatasetName := types.StringValue (ds_TableName d);
                fb_Folders := folders |}, None) /\
     Forall2 folder_unflattened typedFolders folders) /\
  (forallb root_accepted typedFolders = false ->
   exists e,
     datasetFolderBaseModel_updateState model d
     = Done ({| fb_DatasetId := types.Int64Value (ds_Id d);
                fb_DatasetName := types.StringValue (ds_TableName d);
                fb_Folders := fb_Folders model |}, Some e)).
Proof.
  intros Hd Hread. unfold datasetFolderBaseModel_updateState. rewrite Hd.
  cbn [IsNull MustGet mbind go_bind mapToFolders].
  destruct (updateState_folders_spec typedFolders [] Hread) as [Ht Hf].
  split.
  - intros Hacc. destruct (Ht Hacc) as (new & -> & HF).
    cbn [mbind go_bind app fb_DatasetId fb_DatasetName]. eauto.
  - intros Hacc. destruct (Hf Hacc) as (e & ->).
    cbn [mbind go_bind]. eauto.
Qed.

Lemma updateState_checks_witness :
  (forallb root_accepted wire_ok = true ->
   exists folders,
     datasetFolderBaseModel_updateState datasetFolderBaseModel_zero
       (dataset_with_folders (Value (DecodesTo wire_ok)))
     = Done ({| fb_DatasetId := types.Int64Value 7;
                fb_DatasetName := types.StringValue "tables";
                fb_Folders := folders |}, None) /\
     Forall2 folder_unflattened wire_ok folders) /\
  (forallb root_accepted wire_ok = false ->
   exists e,
     datasetFolderBaseModel_updateState datasetFolderBaseModel_zero
       (dataset_with_folders (Value (DecodesTo wire_ok)))
     = Done ({| fb_DatasetId := types.Int64Value 7;
                fb_DatasetName := types.StringValue "tables";
                fb_Folders := [] |}, Some e)).
Proof.
  apply (updateState_checks datasetFolderBaseModel_zero
           (dataset_with_folders (Value (DecodesTo wire_ok))) wire_ok).
  - reflexivity.
  - repeat constructor; discriminate.
Defined.

(** A child whose uuid is all zero is refused, with the child's name in
    the error. *)
Example updateState_missing_uuid_ex :
  datasetFolderBaseModel_updateState datasetFolderBaseModel_zero
    (dataset_with_folders
       (Value (DecodesTo
          [ wire_node "test_folder" "folder" 0xa1%N
              (Value [ wire_node "COL1" "column" uuid.Nil (Value []) ]) ])))
  = Done ({| fb_DatasetId := types.Int64Value 7;
             fb_DatasetName := types.StringValue "tables";
             fb_Folders := [] |},
          Some (errorString "missing uuid for child COL1 in folders response")).
Proof. vm_compute. reflexivity. Qed.

Section round_trip_facts.

Variable Parse : string -> Result uuid.UUID.
Variable random : nat -> uuid.UUID.

Lemma datasetFolderModel_toFolders_loop_to children :
  forall acc n ws n',
  datasetFolderModel_toFolders_loop Parse random children acc n = (Ok ws, n') ->
  exists new, ws = acc ++ new /\ Forall2 (child_flattened_to Parse) children new.
Proof.
  induction children as [|c children IH]; intros acc n ws n'; cbn [datasetFolderModel_toFolders_loop].
  - intros [= <- <-]. exists []. by rewrite app_nil_r.
  - destruct (uuid_unset (fc_Uuid c)) eqn:Hu.
    + intros H. destruct (IH _ _ _ _ H) as (new & -> & HF).
      eexists (_ :: new). rewrite <- app_assoc. split; [done|].
      constructor; [|done]. unfold child_flattened_to, description_flattened.
      cbn [wf_Name wf_Type wf_Description wf_Children wf_Uuid]. rewrite Hu.
      by repeat split.
    + destruct (Parse (types.ValueString (fc_Uuid c))) as [u|e] eqn:HP; [|done].
      intros H. destruct (IH _ _ _ _ H) as (new & -> & HF).
      eexists (_ :: new). rewrite <- app_assoc. split; [done|].
      constructor; [|done]. unfold child_flattened_to, description_flattened.
      cbn [wf_Name wf_Type wf_Description wf_Children wf_Uuid]. rewrite Hu.
      by repeat split.
Qed.

Lemma datasetFolderBaseModel_toFolders_loop_to declared :
  forall acc n ws n',
  datasetFolderBaseModel_toFolders_loop Parse random declared acc n = (Ok ws, n') ->
  exists new, ws = acc ++ new /\ Forall2 (folder_flattened_to Parse) declared new.
Proof.
  induction declared as [|f declared IH]; intros acc n ws n';
    cbn [datasetFolderBaseModel_toFolders_loop].
  - intros [= <- <-]. exists []. by rewrite app_nil_r.
  - unfold datasetFolderModel_toFolders.
    destruct (uuid_unset (fm_Uuid f)) eqn:Hu.
    + destruct (datasetFolderModel_toFolders_loop _ _ _ _ _) as [[cs|e] n1] eqn:Hc;
        [|done].
      apply datasetFolderModel_toFolders_loop_to in Hc as (new & -> & HFc).
      intros H. destruct (IH _ _ _ _ H) as (new' & -> & HF).
      eexists (_ :: new'). rewrite <- app_assoc. split; [done|].
      constructor; [|done]. unfold folder_flattened_to, description_flattened.
      cbn [wf_Name wf_Type wf_Description wf_Children wf_Uuid app]. rewrite Hu.
      split_and!; try done.
      unfold NewNullableWithValue.
      destruct new as [|w0 new]; [by exists []|].
      rewrite bool_decide_true by (cbn; lia). by eexists.
    + destruct (Parse (types.ValueString (fm_Uuid f))) as [u|e] eqn:HP; [|done].
      destruct (datasetFolderModel_toFolders_loop _ _ _ _ _) as [[cs|e] n1] eqn:Hc;
        [|done].
      apply datasetFolderModel_toFolders_loop_to in Hc as (new & -> & HFc).
      intros H. destruct (IH _ _ _ _ H) as (new' & -> & HF).
      eexists (_ :: new'). rewrite <- app_assoc. split; [done|].
      constructor; [|done]. unfold folder_flattened_to, description_flattened.
      cbn [wf_Name wf_Type wf_Description wf_Children wf_Uuid app]. rewrite Hu.
      split_and!; try done.
      unfold NewNullableWithValue.
      destruct new as [|w0 new]; [by exists []|].
      rewrite bool_decide_true by (cbn; lia). by eexists.
Qed.

Lemma description_round_trip (v : types.String) :
  description_read (description_flattened v) = read_back v types.StringNull.
Proof.
  unfold description_read, description_flattened, read_back.
  destruct v as [| |s]; cbn; try done.
  destruct (decide (s = "")) as [->|Hs]; [done|].
  rewrite (bool_decide_true (s <> "")) by done. cbn.
  by rewrite bool_decide_false.
Qed.

Lemma description_flattened_not_Null (v : types.String) :
  description_flattened v <> Null.
Proof. unfold description_flattened. by destruct (_ && _). Qed.

End round_trip_facts.
Lemma child_round_trip_compose Parse c w c' :
  child_flattened_to Parse c w -> child_unflattened w c' -> child_round_trip Parse c c'.
Proof.
  intros (Hn & Ht & Hd & _ & Hu) ->. unfold child_round_trip.
  cbn [fc_Name fc_Type fc_Description fc_Uuid].
  rewrite Hn, Ht, Hd, description_round_trip. split_and!; try done. by eexists.
Qed.

Lemma folder_round_trip_compose Parse f w :
  folder_flattened_to Parse f w ->
  types.ValueString (fm_Type f) = "folder" ->
  Forall (fun c => uuid.String (wf_Uuid c) <> zero_uuid_string) (children_of w) ->
  root_readable w /\ root_accepted w = true /\
  forall f', folder_unflattened w f' -> folder_round_trip Parse f f'.
Proof.
  intros (Hn & Ht & Hd & Hu & cs & Hcs & HF) Hfolder Hnz.
  unfold children_of in *. rewrite Hcs in Hnz.
  split_and!.
  - unfold root_readable, children_of. rewrite Hd, Hcs. split_and!.
    + apply description_flattened_not_Null.
    + done.
    + clear Hnz Hcs.
      induction HF as [|c w0 cs0 ws0 (_ & _ & Hd0 & _) _ IH]; [by constructor|].
      constructor; [|done]. rewrite Hd0. apply description_flattened_not_Null.
  - unfold root_accepted, children_of. rewrite Ht, Hfolder, Hcs.
    rewrite bool_decide_true by done. cbn [andb].
    apply forallb_forall. intros c Hc. apply list_elem_of_In in Hc.
    rewrite Forall_forall in Hnz. specialize (Hnz c Hc).
    unfold child_uuid_missing.
    rewrite (bool_decide_false (uuid.String (wf_Uuid c) = ""))
      by apply uuid_String_not_empty.
    by rewrite bool_decide_false.
  - intros f' (Hn' & Hd' & Ht' & Hu' & HF'). unfold folder_round_trip.
    unfold children_of in HF'. rewrite Hcs in HF'.
    rewrite Hn', Ht', Hd', Hu', Hn, Ht, Hd, description_round_trip.
    split_and!; try done; [by eexists|].
    clear Hnz Hcs. revert HF'. generalize (fm_Children f').
    induction HF as [|c w0 cs0 ws0 Hc _ IH]; intros l HF'; inversion HF'; subst;
      [by constructor|].
    constructor; [by eapply child_round_trip_compose|by apply IH].
Qed.

(** X2.  Flatten, then unflatten.  When [toFolders] returns a wire list
    for a declaration whose root folders are all of type "folder", and
    no wire child has the all-zero uuid, then mapping the dataset that
    carries this wire list back returns no error and gives the declared
    folders and children again, in order: names and types as known
    strings, descriptions null unless declared as a non-empty string,
    and every uuid that was reused in the canonical text of the uuid
    [Parse] read. *)
Theorem flatten_unflatten_round_trip
    (Parse : string -> Result uuid.UUID) (random : nat -> uuid.UUID)
    (model model0 : datasetFolderBaseModel) (d : DatasetRestApiGet)
    (n n' : nat) (ws : list Folder) :
  datasetFolderBaseModel_toFolders Parse random model n = (Ok ws, n') ->
  Forall (fun f => types.ValueString (fm_Type f) = "folder") (fb_Folders model) ->
  Forall (fun w => Forall (fun c => uuid.String (wf_Uuid c) <> zero_uuid_string)
                          (children_of w)) ws ->
  ds_Folders d = Value (DecodesTo ws) ->
  exists folders',
    datasetFolderBaseModel_updateState model0 d
    = Done ({| fb_DatasetId := types.Int64Value (ds_Id d);
               fb_DatasetName := types.StringValue (ds_TableName d);
               fb_Folders := folders' |}, None) /\
    Forall2 (folder_round_trip Parse) (fb_Folders model) folders'.
Proof.
  intros Hflat Hfolder Hnz Hd.
  unfold datasetFolderBaseModel_toFolders in Hflat.
  apply datasetFolderBaseModel_toFolders_loop_to in Hflat as (new & -> & HF).
  cbn [app] in *.
  assert (Forall root_readable new /\ forallb root_accepted new = true /\
          forall fs', Forall2 folder_unflattened new fs' ->
                      Forall2 (folder_round_trip Parse) (fb_Folders model) fs')
    as (Hread & Hacc & Hcomp).
  { clear Hd. induction HF as [|f w fs ws Hfw _ IH].
    - split_and!; [constructor|done|]. intros fs' H. inversion H. constructor.
    - inversion Hfolder as [|? ? Hf Hfs]; inversion Hnz as [|? ? Hw Hws]; subst.
      destruct (folder_round_trip_compose Parse f w Hfw Hf Hw) as (Hr & Ha & Hc).
      destruct (IH Hfs Hws) as (Hrs & Has & Hcs).
      split_and!.
      + by constructor.
      + cbn [forallb]. by rewrite Ha, Has.
      + intros fs' H. inversion H; subst. constructor; [by apply Hc|by apply Hcs]. }
  destruct (updateState_checks model0 d new Hd Hread) as [Hok _].
  destruct (Hok Hacc) as (folders' & E & HU).
  exists folders'. split; [done|]. by apply Hcomp.
Qed.
Lemma flatten_unflatten_round_trip_witness :
  exists folders',
    datasetFolderBaseModel_updateState datasetFolderBaseModel_zero
      (dataset_with_folders (Value (DecodesTo folders_wire_ex)))
    = Done ({| fb_DatasetId := types.Int64Value 7;
               fb_DatasetName := types.StringValue "tables";
               fb_Folders := folders' |}, None) /\
    Forall2 (folder_round_trip ParseCanonical) folders_decl_ex folders'.
Proof.
  apply (flatten_unflatten_round_trip ParseCanonical random_ex
           (folders_model folders_decl_ex) datasetFolderBaseModel_zero
           (dataset_with_folders (Value (DecodesTo folders_wire_ex)))
           0 2 folders_wire_ex).
  - vm_compute. reflexivity.
  - repeat constructor.
  - repeat constructor; vm_compute; discriminate.
  - reflexivity.
Defined.




Lemma resolveColumns_child_idempotent d c c' :
  resolveColumns_child d c = Done c' -> resolveColumns_child d c' = Done c'.
Proof.
  unfold resolveColumns_child.
  destruct (bool_decide (types.ValueString (fc_Type c) = FolderTypeColumn)) eqn:Hcol.
  - destruct (findColumnByName _ _) as [column|] eqn:Hfind.
    + destruct (tc_Uuid column) as [| |u] eqn:Hu; cbn [IsSpecified MustGet mbind go_bind];
        [|done|].
      * intros [= <-]. by rewrite Hcol, Hfind, Hu.
      * intros [= <-]. cbn [set_fc_Uuid fc_Type fc_Name].
        by rewrite Hcol, Hfind, Hu.
    + intros [= <-]. by rewrite Hcol, Hfind.
  - destruct (bool_decide (types.ValueString (fc_Type c) = FolderTypeMetric)) eqn:Hmet.
    + destruct (findMetricByName _ _) as [metric|] eqn:Hfind.
      * destruct (sm_Uuid metric) as [| |u] eqn:Hu;
          cbn [IsSpecified MustGet mbind go_bind]; [|done|].
        -- intros [= <-]. by rewrite Hcol, Hmet, Hfind, Hu.
        -- intros [= <-]. cbn [set_fc_Uuid fc_Type fc_Name].
           by rewrite Hcol, Hmet, Hfind, Hu.
      * intros [= <-]. by rewrite Hcol, Hmet, Hfind.
    + intros [= <-]. by rewrite Hcol, Hmet.
Qed.

Lemma resolveColumns_children_idempotent d children children' :
  resolveColumns_children d children = Done children' ->
  resolveColumns_children d children' = Done children'.
Proof.
  revert children'. induction children as [|c children IH]; intros children';
    cbn [resolveColumns_children].
  - by intros [= <-].
  - destruct (resolveColumns_child d c) as [c'|] eqn:Hc; [|done].
    cbn [mbind go_bind].
    destruct (resolveColumns_children d children) as [rest|] eqn:Hrest; [|done].
    cbn [mbind go_bind]. intros [= <-]. cbn [resolveColumns_children].
    rewrite (resolveColumns_child_idempotent _ _ _ Hc). cbn [mbind go_bind].
    by rewrite (IH _ eq_refl).
Qed.

(** X4.  [resolveColumns] is idempotent: when it returns, resolving the
    result again against the same dataset returns the result itself. *)
Theorem resolveColumns_idempotent
    (model model' : datasetFolderBaseModel) (d : DatasetRestApiGet) :
  datasetFolderBaseModel_resolveColumns model d = Done model' ->
  datasetFolderBaseModel_resolveColumns model' d = Done model'.
Proof.
  unfold datasetFolderBaseModel_resolveColumns.
  destruct (resolveColumns_folders d (fb_Folders model)) as [folders'|] eqn:H; [|done].
  cbn [mbind go_bind]. intros [= <-]. cbn [fb_Folders fb_DatasetId fb_DatasetName].
  enough (resolveColumns_folders d folders' = Done folders') as -> by done.
  revert folders' H. generalize (fb_Folders model). clear model.
  induction l as [|f folders IH]; intros folders'; cbn [resolveColumns_folders].
  - by intros [= <-].
  - destruct (bool_decide (types.ValueString (fm_Type f) = FolderTypeFolder)) eqn:Hf.
    + unfold datasetFolderModel_resolveColumns at 1.
      destruct (resolveColumns_children d (fm_Children f)) as [cs|] eqn:Hcs; [|done].
      cbn [mbind go_bind].
      destruct (resolveColumns_folders d folders) as [rest|] eqn:Hrest; [|done].
      cbn [mbind go_bind]. intros [= <-]. cbn [resolveColumns_folders].
      unfold datasetFolderModel_resolveColumns, set_fm_Children.
      cbn [fm_Children fm_Type fm_Name fm_Description fm_Uuid]. rewrite Hf.
      rewrite (resolveColumns_children_idempotent _ _ _ Hcs). cbn [mbind go_bind].
      rewrite (IH _ eq_refl). done.
    + cbn [mbind go_bind].
      destruct (resolveColumns_folders d folders) as [rest|] eqn:Hrest; [|done].
      cbn [mbind go_bind]. intros [= <-]. cbn [resolveColumns_folders].
      rewrite Hf. cbn [mbind go_bind]. by rewrite (IH _ eq_refl).
Qed.

Lemma resolveColumns_idempotent_witness :
  datasetFolderBaseModel_resolveColumns
    (folders_model
       [ folder_root "test_folder" "folder" types.StringNull
           [ folder_child "COL1" "column"
               (types.StringValue "00000000-0000-0000-0000-0000000000c1");
             folder_child "COL2" "column"
               (types.StringValue "00000000-0000-0000-0000-0000000000c2");
             folder_child "METRIC1" "metric"
               (types.StringValue "00000000-0000-0000-0000-0000000000e1");
             folder_child "GHOST" "column" (types.StringValue "kept") ] ])
    dataset_ex
  = Done (folders_model
       [ folder_root "test_folder" "folder" types.StringNull
           [ folder_child "COL1" "column"
               (types.StringValue "00000000-0000-0000-0000-0000000000c1");
             folder_child "COL2" "column"
               (types.StringValue "00000000-0000-0000-0000-0000000000c2");
             folder_child "METRIC1" "metric"
               (types.StringValue "00000000-0000-0000-0000-0000000000e1");
             folder_child "GHOST" "column" (types.StringValue "kept") ] ]).
Proof.
  apply (resolveColumns_idempotent (folders_model folders_ex)).
  vm_compute. reflexivity.
Defined.

(** ** Further properties of the paginated lists *)

Section paginated_more.

Context {A : Type}.
Variable get : Z -> Z -> Result (ListResponse A).
Variable what : string.
Variable pageSize : Z.

Lemma List_until_short_sound (fuel : nat) :
  forall (start : nat) (all : list A) (requested : list Z) res log,
  List_until_short get what pageSize fuel (Z.of_nat start) all requested
  = Some (Done (Ok res), log) ->
  exists pages last,
    res = all ++ concat pages ++ last /\
    log = requested ++ map Z.of_nat (seq start (S (length pages))) /\
    (length pages < fuel)%nat /\
    (forall i page, pages !! i = Some page ->
       _List get what pageSize (Z.of_nat (start + i)) = Done (Ok page) /\
       (pageSize <= Z.of_nat (length page))%Z) /\
    _List get what pageSize (Z.of_nat (start + length pages)) = Done (Ok last) /\
    (Z.of_nat (length last) < pageSize)%Z.
Proof.
  induction fuel as [|fuel IH]; intros start all requested res log;
    cbn [List_until_short]; [done|].
  destruct (_List get what pageSize (Z.of_nat start)) as [[page|e]|r] eqn:Hpage;
    [|done|done].
  case_bool_decide as Hshort.
  - intros [= <- <-]. exists [], page. cbn [concat length app seq map].
    rewrite Nat.add_0_r. split_and!; try done. lia.
  - replace (Z.of_nat start + 1)%Z with (Z.of_nat (S start)) by lia.
    intros H. destruct (IH _ _ _ _ _ H) as (pages & last & -> & -> & Hf & Hp & Hl & Hs).
    exists (page :: pages), last. cbn [concat length].
    split_and!.
    + by rewrite <- !app_assoc.
    + rewrite <- app_assoc. done.
    + lia.
    + intros [|i] pg; cbn [lookup list_lookup].
      * intros [= <-]. rewrite Nat.add_0_r. split; [done|lia].
      * intros Hi. replace (start + S i)%nat with (S start + i)%nat by lia.
        by apply Hp.
    + by replace (start + S (length pages))%nat with (S start + length pages)%nat by lia.
    + done.
Qed.

Lemma List_until_empty_sound (fuel : nat) :
  forall (start : nat) (all : list A) (requested : list Z) res log,
  List_until_empty get what pageSize fuel (Z.of_nat start) all requested
  = Some (Done (Ok res), log) ->
  exists pages,
    res = all ++ concat pages /\
    log = requested ++ map Z.of_nat (seq start (S (length pages))) /\
    (length pages < fuel)%nat /\
    (forall i page, pages !! i = Some page ->
       _List get what pageSize (Z.of_nat (start + i)) = Done (Ok page) /\
       page <> []) /\
    _List get what pageSize (Z.of_nat (start + length pages)) = Done (Ok []).
Proof.
  induction fuel as [|fuel IH]; intros start all requested res log;
    cbn [List_until_empty]; [done|].
  destruct (_List get what pageSize (Z.of_nat start)) as [[page|e]|r] eqn:Hpage;
    [|done|done].
  case_bool_decide as Hempty.
  - intros [= <- <-]. exists []. cbn [concat length app seq map].
    rewrite Nat.add_0_r. destruct page; [|done].
    rewrite !app_nil_r. split_and!; try done. lia.
  - replace (Z.of_nat start + 1)%Z with (Z.of_nat (S start)) by lia.
    intros H. destruct (IH _ _ _ _ _ H) as (pages & -> & -> & Hf & Hp & Hl).
    exists (page :: pages). cbn [concat length].
    split_and!.
    + by rewrite <- !app_assoc.
    + rewrite <- app_assoc. done.
    + lia.
    + intros [|i] pg; cbn [lookup list_lookup].
      * intros [= <-]. rewrite Nat.add_0_r. split; [done|]. by destruct page.
      * intros Hi. replace (start + S i)%nat with (S start + i)%nat by lia.
        by apply Hp.
    + by replace (start + S (length pages))%nat with (S start + length pages)%nat by lia.
Qed.

Lemma List_until_short_no_end :
  (forall p, exists page, _List get what pageSize p = Done (Ok page) /\
                          (pageSize <= Z.of_nat (length page))%Z) ->
  forall fuel start all requested,
    List_until_short get what pageSize fuel start all requested = None.
Proof.
  intros Hfull. induction fuel as [|fuel IH]; intros start all requested;
    cbn [List_until_short]; [done|].
  destruct (Hfull start) as (page & -> & Hlen).
  rewrite bool_decide_false by lia. apply IH.
Qed.

End paginated_more.

(** X5.  Whatever the remote service answers, a retrieval of users,
    roles, groups or databases that returns a list has requested the
    pages 0, 1, ..., k once each and in this order, every page before
    the last was full and the last was short, and the list is the
    concatenation of exactly these pages. *)
Theorem ListUsers_returns_what_was_served (A : Type)
    (get : Z -> Z -> Result (ListResponse A)) (what : string) (pageSize : Z)
    (fuel : nat) (res : list A) (log : list Z) :
  List_until_short get what pageSize fuel 0 [] [] = Some (Done (Ok res), log) ->
  exists pages last,
    res = concat pages ++ last /\
    log = page_numbers (S (length pages)) /\
    (forall i page, pages !! i = Some page ->
       _List get what pageSize (Z.of_nat i) = Done (Ok page) /\
       (pageSize <= Z.of_nat (length page))%Z) /\
    _List get what pageSize (Z.of_nat (length pages)) = Done (Ok last) /\
    (Z.of_nat (length last) < pageSize)%Z.
Proof.
  intros H.
  destruct (List_until_short_sound get what pageSize fuel 0 [] [] res log H)
    as (pages & last & -> & -> & _ & Hp & Hl & Hs).
  exists pages, last. split_and!; done.
Qed.

Lemma ListUsers_returns_what_was_served_witness :
  exists pages last,
    [1; 2; 3; 4; 5]%nat = concat pages ++ last /\
    [0; 1; 2]%Z = page_numbers (S (length pages)) /\
    (forall i page, pages !! i = Some page ->
       _List (serve [1; 2; 3; 4; 5]%nat) "users" 2 (Z.of_nat i) = Done (Ok page) /\
       (2 <= Z.of_nat (length page))%Z) /\
    _List (serve [1; 2; 3; 4; 5]%nat) "users" 2 (Z.of_nat (length pages))
    = Done (Ok last) /\
    (Z.of_nat (length last) < 2)%Z.
Proof.
  apply (ListUsers_returns_what_was_served nat (serve [1; 2; 3; 4; 5]%nat)
           "users" 2 10 [1; 2; 3; 4; 5]%nat [0; 1; 2]%Z).
  vm_compute. reflexivity.
Defined.

(** X6.  The same for permissions: a retrieval that returns a list has
    requested the pages 0, 1, ..., k once each and in order, every page
    before the last was non-empty and the last was empty, and the list
    is the concatenation of these pages. *)
Theorem ListPermissions_returns_what_was_served (A : Type)
    (get : Z -> Z -> Result (ListResponse A)) (what : string) (pageSize : Z)
    (fuel : nat) (res : list A) (log : list Z) :
  List_until_empty get what pageSize fuel 0 [] [] = Some (Done (Ok res), log) ->
  exists pages,
    res = concat pages /\
    log = page_numbers (S (length pages)) /\
    (forall i page, pages !! i = Some page ->
       _List get what pageSize (Z.of_nat i) = Done (Ok page) /\ page <> []) /\
    _List get what pageSize (Z.of_nat (length pages)) = Done (Ok []).
Proof.
  intros H.
  destruct (List_until_empty_sound get what pageSize fuel 0 [] [] res log H)
    as (pages & -> & -> & _ & Hp & Hl).
  exists pages. split_and!; done.
Qed.

Lemma ListPermissions_returns_what_was_served_witness :
  exists pages,
    [1; 2; 3; 4; 5]%nat = concat pages /\
    [0; 1; 2; 3]%Z = page_numbers (S (length pages)) /\
    (forall i page, pages !! i = Some page ->
       _List (serve [1; 2; 3; 4; 5]%nat) "permissions" 2 (Z.of_nat i)
       = Done (Ok page) /\ page <> []) /\
    _List (serve [1; 2; 3; 4; 5]%nat) "permissions" 2 (Z.of_nat (length pages))
    = Done (Ok []).
Proof.
  apply (ListPermissions_returns_what_was_served nat (serve [1; 2; 3; 4; 5]%nat)
           "permissions" 2 10 [1; 2; 3; 4; 5]%nat [0; 1; 2; 3]%Z).
  vm_compute. reflexivity.
Defined.

(** X7.  With a page size of zero or less no page is short: while the
    remote service answers every request with a page, the retrieval of
    users, roles, groups or databases does not end, whatever the number
    of iterations. *)
Theorem ListUsers_page_size_not_positive (A : Type)
    (get : Z -> Z -> Result (ListResponse A)) (pageSize : Z) :
  (pageSize <= 0)%Z ->
  (forall p, exists body page,
      get p pageSize = Ok {| StatusCode := 200; Body := body; JSON200 := Some page |}) ->
  forall fuel,
    ListUsers get pageSize fuel = None /\
    ListRoles get pageSize fuel = None /\
    ListGroups get pageSize fuel = None /\
    ListDatabases get pageSize fuel = None.
Proof.
  intros Hsize Hget fuel.
  assert (forall what p, exists page,
             _List get what pageSize p = Done (Ok page) /\
             (pageSize <= Z.of_nat (length page))%Z) as Hfull.
  { intros what p. destruct (Hget p) as (body & page & E). exists page.
    unfold _List. rewrite E. cbn [StatusCode JSON200].
    rewrite bool_decide_false by (unfold StatusOK; auto). split; [done|lia]. }
  unfold ListUsers, ListRoles, ListGroups, ListDatabases.
  split_and!; apply List_until_short_no_end; apply Hfull.
Qed.

Lemma ListUsers_page_size_not_positive_witness :
  ListUsers (serve [1; 2; 3]%nat) 0 1000 = None /\
  ListRoles (serve [1; 2; 3]%nat) 0 1000 = None /\
  ListGroups (serve [1; 2; 3]%nat) 0 1000 = None /\
  ListDatabases (serve [1; 2; 3]%nat) 0 1000 = None.
Proof.
  apply (ListUsers_page_size_not_positive nat (serve [1; 2; 3]%nat) 0).
  - lia.
  - intros p. eexists _, _. reflexivity.
Defined.

(** ** Further properties of reads and name resolution *)

Lemma GetUser_never_not_found get userID res err :
  get userID = Ok res ->
  GetUser get userID = Done (Err err) ->
  IsNotFound (Some err) = false.
Proof.
  intros Hres. unfold GetUser. rewrite Hres.
  case_bool_decide as H200.
  - by intros [= <-].
  - rewrite H200.
    rewrite bool_decide_false by (unfold StatusOK, StatusNotFound; lia).
    by destruct (pk_JSON200 res).
Qed.

(** X8.  A user that is gone is not removed from the state.  When the
    remote service answers a read of the user by id with 404,
    [GetUser] returns an error that is not a not-found error, and
    [UserResource.Read] adds an error diagnostic and leaves the state in
    place; more generally, whenever the service answers at all,
    [UserResource.Read] does not remove the resource.  For a role,
    [GetRole] answers 404 with a not-found error and
    [RoleResource.Read] removes the resource and adds no diagnostic. *)
Theorem Read_of_a_gone_entity
    (getUser : Z -> Result (PkResponse SupersetUserApiGet))
    (getRole : Z -> Result (PkResponse SupersetRoleApiGet))
    (stateDiags : list Diagnostic)
    (user : userBaseModel) (role : roleBaseModel)
    (setUser : userBaseModel -> list Diagnostic)
    (setRole : roleBaseModel -> list Diagnostic)
    (ures : PkResponse SupersetUserApiGet) (rres : PkResponse SupersetRoleApiGet) :
  HasError stateDiags = false ->
  getUser (ValueInt64 (um_Id user)) = Ok ures ->
  getRole (ValueInt64 (rm_Id role)) = Ok rres ->
  (forall resp, UserResource_Read getUser stateDiags user setUser = Done resp ->
                rd_StateRemoved resp = false) /\
  (pk_StatusCode ures = StatusNotFound ->
   exists e, is_error e = true /\
     UserResource_Read getUser stateDiags user setUser
     = Done {| rd_Diagnostics := stateDiags ++ [e];
               rd_StateRemoved := false;
               rd_State := None |}) /\
  (pk_StatusCode rres = StatusNotFound ->
   RoleResource_Read getRole stateDiags role setRole
   = Done {| rd_Diagnostics := stateDiags;
             rd_StateRemoved := true;
             rd_State := None |}).
Proof.
  intros Hdiags Hu Hr. split_and!.
  - intros resp. unfold UserResource_Read. rewrite Hdiags.
    destruct (GetUser getUser (ValueInt64 (um_Id user))) as [[u|err]|r] eqn:HG;
      cbn [mbind go_bind]; [| |done].
    + destruct (userBaseModel_updateState _ _ _) as [st|]; cbn [mbind go_bind];
        [|done].
      by intros [= <-].
    + rewrite (GetUser_never_not_found _ _ _ _ Hu HG). by intros [= <-].
  - intros H404. unfold UserResource_Read, GetUser. rewrite Hdiags, Hu, H404.
    rewrite bool_decide_true by (unfold StatusOK, StatusNotFound; lia).
    cbn [mbind go_bind IsNotFound is_NotFoundError].
    by eexists (ErrorDiagnostic _ _).
  - intros H404. unfold RoleResource_Read, GetRole. rewrite Hdiags, Hr, H404.
    rewrite bool_decide_true by done.
    cbn [mbind go_bind IsNotFound is_NotFoundError]. done.
Qed.

Lemma Read_of_a_gone_entity_witness :
  (forall resp,
      UserResource_Read pk_gone [] (user_model SetNull SetNull) (fun _ => [])
      = Done resp ->
      rd_StateRemoved resp = false) /\
  (pk_StatusCode
     {| pk_StatusCode := 404; pk_Body := "not found";
        pk_JSON200 := @None SupersetUserApiGet |} = StatusNotFound ->
   exists e, is_error e = true /\
     UserResource_Read pk_gone [] (user_model SetNull SetNull) (fun _ => [])
     = Done {| rd_Diagnostics := [] ++ [e];
               rd_StateRemoved := false;
               rd_State := None |}) /\
  (pk_StatusCode
     {| pk_StatusCode := 404; pk_Body := "not found";
        pk_JSON200 := @None SupersetRoleApiGet |} = StatusNotFound ->
   RoleResource_Read pk_gone []
     {| rm_Id := types.Int64Value 5; rm_Name := types.StringValue "Gamma" |}
     (fun _ => [])
   = Done {| rd_Diagnostics := [];
             rd_StateRemoved := true;
             rd_State := None |}).
Proof.
  apply (Read_of_a_gone_entity pk_gone pk_gone [] (user_model SetNull SetNull)
           {| rm_Id := types.Int64Value 5; rm_Name := types.StringValue "Gamma" |}
           (fun _ => []) (fun _ => [])
           {| pk_StatusCode := 404; pk_Body := "not found"; pk_JSON200 := None |}
           {| pk_StatusCode := 404; pk_Body := "not found"; pk_JSON200 := None |});
    reflexivity.
Defined.

Lemma id_of_key_member {E : Type} (keyFn : E -> string) (idFn : E -> Z)
    (source : list E) (e : E) :
  NoDup (map keyFn source) -> e ∈ source ->
  id_of_key keyFn idFn source (keyFn e) = Some (idFn e).
Proof.
  intros Hnd Hin. apply id_of_key_Some.
  apply list_elem_of_split in Hin as (pre & post & ->).
  exists pre, e, post. split_and!; try done.
  rewrite map_app in Hnd. apply NoDup_app in Hnd as (_ & _ & Hpost).
  cbn [map] in Hpost. apply NoDup_cons in Hpost as (Hnot & _).
  apply Forall_forall. intros e' He' Heq. apply Hnot. rewrite <- Heq.
  apply list_elem_of_fmap. by exists e'.
Qed.

Lemma resolve_all_found {E : Type} (keyFn : E -> string) (idFn : E -> Z)
    (source : list E) (refs : list NamedRef) :
  NoDup (map keyFn source) ->
  (forall r, r ∈ refs -> exists e, e ∈ source /\ keyFn e = ref_Name r /\
                                  idFn e = ref_Id r) ->
  resolve keyFn idFn (map ref_Name refs) source = (map ref_Id refs, []).
Proof.
  intros Hnd Hin. unfold resolve.
  induction refs as [|r refs IH]; [done|].
  assert (id_of_key keyFn idFn source (ref_Name r) = Some (ref_Id r)) as Hr.
  { destruct (Hin r) as (e & He & <- & <-); [by left|]. by apply id_of_key_member. }
  assert (forall r', r' ∈ refs -> exists e, e ∈ source /\ keyFn e = ref_Name r' /\
                                          idFn e = ref_Id r') as Hin'
    by (intros r' Hr'; apply Hin; by right).
  specialize (IH Hin'). injection IH as IH1 IH2.
  cbn [map omap list_omap]. rewrite filter_cons, Hr.
  rewrite decide_False by done. f_equal; [|done]. f_equal. exact IH1.
Qed.

(** X9.  The state a Read stores resolves to the user's own roles and
    groups.  When the remote role list has no two roles of one name and
    contains the roles of the user (and likewise the group list), the
    role names and the group names that [updateState] stores resolve to
    exactly the ids of the user's roles and groups, in order, with
    nothing not found. *)
Theorem user_state_resolves_to_its_ids
    (model model' : userBaseModel) (u : SupersetUserApiGet) (password : option string)
    (sourceRoles : list SupersetRoleApiGetList)
    (sourceGroups : list SupersetGroupApiGetList) :
  userBaseModel_updateState model u password = Done model' ->
  NoDup (map role_Name sourceRoles) ->
  NoDup (map group_Name sourceGroups) ->
  (forall r, r ∈ ug_Roles u ->
             {| role_Id := ref_Id r; role_Name := ref_Name r |} ∈ sourceRoles) ->
  (forall g, g ∈ ug_Groups u ->
             {| group_Id := ref_Id g; group_Name := ref_Name g |} ∈ sourceGroups) ->
  resolveRoleIDsFromNames model' sourceRoles = Done (map ref_Id (ug_Roles u), []) /\
  resolveGroupIDsFromNames model' sourceGroups = Done (map ref_Id (ug_Groups u), []).
Proof.
  intros Hup HndR HndG HR HG.
  unfold userBaseModel_updateState in Hup.
  destruct (if IsNull (ug_Active u) then _ else _) as [active|]; [|done].
  cbn [mbind go_bind] in Hup. injection Hup as <-.
  split.
  - unfold resolveRoleIDsFromNames. cbn [um_RoleNames flattenRoleNamesToSet Set_IsNull Set_Elements].
    rewrite <- (map_map (fun r => types.StringValue (ref_Name r))
                        (fun s => OfPrimitive (PString s))).
    rewrite (resolveRoleIDsFromNames_loop_spec _
               (id_of_key role_Name role_Id sourceRoles))
      by (intros n; apply (table_lookup role_Name role_Id)).
    rewrite map_map. cbn [types.ValueString app]. f_equal.
    apply (resolve_all_found role_Name role_Id); [done|].
    intros r Hr. eexists. split; [by apply HR|done].
  - unfold resolveGroupIDsFromNames. cbn [um_GroupNames flattenGroupNamesToSet Set_IsNull Set_Elements].
    rewrite <- (map_map (fun r => types.StringValue (ref_Name r))
                        (fun s => OfPrimitive (PString s))).
    rewrite (resolveGroupIDsFromNames_loop_spec _
               (id_of_key group_Name group_Id sourceGroups))
      by (intros n; apply (table_lookup group_Name group_Id)).
    rewrite map_map. cbn [types.ValueString app]. f_equal.
    apply (resolve_all_found group_Name group_Id); [done|].
    intros r Hr. eexists. split; [by apply HG|done].
Qed.

Lemma user_state_resolves_to_its_ids_witness :
  resolveRoleIDsFromNames
    {| um_Id := types.Int64Value 42;
       um_Username := types.StringValue "alice";
       um_Email := types.StringValue "alice@example.com";
       um_FirstName := types.StringValue "Alice";
       um_LastName := types.StringValue "A";
       um_Password := types.StringNull;
       um_RoleNames := flattenRoleNamesToSet user_ex;
       um_GroupNames := flattenGroupNamesToSet user_ex;
       um_Active := types.BoolValue true |}
    [ {| role_Id := 1; role_Name := "Admin" |};
      {| role_Id := 3; role_Name := "Gamma" |} ]
  = Done (map ref_Id (ug_Roles user_ex), []) /\
  resolveGroupIDsFromNames
    {| um_Id := types.Int64Value 42;
       um_Username := types.StringValue "alice";
       um_Email := types.StringValue "alice@example.com";
       um_FirstName := types.StringValue "Alice";
       um_LastName := types.StringValue "A";
       um_Password := types.StringNull;
       um_RoleNames := flattenRoleNamesToSet user_ex;
       um_GroupNames := flattenGroupNamesToSet user_ex;
       um_Active := types.BoolValue true |}
    [ {| group_Id := 8; group_Name := "analysts" |} ]
  = Done (map ref_Id (ug_Groups user_ex), []).
Proof.
  apply (user_state_resolves_to_its_ids (user_model SetNull SetNull) _ user_ex None).
  - reflexivity.
  - cbn [map role_Name]. by apply (bool_decide_unpack _).
  - cbn [map group_Name]. by apply (bool_decide_unpack _).
  - intros r Hr. cbn [ug_Roles user_ex] in Hr.
    repeat (apply elem_of_cons in Hr as [-> | Hr]);
      [cbn; repeat constructor .. | by apply elem_of_nil in Hr].
  - intros g Hg. cbn [ug_Groups user_ex] in Hg.
    repeat (apply elem_of_cons in Hg as [-> | Hg]);
      [cbn; repeat constructor .. | by apply elem_of_nil in Hg].
Defined.

(** ** Further properties of the column reconcile *)

Lemma resovleColumn_name m d d' :
  resovleColumn m d = Done d' -> dc_ColumnName d' = dc_ColumnName d.
Proof.
  unfold resovleColumn. destruct (m !! _) as [c|]; [|by intros [= <-]].
  destruct (tc_Type c) as [| |t]; cbn; try by intros [= <-].
  case_bool_decide; by intros [= <-].
Qed.

Lemma resovleColumn_idempotent m d d' :
  resovleColumn m d = Done d' -> resovleColumn m d' = Done d'.
Proof.
  intros H. pose proof (resovleColumn_name _ _ _ H) as Hn. revert H.
  unfold resovleColumn. rewrite Hn.
  destruct (m !! _) as [c|]; [|by intros [= <-]].
  destruct (tc_Type c) as [| |t]; cbn; try by intros [= <-].
  case_bool_decide; by intros [= <-].
Qed.

Lemma resovleColumns_loop_inv m declared acc resolved :
  resovleColumns_loop m declared acc = Done resolved ->
  exists out, resolved = acc ++ out /\
              Forall2 (fun d d' => resovleColumn m d = Done d') declared out.
Proof.
  revert acc. induction declared as [|d declared IH]; intros acc; cbn.
  - intros [= <-]. exists []. split; [by rewrite app_nil_r|constructor].
  - destruct (resovleColumn m d) as [d'|] eqn:Hd; [|done]. cbn.
    intros (out & -> & HF)%IH. exists (d' :: out).
    split; [by rewrite <- app_assoc|by constructor].
Qed.

Lemma resovleColumns_loop_fixed m declared out acc :
  Forall2 (fun d d' => resovleColumn m d = Done d') declared out ->
  resovleColumns_loop m out acc = Done (acc ++ out).
Proof.
  intros HF. revert acc. induction HF as [|d d' declared out Hd HF IH]; intros acc; cbn.
  - by rewrite app_nil_r.
  - rewrite (resovleColumn_idempotent _ _ _ Hd). cbn. rewrite IH.
    by rewrite <- app_assoc.
Qed.

(** X10.  The column reconcile keeps the declared columns and is
    idempotent.  When [resovleColumns] returns, the result has one
    column per declared column, with the declared names in the declared
    order, and reconciling the result again against the same server
    columns returns it unchanged. *)
Theorem column_reconcile_idempotent
    (model : datasetColumnsBaseModel) (columns : list DatasetRestApiGetTableColumn)
    (resolved : list datasetColumn) :
  resovleColumns model columns = Done resolved ->
  map dc_ColumnName resolved = map dc_ColumnName (cm_Columns model) /\
  resovleColumns {| cm_DatasetId := cm_DatasetId model;
                    cm_DatasetName := cm_DatasetName model;
                    cm_Columns := resolved |} columns
  = Done resolved.
Proof.
  unfold resovleColumns. cbn [cm_Columns].
  intros (out & -> & HF)%resovleColumns_loop_inv. cbn [app]. split.
  - induction HF as [|d d' ? ? Hd HF IH]; [done|]. cbn.
    by rewrite IH, (resovleColumn_name _ _ _ Hd).
  - by rewrite (resovleColumns_loop_fixed _ _ _ _ HF).
Qed.

Lemma column_reconcile_idempotent_witness :
  map dc_ColumnName
      [ resolved_with (col_declared "a" "INT" types.Int64Null)
          {| tc_Id := 7; tc_ColumnName := "a"; tc_Type := Value "BIGINT";
             tc_Uuid := Null |} ]
  = map dc_ColumnName [ col_declared "a" "INT" types.Int64Null ] /\
  resovleColumns
    {| cm_DatasetId := types.Int64Value 1;
       cm_DatasetName := types.StringValue "t";
       cm_Columns :=
         [ resolved_with (col_declared "a" "INT" types.Int64Null)
             {| tc_Id := 7; tc_ColumnName := "a"; tc_Type := Value "BIGINT";
                tc_Uuid := Null |} ] |}
    [ {| tc_Id := 7; tc_ColumnName := "a"; tc_Type := Value "BIGINT"; tc_Uuid := Null |} ]
  = Done [ resolved_with (col_declared "a" "INT" types.Int64Null)
             {| tc_Id := 7; tc_ColumnName := "a"; tc_Type := Value "BIGINT";
                tc_Uuid := Null |} ].
Proof.
  apply (column_reconcile_idempotent
           {| cm_DatasetId := types.Int64Value 1;
              cm_DatasetName := types.StringValue "t";
              cm_Columns := [ col_declared "a" "INT" types.Int64Null ] |}).
  vm_compute. reflexivity.
Defined.

Lemma NoDup_names_unique {A} (f : A -> string) (l pre post : list A) (c : A) :
  NoDup (map f l) -> l = pre ++ c :: post ->
  Forall (fun x => f x <> f c) pre /\ Forall (fun x => f x <> f c) post.
Proof.
  intros Hnd ->. rewrite map_app in Hnd. cbn in Hnd.
  apply NoDup_app in Hnd as (_ & Hpre & Hpost).
  apply NoDup_cons in Hpost as (Hc & _). split; apply Forall_forall; intros x Hx Heq.
  - apply (Hpre (f x)); [apply list_elem_of_fmap; by exists x|]. rewrite Heq. by left.
  - apply Hc. rewrite <- Heq. apply list_elem_of_fmap. by exists x.
Qed.

(** X11.  The two lookups of a server column by name, the table of the
    column reconcile (the last column of a name) and [findColumnByName]
    of the folder resolution (the first), find the same column whenever
    no two server columns share a name. *)
Theorem column_lookups_agree
    (columns : list DatasetRestApiGetTableColumn) (name : string) :
  NoDup (map tc_ColumnName columns) ->
  mapColumnNameToColumn columns !! name = findColumnByName columns name.
Proof.
  intros Hnd. destruct (findColumnByName columns name) as [c|] eqn:Hf.
  - apply findColumnByName_Some in Hf as (pre & post & E & _ & Hc).
    apply mapColumnNameToColumn_Some. exists pre, post. split_and!; [done..|].
    destruct (NoDup_names_unique _ _ _ _ _ Hnd E) as [_ Hpost]. by rewrite Hc in Hpost.
  - apply findColumnByName_None in Hf. by apply mapColumnNameToColumn_None.
Qed.

Lemma column_lookups_agree_witness :
  mapColumnNameToColumn cols_server_ex !! "COL1" = findColumnByName cols_server_ex "COL1".
Proof.
  apply (column_lookups_agree cols_server_ex "COL1").
  by apply (bool_decide_unpack _).
Defined.

(** ** Further properties of name resolution *)

Lemma resolveRoleIds_loop_spec m (f : string -> option Z) strs ids nf :
  (forall n, m !! n = f n) ->
  resolveRoleIds_loop m (map (fun s => OfPrimitive (PString s)) strs) ids nf
  = if forallb (fun s => negb (types.IsNull s)) strs
    then Done (ids ++ omap f (map types.ValueString strs),
               nf ++ filter (fun n => f n = None) (map types.ValueString strs))
    else Panic "unexpected type of role name attribute value".
Proof.
  intros Hm. revert ids nf. induction strs as [|s strs IH]; intros ids nf.
  - cbn. by rewrite !app_nil_r.
  - cbn [map resolveRoleIds_loop forallb].
    destruct (types.IsNull s) eqn:Hs; [done|]. cbn [negb andb].
    rewrite Hm, filter_cons. cbn [omap list_omap].
    destruct (f (types.ValueString s)) as [id|] eqn:Hf.
    + rewrite IH. destruct (forallb _ strs); [|done].
      rewrite decide_False by done. by rewrite <- app_assoc.
    + rewrite IH. destruct (forallb _ strs); [|done].
      rewrite decide_True by done. by rewrite <- app_assoc.
Qed.

(** X12.  The role resolver of a group-role binding.  On a set of
    strings none of which is null it returns what the resolver of the
    user model returns, the ids of the names that are the name of a
    source role (the last one of that name) and the names that are not,
    both in the declared order; on a set with a null string it panics,
    where the resolver of the user model looks up the empty name. *)
Theorem resolveRoleIds_as_the_user_resolver
    (binding : groupRoleBindingBaseModel) (user : userBaseModel)
    (sourceRoles : list SupersetRoleApiGetList) (strs : list types.String) :
  gb_RoleNames binding = SetValue (map (fun s => OfPrimitive (PString s)) strs) ->
  um_RoleNames user = gb_RoleNames binding ->
  resolveRoleIDsFromNames user sourceRoles
  = Done (resolve role_Name role_Id (map types.ValueString strs) sourceRoles) /\
  resolveRoleIds binding sourceRoles
  = if forallb (fun s => negb (types.IsNull s)) strs
    then resolveRoleIDsFromNames user sourceRoles
    else Panic "unexpected type of role name attribute value".
Proof.
  intros Hb Hu.
  assert (resolveRoleIDsFromNames user sourceRoles
          = Done (resolve role_Name role_Id (map types.ValueString strs) sourceRoles))
    as Huser.
  { unfold resolveRoleIDsFromNames. rewrite Hu, Hb. cbn [Set_IsNull Set_Elements].
    rewrite (resolveRoleIDsFromNames_loop_spec _
               (id_of_key role_Name role_Id sourceRoles))
      by (intros n; apply (table_lookup role_Name role_Id)).
    done. }
  split; [done|]. rewrite Huser.
  unfold resolveRoleIds. rewrite Hb. cbn [Set_IsNull Set_Elements].
  rewrite (resolveRoleIds_loop_spec _ (id_of_key role_Name role_Id sourceRoles))
    by (intros n; apply (table_lookup role_Name role_Id)).
  done.
Qed.

Lemma resolveRoleIds_as_the_user_resolver_witness :
  resolveRoleIDsFromNames
    (user_model (SetValue [name_element "Admin"; OfPrimitive (PString types.StringNull)])
                SetNull)
    [ {| role_Id := 1; role_Name := "Admin" |} ]
  = Done (resolve role_Name role_Id
            (map types.ValueString [types.StringValue "Admin"; types.StringNull])
            [ {| role_Id := 1; role_Name := "Admin" |} ]) /\
  resolveRoleIds
    {| gb_GroupId := types.Int64Value 4;
       gb_GroupName := types.StringValue "analysts";
       gb_RoleNames :=
         SetValue [name_element "Admin"; OfPrimitive (PString types.StringNull)] |}
    [ {| role_Id := 1; role_Name := "Admin" |} ]
  = if forallb (fun s => negb (types.IsNull s)) [types.StringValue "Admin"; types.StringNull]
    then resolveRoleIDsFromNames
           (user_model
              (SetValue [name_element "Admin"; OfPrimitive (PString types.StringNull)])
              SetNull)
           [ {| role_Id := 1; role_Name := "Admin" |} ]
    else Panic "unexpected type of role name attribute value".
Proof.
  apply (resolveRoleIds_as_the_user_resolver
           {| gb_GroupId := types.Int64Value 4;
              gb_GroupName := types.StringValue "analysts";
              gb_RoleNames :=
                SetValue [name_element "Admin"; OfPrimitive (PString types.StringNull)] |}
           (user_model
              (SetValue [name_element "Admin"; OfPrimitive (PString types.StringNull)])
              SetNull)
           [ {| role_Id := 1; role_Name := "Admin" |} ]
           [types.StringValue "Admin"; types.StringNull]);
    reflexivity.
Defined.

Lemma permission_names_flattened (p : SupersetRolePermissionApiGetList) :
  permission_names
    (OfObject (ObjectValue
       (<["permission_name" := PString (types.StringValue (rp_PermissionName p))]>
          (<["view_menu_name" := PString (types.StringValue (rp_ViewMenuName p))]> ∅))))
  = Done (rp_PermissionName p, rp_ViewMenuName p).
Proof.
  unfold permission_names. cbn [Object_IsNull Object_Attributes].
  rewrite lookup_insert_eq. cbn [types.IsNull].
  rewrite lookup_insert_ne by done. rewrite lookup_insert_eq. done.
Qed.

(** X13.  The permissions a Read stores resolve to themselves.  When no
    two source permissions have the same key (permission name,
    underscore, view menu name) and every permission of the role has
    its id and its key at a source permission, the permission list that
    [updateState] stores resolves to exactly the permissions of the
    role, in order, with nothing not found. *)
Theorem role_permissions_state_resolves_to_itself
    (model : rolePermissionBaseModel) (roleId : Z) (roleName : string)
    (permissions : list SupersetRolePermissionApiGetList)
    (sourcePermissions : list SupersetPermissionApiGetList) :
  NoDup (map permission_key sourcePermissions) ->
  (forall p, p ∈ permissions ->
     exists e, e ∈ sourcePermissions /\ perm_Id e = rp_Id p /\
               permission_key e = rp_PermissionName p +:+ "_" +:+ rp_ViewMenuName p) ->
  resolvePermissions
    (rolePermissionBaseModel_updateState model roleId roleName permissions)
    sourcePermissions
  = Done (permissions, []).
Proof.
  intros Hnd Hin. unfold resolvePermissions, rolePermissionBaseModel_updateState.
  cbn [rpm_Permissions flattenPermissionsToList List_IsNull List_Elements].
  rewrite (resolvePermissions_loop_spec _
             (id_of_key permission_key perm_Id sourcePermissions) _
             (map (fun p => (rp_PermissionName p, rp_ViewMenuName p)) permissions)).
  2:{ intros n. apply (table_lookup permission_key perm_Id). }
  2:{ apply Forall2_fmap, Forall_Forall2_diag, Forall_forall. intros p _.
      apply permission_names_flattened. }
  cbn [app]. f_equal.
  induction permissions as [|p permissions IH]; [done|].
  assert (id_of_key permission_key perm_Id sourcePermissions
            (rp_PermissionName p +:+ "_" +:+ rp_ViewMenuName p) = Some (rp_Id p)) as Hp.
  { destruct (Hin p) as (e & He & <- & <-); [by left|]. by apply id_of_key_member. }
  assert (forall q, q ∈ permissions ->
     exists e, e ∈ sourcePermissions /\ perm_Id e = rp_Id q /\
               permission_key e = rp_PermissionName q +:+ "_" +:+ rp_ViewMenuName q) as Hin'
    by (intros q Hq; apply Hin; by right).
  specialize (IH Hin'). injection IH as IH1 IH2.
  cbn [map omap list_omap fst snd]. rewrite filter_cons. cbn [fst snd]. rewrite Hp.
  rewrite decide_False by done. cbn [fmap option_fmap option_map].
  f_equal; [|done]. destruct p. cbn. f_equal. exact IH1.
Qed.

Lemma role_permissions_state_resolves_to_itself_witness :
  resolvePermissions
    (rolePermissionBaseModel_updateState (role_permission_model ListNull) 5 "Reader"
       [ {| rp_Id := 21; rp_PermissionName := "can_read"; rp_ViewMenuName := "Chart" |} ])
    [ {| perm_Id := 20; perm_Permission_Name := "can_write"; perm_ViewMenu_Name := "Chart" |};
      {| perm_Id := 21; perm_Permission_Name := "can_read"; perm_ViewMenu_Name := "Chart" |} ]
  = Done ([ {| rp_Id := 21; rp_PermissionName := "can_read"; rp_ViewMenuName := "Chart" |} ],
          []).
Proof.
  apply (role_permissions_state_resolves_to_itself (role_permission_model ListNull) 5 "Reader").
  - by apply (bool_decide_unpack _).
  - intros p Hp. apply elem_of_cons in Hp as [-> | Hp]; [|by apply elem_of_nil in Hp].
    eexists. split; [right; left|]. by cbn.
Defined.

(** ** Further properties of the certification parse *)

(** X14.  What [parseCertification] never does.  Whatever the JSON
    library reads from the extra field, when the parse returns, the
    receiver's fields other than the two certification fields are
    unchanged; each certification field is the one the receiver had or
    a known string that is not empty; and when an error is returned the
    receiver is unchanged. *)
Theorem parseCertification_invariant
    (json_Unmarshal : string -> Result datasetMetricsExtra)
    (model model' : datasetMetric) (d : DatasetRestApiGetSqlMetric) (err : option error) :
  datasetMetric_parseCertification json_Unmarshal model d = Done (model', err) ->
  model' = set_dm_CertificationDetails
             (set_dm_CertifiedBy model (dm_CertifiedBy model'))
             (dm_CertificationDetails model') /\
  (dm_CertifiedBy model' = dm_CertifiedBy model \/
   exists s, s <> "" /\ dm_CertifiedBy model' = types.StringValue s) /\
  (dm_CertificationDetails model' = dm_CertificationDetails model \/
   exists s, s <> "" /\ dm_CertificationDetails model' = types.StringValue s) /\
  (err <> None -> model' = model).
Proof.
  unfold datasetMetric_parseCertification.
  destruct (sm_Extra d) as [| |s]; cbn [IsNull negb MustGet mbind go_bind];
    try done.
  { intros [= <- <-]. destruct model. split_and!; auto. }
  case_bool_decide as Hs; [|intros [= <- <-]; destruct model; split_and!; auto].
  destruct (json_Unmarshal s) as [extraData|e].
  - destruct model.
    do 2 case_bool_decide; intros [= <- <-]; cbn; split_and!; eauto; done.
  - intros [= <- <-]. destruct model. split_and!; auto.
Qed.

Lemma parseCertification_invariant_witness :
  set_dm_CertifiedBy datasetMetric_zero (types.StringValue "alice")
  = set_dm_CertificationDetails
      (set_dm_CertifiedBy datasetMetric_zero
         (dm_CertifiedBy (set_dm_CertifiedBy datasetMetric_zero (types.StringValue "alice"))))
      (dm_CertificationDetails
         (set_dm_CertifiedBy datasetMetric_zero (types.StringValue "alice"))) /\
  (dm_CertifiedBy (set_dm_CertifiedBy datasetMetric_zero (types.StringValue "alice"))
   = dm_CertifiedBy datasetMetric_zero \/
   exists s, s <> "" /\
     dm_CertifiedBy (set_dm_CertifiedBy datasetMetric_zero (types.StringValue "alice"))
     = types.StringValue s) /\
  (dm_CertificationDetails (set_dm_CertifiedBy datasetMetric_zero (types.StringValue "alice"))
   = dm_CertificationDetails datasetMetric_zero \/
   exists s, s <> "" /\
     dm_CertificationDetails
       (set_dm_CertifiedBy datasetMetric_zero (types.StringValue "alice"))
     = types.StringValue s) /\
  (@None error <> None ->
   set_dm_CertifiedBy datasetMetric_zero (types.StringValue "alice") = datasetMetric_zero).
Proof.
  apply (parseCertification_invariant Unmarshal_ex datasetMetric_zero _
           (metric_server "METRIC1"
              (Value (json_text (extraData_of
                 (metric_declared "METRIC1" (types.StringValue "alice") types.StringNull)))))).
  vm_compute. reflexivity.
Defined.

(** ** Properties of the user Update *)

Lemma resolveRoleIDsFromNames_loop_length m elems ids nf ids' nf' :
  resolveRoleIDsFromNames_loop m elems ids nf = Done (ids', nf') ->
  (length ids' + length nf' = length ids + length nf + length elems)%nat.
Proof.
  revert ids nf. induction elems as [|e elems IH]; intros ids nf; cbn.
  - intros [= <- <-]. lia.
  - destruct (as_String e) as [s|]; [|done]. cbn.
    destruct (m !! _); intros ->%IH; rewrite length_app; cbn; lia.
Qed.

Lemma resolveGroupIDsFromNames_loop_length m elems ids nf ids' nf' :
  resolveGroupIDsFromNames_loop m elems ids nf = Done (ids', nf') ->
  (length ids' + length nf' = length ids + length nf + length elems)%nat.
Proof.
  revert ids nf. induction elems as [|e elems IH]; intros ids nf; cbn.
  - intros [= <- <-]. lia.
  - destruct (as_String e) as [s|]; [|done]. cbn.
    destruct (m !! _); intros ->%IH; rewrite length_app; cbn; lia.
Qed.

Lemma appended_Some (ids : list Z) : (0 < length ids)%nat -> appended ids = Some ids.
Proof. by destruct ids; [cbn; lia|]. Qed.

Lemma resolveRoleIDsFromNames_all_found plan roles r :
  (0 < length (Set_Elements (um_RoleNames plan)))%nat ->
  resolveRoleIDsFromNames plan roles = Done r ->
  ~ (0 < length (snd r))%nat ->
  appended (fst r) = Some (fst r) /\ r = (fst r, []).
Proof.
  intros Hlen Hr Hnf. destruct r as [ids nf]. cbn in *.
  destruct nf; [|cbn in Hnf; lia]. split; [|done]. apply appended_Some.
  unfold resolveRoleIDsFromNames in Hr.
  destruct (um_RoleNames plan); cbn in *; try lia.
  apply resolveRoleIDsFromNames_loop_length in Hr. cbn in Hr. lia.
Qed.

Lemma resolveGroupIDsFromNames_all_found plan groups r :
  (0 < length (Set_Elements (um_GroupNames plan)))%nat ->
  resolveGroupIDsFromNames plan groups = Done r ->
  ~ (0 < length (snd r))%nat ->
  appended (fst r) = Some (fst r) /\ r = (fst r, []).
Proof.
  intros Hlen Hr Hnf. destruct r as [ids nf]. cbn in *.
  destruct nf; [|cbn in Hnf; lia]. split; [|done]. apply appended_Some.
  unfold resolveGroupIDsFromNames in Hr.
  destruct (um_GroupNames plan); cbn in *; try lia.
  apply resolveGroupIDsFromNames_loop_length in Hr. cbn in Hr. lia.
Qed.

Lemma UserResource_Update_send_calls client diags plan state setDiags putData calls0
    resp calls :
  UserResource_Update_send client diags plan state setDiags putData calls0
  = Done (resp, calls) ->
  calls = calls0 ++ [UpdateUpdateUser (ValueInt64 (um_Id plan)) putData].
Proof.
  unfold UserResource_Update_send.
  destruct (uu_UpdateUser client _ _) as [u|err]; [|by intros [= <- <-]].
  destruct (userBaseModel_updateState _ _ _); [|done]. by intros [= <- <-].
Qed.

Lemma UserResource_Update_roles_calls client diags plan state setDiags putData calls0
    resp calls id put :
  UserResource_Update_roles client diags plan state setDiags putData calls0
  = Done (resp, calls) ->
  UpdateUpdateUser id put ∈ calls ->
  UpdateUpdateUser id put ∈ calls0 \/
  (id = ValueInt64 (um_Id plan) /\ up_Groups put = up_Groups putData /\
   exists roleIds, up_Roles put = Some roleIds /\ roles_resolved client plan roleIds).
Proof.
  unfold UserResource_Update_roles. case_bool_decide as Hlen.
  - destruct (uu_ListRoles client) as [roles|err] eqn:HL.
    + destruct (resolveRoleIDsFromNames plan roles) as [r|] eqn:Hr; [|done].
      cbn [mbind go_bind]. case_bool_decide as Hnf.
      * intros [= <- <-] Hin. left.
        apply elem_of_app in Hin as [Hin|Hin]; [done|].
        apply list_elem_of_singleton in Hin. done.
      * destruct (resolveRoleIDsFromNames_all_found _ _ _ Hlen Hr Hnf) as [Ha Hr'].
        intros ->%UserResource_Update_send_calls Hin.
        apply elem_of_app in Hin as [Hin|Hin].
        { apply elem_of_app in Hin as [Hin|Hin]; [by left|].
          apply list_elem_of_singleton in Hin. done. }
        apply list_elem_of_singleton in Hin. injection Hin as -> ->. right.
        split_and!; [done..|]. exists (fst r). split; [by rewrite <- Ha|].
        right. exists roles. split; [done|]. by rewrite <- Hr'.
    + intros [= <- <-] Hin. left.
      apply elem_of_app in Hin as [Hin|Hin]; [done|].
      apply list_elem_of_singleton in Hin. done.
  - intros ->%UserResource_Update_send_calls Hin.
    apply elem_of_app in Hin as [Hin|Hin]; [by left|].
    apply list_elem_of_singleton in Hin. injection Hin as -> ->. right.
    split_and!; [done..|]. exists []. split; [done|]. left. split; [|done].
    destruct (Set_Elements (um_RoleNames plan)); [done|]. cbn in Hlen. lia.
Qed.

(** X15.  An update never goes out with an unresolved name.  Every
    [UpdateUser] call that [UserResource.Update] makes is for the id of
    the plan and carries a group list and a role list that are not nil:
    the empty list when the plan declares no names (which clears the
    groups or roles of the user), and otherwise the ids the listed
    groups and roles resolve the declared names to, with no name not
    found. *)
Theorem Update_sends_only_resolved_ids
    (client : UserUpdateClient) (planDiags stateDiags : list Diagnostic)
    (plan state : userBaseModel) (setDiags : userBaseModel -> list Diagnostic)
    (resp : UpdateResponse) (calls : list UserUpdateCall)
    (id : Z) (put : SupersetUserApiPut) :
  UserResource_Update client planDiags stateDiags plan state setDiags
  = Done (resp, calls) ->
  UpdateUpdateUser id put ∈ calls ->
  id = ValueInt64 (um_Id plan) /\
  (exists groupIds, up_Groups put = Some groupIds /\ groups_resolved client plan groupIds) /\
  (exists roleIds, up_Roles put = Some roleIds /\ roles_resolved client plan roleIds).
Proof.
  unfold UserResource_Update.
  destruct (HasError (planDiags ++ stateDiags)).
  { intros [= <- <-] Hin. by apply elem_of_nil in Hin. }
  case_bool_decide as Hlen.
  - destruct (uu_ListGroups client) as [groups|err] eqn:HL.
    + destruct (resolveGroupIDsFromNames plan groups) as [r|] eqn:Hr; [|done].
      cbn [mbind go_bind]. case_bool_decide as Hnf.
      * intros [= <- <-] Hin. apply list_elem_of_singleton in Hin. done.
      * destruct (resolveGroupIDsFromNames_all_found _ _ _ Hlen Hr Hnf) as [Ha Hr'].
        intros Hrun Hin.
        destruct (UserResource_Update_roles_calls _ _ _ _ _ _ _ _ _ _ _ Hrun Hin)
          as [Hin0|(-> & Hg & Hroles)].
        { apply list_elem_of_singleton in Hin0. done. }
        split_and!; [done| |done]. exists (fst r). cbn [set_up_Groups up_Groups] in Hg.
        split; [by rewrite Hg, Ha|]. right. exists groups. split; [done|].
        by rewrite <- Hr'.
    + intros [= <- <-] Hin. apply list_elem_of_singleton in Hin. done.
  - intros Hrun Hin.
    destruct (UserResource_Update_roles_calls _ _ _ _ _ _ _ _ _ _ _ Hrun Hin)
      as [Hin0|(-> & Hg & Hroles)].
    { by apply elem_of_nil in Hin0. }
    split_and!; [done| |done]. exists []. cbn [set_up_Groups up_Groups] in Hg.
    split; [done|]. left. split; [|done].
    destruct (Set_Elements (um_GroupNames plan)); [done|]. cbn in Hlen. lia.
Qed.

Lemma Update_sends_only_resolved_ids_witness :
  42%Z = ValueInt64 (um_Id
         {| um_Id := types.Int64Value 42;
            um_Username := types.StringValue "alice";
            um_Email := types.StringValue "alice@example.com";
            um_FirstName := types.StringValue "Alice";
            um_LastName := types.StringValue "A";
            um_Password := types.StringNull;
            um_RoleNames := SetValue [name_element "Gamma"];
            um_GroupNames := SetNull;
            um_Active := types.BoolValue true |}) /\
  (exists groupIds,
      up_Groups {| up_Email := "alice@example.com"; up_FirstName := "Alice";
                   up_LastName := "A"; up_Password := ""; up_Active := true;
                   up_Groups := Some []; up_Roles := Some [3%Z] |} = Some groupIds /\
      groups_resolved user_update_client_ex
        {| um_Id := types.Int64Value 42;
           um_Username := types.StringValue "alice";
           um_Email := types.StringValue "alice@example.com";
           um_FirstName := types.StringValue "Alice";
           um_LastName := types.StringValue "A";
           um_Password := types.StringNull;
           um_RoleNames := SetValue [name_element "Gamma"];
           um_GroupNames := SetNull;
           um_Active := types.BoolValue true |} groupIds) /\
  (exists roleIds,
      up_Roles {| up_Email := "alice@example.com"; up_FirstName := "Alice";
                  up_LastName := "A"; up_Password := ""; up_Active := true;
                  up_Groups := Some []; up_Roles := Some [3%Z] |} = Some roleIds /\
      roles_resolved user_update_client_ex
        {| um_Id := types.Int64Value 42;
           um_Username := types.StringValue "alice";
           um_Email := types.StringValue "alice@example.com";
           um_FirstName := types.StringValue "Alice";
           um_LastName := types.StringValue "A";
           um_Password := types.StringNull;
           um_RoleNames := SetValue [name_element "Gamma"];
           um_GroupNames := SetNull;
           um_Active := types.BoolValue true |} roleIds).
Proof.
  eapply (Update_sends_only_resolved_ids user_update_client_ex [] []
            {| um_Id := types.Int64Value 42;
               um_Username := types.StringValue "alice";
               um_Email := types.StringValue "alice@example.com";
               um_FirstName := types.StringValue "Alice";
               um_LastName := types.StringValue "A";
               um_Password := types.StringNull;
               um_RoleNames := SetValue [name_element "Gamma"];
               um_GroupNames := SetNull;
               um_Active := types.BoolValue true |}
            (user_model SetNull SetNull) (fun _ => [])).
  - vm_compute. reflexivity.
  - right. left.
Defined.

(** ** Properties of the permission validator *)

Lemma permission_element_attributes (ab : string * string) :
  attribute_String
    (ObjectValue
       (<["permission_name" := PString (types.StringValue (fst ab))]>
          (<["view_menu_name" := PString (types.StringValue (snd ab))]> ∅)))
    "permission_name" = Done (types.StringValue (fst ab)) /\
  attribute_String
    (ObjectValue
       (<["permission_name" := PString (types.StringValue (fst ab))]>
          (<["view_menu_name" := PString (types.StringValue (snd ab))]> ∅)))
    "view_menu_name" = Done (types.StringValue (snd ab)).
Proof.
  unfold attribute_String. cbn [Object_Attributes]. split.
  - by rewrite lookup_insert_eq.
  - rewrite lookup_insert_ne by done. by rewrite lookup_insert_eq.
Qed.

Lemma ValidateConfig_loop_duplicates Quote pairs i seen diags :
  ValidateConfig_loop Quote (map permission_element pairs) i seen diags
  = Done (diags ++ map (fun d => (d.1.1, duplicate_permission Quote d.2 d.1.2))
                       (duplicates (permission_keys pairs) i seen)).
Proof.
  revert i seen diags. induction pairs as [|ab pairs IH]; intros i seen diags.
  - cbn. by rewrite app_nil_r.
  - cbn [map permission_keys ValidateConfig_loop permission_element duplicates].
    destruct (permission_element_attributes ab) as [-> ->].
    cbn [mbind go_bind types.IsNull String_IsUnknown orb types.ValueString].
    fold (permission_keys pairs).
    destruct (seen !! _) as [firstIdx|]; rewrite IH; [|done].
    by rewrite <- app_assoc.
Qed.

Lemma first_at_unique l k j j' : first_at l k j -> first_at l k j' -> j = j'.
Proof.
  intros [H1 H2] [H1' H2'].
  destruct (Nat.lt_trichotomy j j') as [Hlt|[->|Hlt]]; [|done|].
  - by destruct (H2' _ Hlt).
  - by destruct (H2 _ Hlt).
Qed.

Lemma first_at_app_l l l' k j : first_at l k j -> first_at (l ++ l') k j.
Proof.
  intros [H1 H2]. pose proof (lookup_lt_Some _ _ _ H1) as Hj. split.
  - by rewrite lookup_app_l.
  - intros j' Hj'. rewrite lookup_app_l by lia. by apply H2.
Qed.

Lemma duplicates_spec prefix keys seen n j key :
  (forall k j, seen !! k = Some j -> first_at prefix k j) ->
  (forall k, seen !! k = None -> k ∉ prefix) ->
  (n, j, key) ∈ duplicates keys (length prefix) seen <->
  (length prefix <= n)%nat /\ (prefix ++ keys) !! n = Some key /\ (j < n)%nat /\
  first_at (prefix ++ keys) key j.
Proof.
  revert prefix seen. induction keys as [|key0 keys IH]; intros prefix seen Hs Hn.
  - cbn. rewrite app_nil_r. split; [by intros ?%elem_of_nil|].
    intros (Hle & Hl%lookup_lt_Some & _). lia.
  - assert (length (prefix ++ [key0]) = S (length prefix)) as Hlen
      by (rewrite length_app; cbn; lia).
    assert ((prefix ++ key0 :: keys) !! length prefix = Some key0) as Hhere
      by (by rewrite list_lookup_middle).
    cbn [duplicates]. rewrite (cons_middle key0 prefix keys), app_assoc.
    rewrite (cons_middle key0 prefix keys), app_assoc in Hhere.
    destruct (seen !! key0) as [j0|] eqn:Hk0.
    + pose proof (Hs _ _ Hk0) as Hf0.
      pose proof (lookup_lt_Some _ _ _ (proj1 Hf0)) as Hj0.
      rewrite elem_of_cons, <- Hlen, IH, Hlen; clear IH.
      * split.
        -- intros [[= -> -> ->]|(Hle & Hl & Hj & Hf)].
           ++ split_and!; [lia|done|done|].
              rewrite <- app_assoc. by apply first_at_app_l.
           ++ split_and!; [lia|done..].
        -- intros (Hle & Hl & Hj & Hf).
           destruct (decide (n = length prefix)) as [->|Hne].
           ++ left. rewrite Hhere in Hl. injection Hl as <-.
              assert (j = j0) as ->; [|done].
              eapply first_at_unique; [done|].
              rewrite <- app_assoc. by apply first_at_app_l.
           ++ right. split_and!; [lia|done..].
      * intros k j' Hk. apply first_at_app_l. by apply Hs.
      * intros k Hk. rewrite elem_of_app, list_elem_of_singleton.
        intros [Hin| ->]; [by apply (Hn k)|congruence].
    + pose proof (Hn _ Hk0) as Hnot.
      rewrite <- Hlen, IH, Hlen; clear IH.
      * split.
        -- intros (Hle & Hl & Hj & Hf). split_and!; [lia|done..].
        -- intros (Hle & Hl & Hj & Hf).
           destruct (decide (n = length prefix)) as [->|Hne]; [|split_and!; [lia|done..]].
           rewrite Hhere in Hl. injection Hl as <-. destruct Hf as [Hf _].
           rewrite <- app_assoc, lookup_app_l in Hf by done.
           destruct Hnot. by eapply list_elem_of_lookup_2.
      * intros k j'. destruct (decide (k = key0)) as [->|Hne].
        -- rewrite lookup_insert_eq. intros [= <-]. split.
           ++ by rewrite lookup_app_r, Nat.sub_diag.
           ++ intros j' Hj'. rewrite lookup_app_l by done. intros Hl.
              destruct Hnot. by eapply list_elem_of_lookup_2.
        -- rewrite lookup_insert_ne by done. intros Hk.
           apply first_at_app_l. by apply Hs.
      * intros k. destruct (decide (k = key0)) as [->|Hne].
        -- by rewrite lookup_insert_eq.
        -- rewrite lookup_insert_ne by done. intros Hk.
           rewrite elem_of_app, list_elem_of_singleton.
           intros [Hin|?]; [by apply (Hn k)|done].
Qed.

Lemma occurs_before_dec (l : list string) (k : string) (n : nat) :
  (exists j', (j' < n)%nat /\ l !! j' = Some k) \/
  (forall j', (j' < n)%nat -> l !! j' <> Some k).
Proof.
  induction n as [|n [(j' & Hlt & Hj')|Hno]].
  - right. intros j' Hlt. lia.
  - left. exists j'. split; [lia|done].
  - destruct (decide (l !! n = Some k)) as [Hn|Hn].
    + left. exists n. split; [lia|done].
    + right. intros j' Hlt. destruct (decide (j' = n)) as [->|Hne]; [done|].
      apply Hno. lia.
Qed.

Lemma first_at_exists l k n :
  l !! n = Some k -> exists j, (j <= n)%nat /\ first_at l k j.
Proof.
  induction (lt_wf n) as [n _ IH]. intros Hl.
  destruct (occurs_before_dec l k n) as [(j' & Hlt & Hj')|Hno].
  - destruct (IH j' Hlt Hj') as (j & Hle & Hf). exists j. split; [lia|done].
  - exists n. split; [done|]. by split.
Qed.

(** X16.  The validator of a role's permissions reports exactly the
    repeated permissions.  On a list of fully specified permission
    objects, and with a configuration read without error,
    [ValidateConfig] adds an attribute error at index [i] exactly when
    the key (permission name, underscore, view menu name) of element [i]
    is the key of an earlier element; the error names the key and the
    index of its first occurrence.  It adds no diagnostic at all exactly
    when no two elements have the same key. *)
Theorem ValidateConfig_reports_duplicates
    (Quote : string -> string) (configDiags : list Diagnostic)
    (pairs : list (string * string)) :
  HasError configDiags = false ->
  exists ds,
    ValidateConfig Quote configDiags (ListValue (map permission_element pairs))
    = Done (configDiags, ds) /\
    (forall i d, (i, d) ∈ ds <->
       exists key j, permission_keys pairs !! i = Some key /\ (j < i)%nat /\
                     first_at (permission_keys pairs) key j /\
                     d = duplicate_permission Quote key j) /\
    (ds = [] <-> NoDup (permission_keys pairs)).
Proof.
  intros Hc. unfold ValidateConfig. rewrite Hc.
  cbn [List_IsNull List_IsUnknown orb List_Elements].
  rewrite ValidateConfig_loop_duplicates. cbn [mbind go_bind app].
  eexists. split; [done|].
  assert (forall n j key,
            (n, j, key) ∈ duplicates (permission_keys pairs) 0 ∅ <->
            permission_keys pairs !! n = Some key /\ (j < n)%nat /\
            first_at (permission_keys pairs) key j) as Hspec.
  { intros n j key.
    rewrite (duplicates_spec [] (permission_keys pairs) ∅ n j key); cbn [length app].
    - split; [intros (_ & ?); done|intros ?; split; [lia|done]].
    - intros k j'. by rewrite lookup_empty.
    - intros k _. apply not_elem_of_nil. }
  split.
  - intros i d. rewrite list_elem_of_fmap. split.
    + intros ([[n j] key] & Heq & Hin). cbn in Heq. injection Heq as -> ->.
      apply Hspec in Hin as (Hn & Hlt & Hf). by exists key, j.
    + intros (key & j & Hi & Hj & Hf & ->). exists (i, j, key). split; [done|].
      by apply Hspec.
  - split.
    + intros Hnil%fmap_nil_inv. apply NoDup_alt. intros a b x Ha Hb.
      destruct (Nat.lt_trichotomy a b) as [Hlt|[->|Hlt]]; [|done|]; exfalso.
      * destruct (first_at_exists _ _ _ Ha) as (j & Hle & Hf).
        assert ((b, j, x) ∈ duplicates (permission_keys pairs) 0 ∅) as Hin
          by (apply Hspec; split_and!; [done|lia|done]).
        rewrite Hnil in Hin. by apply elem_of_nil in Hin.
      * destruct (first_at_exists _ _ _ Hb) as (j & Hle & Hf).
        assert ((a, j, x) ∈ duplicates (permission_keys pairs) 0 ∅) as Hin
          by (apply Hspec; split_and!; [done|lia|done]).
        rewrite Hnil in Hin. by apply elem_of_nil in Hin.
    + intros Hnd. destruct (duplicates _ _ _) as [|[[n j] key] rest] eqn:Hd; [done|].
      exfalso.
      assert ((n, j, key) ∈ (n, j, key) :: rest) as Hin by (by left).
      apply Hspec in Hin as (Hn & Hlt & Hj & _).
      pose proof (NoDup_lookup _ _ _ _ Hnd Hn Hj). lia.
Qed.

Lemma ValidateConfig_reports_duplicates_witness :
  exists ds,
    ValidateConfig Quote_ex []
      (ListValue (map permission_element
                      [("can_read", "Chart"); ("can_write", "Chart"); ("can_read", "Chart")]))
    = Done ([], ds) /\
    (forall i d, (i, d) ∈ ds <->
       exists key j,
         permission_keys [("can_read", "Chart"); ("can_write", "Chart"); ("can_read", "Chart")]
           !! i = Some key /\ (j < i)%nat /\
         first_at (permission_keys
                     [("can_read", "Chart"); ("can_write", "Chart"); ("can_read", "Chart")])
                  key j /\
         d = duplicate_permission Quote_ex key j) /\
    (ds = [] <->
     NoDup (permission_keys
              [("can_read", "Chart"); ("can_write", "Chart"); ("can_read", "Chart")])).
Proof.
  apply (ValidateConfig_reports_duplicates Quote_ex []
           [("can_read", "Chart"); ("can_write", "Chart"); ("can_read", "Chart")]).
  reflexivity.
Defined.

Example ValidateConfig_ex :
  ValidateConfig Quote_ex []
    (ListValue (map permission_element
                    [("can_read", "Chart"); ("can_write", "Chart"); ("can_read", "Chart")]))
  = Done ([], [(2%nat, duplicate_permission Quote_ex "can_read_Chart" 0)]).
Proof. vm_compute. reflexivity. Qed.
